(** * ai-sentiment-analyzer: search de-duplication, sentiment analysis
      and monitoring

    A shallow embedding of the server-side core of the repository:

    - [server/services/searchService.ts]: [deduplicateResults] and the
      aggregation done by [searchSocialMedia]; the four platform searches
      with their mock results and the extraction of authors, over a search
      API given as an oracle (module [Forge]);
    - [server/services/analysisService.ts]: [analyzeSentiment] with its
      [getComments] helper, which reads the index lists of the response as
      untyped values, and the keyword classifier [getFallbackAnalysis];
    - [server/db.ts]: the row stores used by the monitor;
    - [server/services/monitorService.ts]: [executeMonitorTask],
      [executeMonitoringTasks] and [shouldTaskRun];
    - [server/routers.ts]: the [analysis.analyze] procedure.

    Conventions.  A JavaScript string is a sequence of UTF-16 code units;
    the embedding uses Rocq's [string], whose characters stand for the code
    units 0..255 (the Latin-1 range), on which [toLowerCase] and the [\s]
    class are given exactly.  JavaScript numbers that the code keeps
    integral (lengths, counters, identifiers, percentages after
    [Math.round]) are values of [Z]; the computations that leave the
    integers, [Math.round((count / total) * 100)] and the hours of
    [shouldTaskRun], are carried out on IEEE 754 binary64 values with the
    Standard Library's [SpecFloat].  Asynchronous functions become functions
    of a state-and-exception monad over an explicit [World].  What the code
    reads from JSON without checking it is given as JavaScript finds it
    where the code looks at it: the index lists of the language model's
    response, and the entries of the replies of the search API as far as
    the interface [SearchResult] holds of what is pushed. *)

From Stdlib Require Import ZArith String Ascii List Bool Lia.
From Stdlib Require Import Floats.SpecFloat.
From stdpp Require Import base decidable option list sets gmap strings.

Local Open Scope string_scope.
Local Open Scope list_scope.
Local Open Scope Z_scope.

(** ** JavaScript strings *)

Module JsString.

Definition code (c : ascii) : N := N_of_ascii c.

(** [String.prototype.toLowerCase] on one Latin-1 code unit: [A-Z] and
    U+00C0..U+00DE without the multiplication sign U+00D7 move up by 32. *)
Definition lowerUnit (c : ascii) : ascii :=
  let n := code c in
  if ((65 <=? n) && (n <=? 90)
      || (192 <=? n) && (n <=? 222) && negb (n =? 215))%N
  then ascii_of_N (n + 32)
  else c.

Fixpoint toLowerCase (s : string) : string :=
  match s with
  | EmptyString => EmptyString
  | String c s' => String (lowerUnit c) (toLowerCase s')
  end.

(** The regular-expression class [\s] below U+0100: TAB, LF, VT, FF, CR,
    SPACE and NO-BREAK SPACE. *)
Definition isWhitespace (c : ascii) : bool :=
  let n := code c in
  ((9 <=? n) && (n <=? 13) || (n =? 32) || (n =? 160))%N.

(** [s.slice(0, n)]. *)
Fixpoint slice0 (n : nat) (s : string) : string :=
  match n, s with
  | O, _ => EmptyString
  | _, EmptyString => EmptyString
  | S n', String c s' => String c (slice0 n' s')
  end.

(** [s.replace(/\s+/g, " ")]: every maximal run of white space becomes one
    space.  [inRun] tells that the previous code unit was white space. *)
Fixpoint collapseFrom (inRun : bool) (s : string) : string :=
  match s with
  | EmptyString => EmptyString
  | String c s' =>
      if isWhitespace c
      then if inRun then collapseFrom true s'
           else String " " (collapseFrom true s')
      else String c (collapseFrom false s')
  end.

Definition collapseWhitespace (s : string) : string := collapseFrom false s.

(** [s.startsWith(k)] and [s.includes(k)]. *)
Fixpoint startsWith (k s : string) : bool :=
  match k, s with
  | EmptyString, _ => true
  | String _ _, EmptyString => false
  | String a k', String b s' => bool_decide (a = b) && startsWith k' s'
  end.

Fixpoint includes (s k : string) : bool :=
  startsWith k s ||
  match s with
  | EmptyString => false
  | String _ s' => includes s' k
  end.

(** [s.length] as an integer. *)
Definition length (s : string) : Z := Z.of_nat (String.length s).

End JsString.

(** ** searchService.ts *)

Inductive Platform := twitter | reddit | news | web.

Record SearchResult := {
  text : string;
  source : string;
  author : option string;
  url : option string;
  date : option string;
  platform : Platform
}.

(** The comparison key of [deduplicateResults]:
    [result.text.toLowerCase().slice(0, 100).replace(/\s+/g, " ")]. *)
Definition dedupKey (result : SearchResult) : string :=
  JsString.collapseWhitespace
    (JsString.slice0 100 (JsString.toLowerCase (text result))).

(** State of the loop of [deduplicateResults]: the set [seen] and the array
    [deduplicated]. *)
Definition DedupState : Type := gset string * list SearchResult.

(** One iteration of [for (const result of results)]. *)
Definition dedupStep (st : DedupState) (result : SearchResult) : DedupState :=
  let key := dedupKey result in
  if bool_decide (key ∉ st.1) && (20 <? JsString.length (text result))
  then ({[ key ]} ∪ st.1, st.2 ++ [result])
  else st.

Definition deduplicateResults (results : list SearchResult) : list SearchResult :=
  (fold_left dedupStep results (∅, [])).2.

Record SearchResponse := {
  results : list SearchResult;
  totalFound : Z;
  sources : list string;
  sourceBreakdown : Z * Z * Z * Z   (* twitter, reddit, news, web *)
}.

(** [Array.from(new Set(xs))]: first occurrences, in order. *)
Fixpoint uniqueInOrder (seen : gset string) (xs : list string) : list string :=
  match xs with
  | [] => []
  | x :: xs' =>
      if bool_decide (x ∈ seen) then uniqueInOrder seen xs'
      else x :: uniqueInOrder ({[ x ]} ∪ seen) xs'
  end.

(** [searchSocialMedia] once the four platform searches have resolved with
    [tw], [rd], [nw] and [wb]. *)
Definition searchSocialMedia_merge (tw rd nw wb : list SearchResult) : SearchResponse :=
  let allResults := tw ++ rd ++ nw ++ wb in
  let deduplicatedResults := deduplicateResults allResults in
  {| results := deduplicatedResults;
     totalFound := Z.of_nat (List.length deduplicatedResults);
     sources := uniqueInOrder ∅ (source <$> deduplicatedResults);
     sourceBreakdown :=
       (Z.of_nat (List.length tw), Z.of_nat (List.length rd),
        Z.of_nat (List.length nw), Z.of_nat (List.length wb)) |}.

(** ** Worlds, exceptions and the monad of asynchronous functions *)

Inductive Sentiment := positive | negative | neutral | mixed.

(** A representative comment: [{ text, source, author }]. *)
Module Comment.
Record t := { text : string; source : string; author : option string }.
End Comment.

Definition commentOf (result : SearchResult) : Comment.t :=
  {| Comment.text := text result;
     Comment.source := source result;
     Comment.author := author result |}.

(** The repository's fixed texts are Chinese and lie outside the code units
    of [string]; they are kept as constructors.  [FallbackSummary] carries
    the values interpolated into the template of [getFallbackAnalysis]. *)
Inductive Summary :=
| SummaryText (s : string)
| FallbackSummary (count : Z) (productName : string) (overall : Sentiment)
                  (positiveRatio negativeRatio neutralRatio : Z).

Inductive Theme :=
| ThemeText (s : string)
| ProductFeatures        (* "产品功能" *)
| UserExperience         (* "用户体验" *)
| ValueForMoney          (* "性价比" *)
| TechnicalCapability    (* "技术能力" *)
| CustomerService.       (* "客户服务" *)

(** [SentimentAnalysis] as it exists at run time: the six fields copied from
    the parsed response are [None] when the response lacks them
    ([undefined] in JavaScript). *)
Record SentimentAnalysis := {
  overallSentiment : option Sentiment;
  positiveRatio : option Z;
  negativeRatio : option Z;
  neutralRatio : option Z;
  summary : option Summary;
  keyThemes : option (list Theme);
  positiveComments : list Comment.t;
  negativeComments : list Comment.t;
  neutralComments : list Comment.t
}.

(** The value of [JSON.parse(content)] when it is an object.  The six
    properties that are copied into the result are absent or have the type
    the response schema declares for them (a label of the enumeration, an
    integer, a string, an array of strings).  The three index lists are read
    by the code, and nothing checks them against the schema: they are given
    as JavaScript finds them. *)
Module Llm.

(** An element of an array in the place of an index list, by the Number
    that [i >= 1], [i <= searchResults.length] and [i - 1] convert it to: a
    JSON number is that number, [true] is 1, [false], [null] and the empty
    string are 0, another string is the number it reads as and NaN when it
    reads as none, an array or an object is what its string reads as.  The
    code compares the number with integers only, so a number that is not an
    integer is given by the integer below it. *)
Inductive Index :=
| Whole (i : Z)               (* an integer *)
| Fraction (below : Z)        (* strictly between [below] and [below + 1], as 1.5 *)
| NotANumber                  (* NaN *)
| Infinite (minus : bool).    (* Infinity (as 1e999 parses) and -Infinity *)

(** A truthy value in the place of an index list. *)
Inductive Indices :=
| NotAnArray                  (* without a [filter] method: the string "1,2", a
                                 number other than 0, [true], an object *)
| Elements (elements : list Index).

(** An index list is [None] when the value is falsy ([undefined], [null], 0,
    the empty string, [false]): [analysis.xIndices || []] is then [[]]. *)
Record Analysis := {
  overallSentiment : option Sentiment;
  positiveRatio : option Z;
  negativeRatio : option Z;
  neutralRatio : option Z;
  summary : option string;
  keyThemes : option (list string);
  positiveIndices : option Indices;
  negativeIndices : option Indices;
  neutralIndices : option Indices
}.

(** What lines 57-128 of analysisService.ts can come to.  A parsed value that
    is not an object (a number, a string, a boolean, an array) has none of
    the properties and behaves as [Parsed] of the record without fields. *)
Inductive Outcome :=
| Rejected                 (* [await invokeLLM(...)] throws (capability unreachable,
                              time-out, HTTP error), or [response.choices[0]] does *)
| NoContent                (* [choices[0]?.message?.content] is falsy *)
| Unparseable              (* [JSON.parse] throws a SyntaxError *)
| ParsedNull               (* [JSON.parse] returns [null] *)
| Parsed (analysis : Analysis).
End Llm.

Inductive TrpcCode := NOT_FOUND | BAD_REQUEST | UNAUTHORIZED.

Inductive Exn :=
| LlmInvocationError         (* whatever [invokeLLM] threw *)
| NoResponseFromLLM          (* new Error("No response from LLM") *)
| SyntaxError
| TypeError
| DatabaseNotAvailable       (* new Error("Database not available") *)
| QueryError                 (* the database driver rejected the statement *)
| SearchError                (* whatever [searchSocialMedia] threw *)
| NotificationError          (* whatever [notifyOwner] threw *)
| TRPCError (code : TrpcCode).

Inductive Result (A : Type) :=
| Ok (a : A)
| Throw (e : Exn).
Arguments Ok {A} a.
Arguments Throw {A} e.

Inductive Frequency := daily | weekly | monthly.

Inductive Direction := Up (* "上升" *) | Down (* "下降" *).

(** Title and message of a change notification, by the values interpolated
    into them: [task.productName], [changeDirection], [changeAmount] and
    [currentSentimentScore]. *)
Record ChangeNotice := {
  noticeProduct : string;
  noticeDirection : Direction;
  noticeAmount : Z;
  noticeScore : Z
}.

(** Rows of [analysis_records]; [InsertAnalysisRecord] values are rows without
    [id], and a field that must not be NULL may still arrive [undefined]. *)
Module AnalysisRecord.
Record Insert := {
  userId : Z;
  productName : string;
  overallSentiment : option Sentiment;
  positiveRatio : option Z;
  negativeRatio : option Z;
  neutralRatio : option Z;
  summary : option Summary;
  keyThemes : option (list Theme);
  positiveComments : list Comment.t;
  negativeComments : list Comment.t;
  neutralComments : list Comment.t;
  totalCommentsAnalyzed : Z;
  sources : list string
}.
Record t := { id : Z; row : Insert; createdAt : Z }.

(** The NOT NULL columns that the callers fill from a [SentimentAnalysis]. *)
Definition complete (r : Insert) : bool :=
  bool_decide (is_Some (overallSentiment r)) && bool_decide (is_Some (positiveRatio r)) &&
  bool_decide (is_Some (negativeRatio r)) && bool_decide (is_Some (neutralRatio r)) &&
  bool_decide (is_Some (summary r)) && bool_decide (is_Some (keyThemes r)).
End AnalysisRecord.

Module MonitorTask.
Record t := {
  id : Z;
  userId : Z;
  productName : string;
  isActive : bool;
  frequency : Frequency;
  notifyOnSignificantChange : bool;
  significantChangeThreshold : Z;
  notifyEmail : bool;
  notifyInApp : bool;
  lastAnalysisId : option Z;
  lastAnalyzedAt : option Z;
  lastSentimentScore : option Z
}.
End MonitorTask.

Module Notification.
Record Insert := {
  userId : Z;
  notice : ChangeNotice;       (* type "sentiment_change", title and message *)
  analysisId : option Z;
  monitorTaskId : option Z
}.
Record t := { id : Z; row : Insert; isRead : bool; createdAt : Z }.
End Notification.

Module SentimentTrend.
Record t := {
  id : Z;
  productName : string;
  positiveRatio : Z;
  negativeRatio : Z;
  neutralRatio : Z;
  overallScore : Z;
  totalCount : Z;
  analysisId : option Z;
  recordedAt : Z
}.
End SentimentTrend.

(** The four tables the services touch, with the AUTO_INCREMENT counters of
    the two tables they insert into. *)
Record Database := {
  analysisRecords : list AnalysisRecord.t;
  nextAnalysisId : Z;
  monitorTasks : list MonitorTask.t;
  notifications : list Notification.t;
  nextNotificationId : Z;
  sentimentTrends : list SentimentTrend.t
}.

(** Console output, by the values interpolated into each message. *)
Inductive LogEntry :=
| LogLlmAnalysisError (e : Exn)
| LogMonitorStarting
| LogMonitorFound (count : Z)
| LogMonitorTaskError (taskId : Z) (e : Exn)
| LogMonitorCompleted
| LogExecutingTask (taskId : Z) (productName : string)
| LogNoResults (productName : string)
| LogOwnerNotificationFailed (e : Exn)
| LogSignificantChange (productName : string) (changeAmount : Z)
| LogTaskCompleted (taskId : Z) (score : option Z)
| LogSaveFailed (e : Exn).

(** What the program does to its collaborators, in order. *)
Inductive Event :=
| EvSearch (productName : string)                         (* searchSocialMedia *)
| EvInvokeLLM (productName : string) (searchResults : list SearchResult)  (* invokeLLM *)
| EvNotifyOwner (notice : ChangeNotice)                   (* notifyOwner *)
| EvConsole (entry : LogEntry).

Record World := {
  db : option Database;     (* what [getDb()] returns *)
  trace : list Event;       (* oldest first *)
  clock : Z                 (* what [new Date()] reads *)
}.

Definition M (A : Type) : Type := World → Result A * World.

Definition ret {A} (a : A) : M A := λ w, (Ok a, w).
Definition throw {A} (e : Exn) : M A := λ w, (Throw e, w).
Definition bind {A B} (m : M A) (k : A → M B) : M B :=
  λ w, match m w with
       | (Ok a, w') => k a w'
       | (Throw e, w') => (Throw e, w')
       end.
(** [try { m } catch (error) { handler(error) }]. *)
Definition tryCatch {A} (m : M A) (handler : Exn → M A) : M A :=
  λ w, match m w with
       | (Ok a, w') => (Ok a, w')
       | (Throw e, w') => handler e w'
       end.

Notation "x <- m ;; k" := (bind m (λ x, k))
  (at level 20, m at level 99, k at level 200, only parsing).

Definition emit (ev : Event) : M unit :=
  λ w, (Ok tt, {| db := db w; trace := trace w ++ [ev]; clock := clock w |}).
Definition console (entry : LogEntry) : M unit := emit (EvConsole entry).
Definition getWorld : M World := λ w, (Ok w, w).
Definition liftResult {A} (r : Result A) : M A := λ w, (r, w).

(** ** The collaborators *)

(** Statements sent to the database driver. *)
Inductive Query :=
| InsertAnalysisRecord (record : AnalysisRecord.Insert)
| UpdateMonitorTask (id : Z)
| InsertNotification (notification : Notification.Insert)
| SelectActiveMonitorTasks.

(** How the outside world answers.  Every answer may depend on the world in
    which the call is made, hence on all that happened before. *)
Record Env := {
  (** how [searchSocialMedia(productName)] settles, as its callers see it *)
  searchOutcome : World → string → Result SearchResponse;
  (** how [invokeLLM] and the reading of its response come out *)
  llmOutcome : World → string → list SearchResult → Llm.Outcome;
  (** whether the driver rejects a statement (lost connection, constraint) *)
  queryFails : World → Query → bool;
  (** whether [notifyOwner] throws *)
  notifyOwnerFails : World → ChangeNotice → bool
}.

(** ** analysisService.ts *)

(** [Math.round((count / total) * 100)] on binary64 values. *)
Module JsNumber.

(** binary64: 53 bits of precision, exponent of the infinities 1024. *)
Definition prec : Z := 53.
Definition emax : Z := 1024.

(** The Number whose value is the integer [z] (exact below 2^53). *)
Definition ofZ (z : Z) : spec_float := binary_normalize prec emax z 0 false.

Definition div (x y : spec_float) : spec_float := SFdiv prec emax x y.
Definition mul (x y : spec_float) : spec_float := SFmul prec emax x y.

(** [Math.round]: the integer closest to [x], the larger one on a tie.  The
    result is given as an integer; the fall-through case covers zero, whose
    rounding is zero, and NaN and the infinities, which are not integers
    and do not arise from [count / total * 100] with [0 <= count <= total]. *)
Definition round (x : spec_float) : Z :=
  match x with
  | S754_finite s m e =>
      let v := if s then Z.neg m else Z.pos m in
      if 0 <=? e then v * 2 ^ e
      else (2 * v + 2 ^ (- e)) `div` (2 * 2 ^ (- e))
  | _ => 0
  end.

Definition percentage (count total : Z) : Z :=
  round (mul (div (ofZ count) (ofZ total)) (ofZ 100)).

End JsNumber.

Definition positiveKeywords : list string :=
  ["great"; "excellent"; "amazing"; "love"; "best"; "impressed"; "recommend";
   "fantastic"; "helpful"; "powerful"].
Definition negativeKeywords : list string :=
  ["bad"; "terrible"; "awful"; "hate"; "worst"; "disappointed"; "issues";
   "problems"; "expensive"; "concerns"].

Definition hasPositive (result : SearchResult) : bool :=
  existsb (JsString.includes (JsString.toLowerCase (text result))) positiveKeywords.
Definition hasNegative (result : SearchResult) : bool :=
  existsb (JsString.includes (JsString.toLowerCase (text result))) negativeKeywords.

(** The variables of the loop of [getFallbackAnalysis]. *)
Module Tally.
Record t := {
  positiveCount : Z;
  negativeCount : Z;
  neutralCount : Z;
  positiveComments : list Comment.t;
  negativeComments : list Comment.t;
  neutralComments : list Comment.t
}.
Definition empty : t :=
  {| positiveCount := 0; negativeCount := 0; neutralCount := 0;
     positiveComments := []; negativeComments := []; neutralComments := [] |}.
End Tally.

(** [if (comments.length < 5) comments.push(comment)]. *)
Definition pushUpTo5 (comments : list Comment.t) (comment : Comment.t) : list Comment.t :=
  if Z.of_nat (length comments) <? 5 then comments ++ [comment] else comments.

(** One iteration of [for (const result of searchResults)]. *)
Definition tallyStep (st : Tally.t) (result : SearchResult) : Tally.t :=
  let comment := commentOf result in
  if hasPositive result && negb (hasNegative result) then
    {| Tally.positiveCount := Tally.positiveCount st + 1;
       Tally.negativeCount := Tally.negativeCount st;
       Tally.neutralCount := Tally.neutralCount st;
       Tally.positiveComments := pushUpTo5 (Tally.positiveComments st) comment;
       Tally.negativeComments := Tally.negativeComments st;
       Tally.neutralComments := Tally.neutralComments st |}
  else if hasNegative result && negb (hasPositive result) then
    {| Tally.positiveCount := Tally.positiveCount st;
       Tally.negativeCount := Tally.negativeCount st + 1;
       Tally.neutralCount := Tally.neutralCount st;
       Tally.positiveComments := Tally.positiveComments st;
       Tally.negativeComments := pushUpTo5 (Tally.negativeComments st) comment;
       Tally.neutralComments := Tally.neutralComments st |}
  else
    {| Tally.positiveCount := Tally.positiveCount st;
       Tally.negativeCount := Tally.negativeCount st;
       Tally.neutralCount := Tally.neutralCount st + 1;
       Tally.positiveComments := Tally.positiveComments st;
       Tally.negativeComments := Tally.negativeComments st;
       Tally.neutralComments := pushUpTo5 (Tally.neutralComments st) comment |}.

Definition tally (searchResults : list SearchResult) : Tally.t :=
  fold_left tallyStep searchResults Tally.empty.

Definition fallbackSentiment (positiveRatio negativeRatio : Z) : Sentiment :=
  if 60 <? positiveRatio then positive
  else if 60 <? negativeRatio then negative
  else if (40 <? positiveRatio) || (40 <? negativeRatio) then mixed
  else neutral.

Definition getFallbackAnalysis (productName : string) (searchResults : list SearchResult)
  : SentimentAnalysis :=
  let st := tally searchResults in
  let len := Z.of_nat (length searchResults) in
  let total := if len =? 0 then 1 else len in       (* searchResults.length || 1 *)
  let positiveRatio := JsNumber.percentage (Tally.positiveCount st) total in
  let negativeRatio := JsNumber.percentage (Tally.negativeCount st) total in
  let neutralRatio := 100 - positiveRatio - negativeRatio in
  let overallSentiment := fallbackSentiment positiveRatio negativeRatio in
  {| overallSentiment := Some overallSentiment;
     positiveRatio := Some positiveRatio;
     negativeRatio := Some negativeRatio;
     neutralRatio := Some neutralRatio;
     summary := Some (FallbackSummary len productName overallSentiment
                                      positiveRatio negativeRatio neutralRatio);
     keyThemes := Some [ProductFeatures; UserExperience; ValueForMoney;
                        TechnicalCapability; CustomerService];
     positiveComments := Tally.positiveComments st;
     negativeComments := Tally.negativeComments st;
     neutralComments := Tally.neutralComments st |}.

(** [searchResults[i]] for a number [i]: [undefined] outside the array. *)
Definition arrayGet {A} (xs : list A) (i : Z) : option A :=
  if i <? 0 then None else xs !! Z.to_nat i.

(** [i >= n] and [i <= n] for an element [i] and an integer [n].  A number
    strictly between [below] and [below + 1] is at least [n] when [below]
    is, and at most [n] when [below + 1] is; NaN compares false. *)
Definition atLeast (i : Llm.Index) (n : Z) : bool :=
  match i with
  | Llm.Whole z => n <=? z
  | Llm.Fraction below => n <=? below
  | Llm.NotANumber => false
  | Llm.Infinite minus => negb minus
  end.

Definition atMost (i : Llm.Index) (n : Z) : bool :=
  match i with
  | Llm.Whole z => z <=? n
  | Llm.Fraction below => below + 1 <=? n
  | Llm.NotANumber => false
  | Llm.Infinite minus => minus
  end.

(** The callback of [.filter]: [i >= 1 && i <= searchResults.length]. *)
Definition indexInRange (searchResults : list SearchResult) (i : Llm.Index) : bool :=
  atLeast i 1 && atMost i (Z.of_nat (length searchResults)).

(** [searchResults[i - 1]]: an element of the array when [i - 1] is one of
    its indices, [undefined] for any other number. *)
Definition resultBefore (searchResults : list SearchResult) (i : Llm.Index)
  : option SearchResult :=
  match i with
  | Llm.Whole z => arrayGet searchResults (z - 1)
  | _ => None
  end.

(** The callback of [.map] in [getComments]: [result.text] throws a TypeError
    when [searchResults[i - 1]] is [undefined]. *)
Definition commentAt (searchResults : list SearchResult) (i : Llm.Index) : Result Comment.t :=
  match resultBefore searchResults i with
  | Some result => Ok (commentOf result)
  | None => Throw TypeError
  end.

(** [xs.map(f)] for a callback that may throw. *)
Fixpoint mapResult {A B} (f : A → Result B) (xs : list A) : Result (list B) :=
  match xs with
  | [] => Ok []
  | x :: xs' =>
      match f x with
      | Throw e => Throw e
      | Ok y =>
          match mapResult f xs' with
          | Throw e => Throw e
          | Ok ys => Ok (y :: ys)
          end
      end
  end.

(** [indices.filter(...).slice(0, 5).map(...)]; [indices.filter] is not a
    function when [indices] is not an array. *)
Definition getComments (searchResults : list SearchResult) (indices : Llm.Indices)
  : Result (list Comment.t) :=
  match indices with
  | Llm.NotAnArray => Throw TypeError
  | Llm.Elements elements =>
      mapResult (commentAt searchResults)
                (take 5 (List.filter (indexInRange searchResults) elements))
  end.

(** [analysis.xIndices || []]. *)
Definition orEmpty (indices : option Llm.Indices) : Llm.Indices :=
  default (Llm.Elements []) indices.

Section Analysis.

Variable env : Env.

(** [await invokeLLM({...})] followed by the reading of the response, up to
    [const analysis = JSON.parse(content)].  The prompts built before the
    [try] block are template strings of [productName] and [searchResults],
    the two values the answer of the collaborator depends on. *)
Definition invokeAndParse (productName : string) (searchResults : list SearchResult)
  : M (option Llm.Analysis) :=
  w <- getWorld ;;
  _ <- emit (EvInvokeLLM productName searchResults) ;;
  match llmOutcome env w productName searchResults with
  | Llm.Rejected => throw LlmInvocationError
  | Llm.NoContent => throw NoResponseFromLLM
  | Llm.Unparseable => throw SyntaxError
  | Llm.ParsedNull => ret None
  | Llm.Parsed analysis => ret (Some analysis)
  end.

(** The body of the [try] block. *)
Definition analyzeWithLLM (productName : string) (searchResults : list SearchResult)
  : M SentimentAnalysis :=
  parsed <- invokeAndParse productName searchResults ;;
  match parsed with
  | None => throw TypeError              (* null.overallSentiment *)
  | Some analysis =>
      pos <- liftResult (getComments searchResults (orEmpty (Llm.positiveIndices analysis))) ;;
      neg <- liftResult (getComments searchResults (orEmpty (Llm.negativeIndices analysis))) ;;
      neu <- liftResult (getComments searchResults (orEmpty (Llm.neutralIndices analysis))) ;;
      ret {| overallSentiment := Llm.overallSentiment analysis;
             positiveRatio := Llm.positiveRatio analysis;
             negativeRatio := Llm.negativeRatio analysis;
             neutralRatio := Llm.neutralRatio analysis;
             summary := SummaryText <$> Llm.summary analysis;
             keyThemes := map ThemeText <$> Llm.keyThemes analysis;
             positiveComments := pos;
             negativeComments := neg;
             neutralComments := neu |}
  end.

Definition analyzeSentiment (productName : string) (searchResults : list SearchResult)
  : M SentimentAnalysis :=
  tryCatch (analyzeWithLLM productName searchResults)
           (λ error,
              _ <- console (LogLlmAnalysisError error) ;;
              ret (getFallbackAnalysis productName searchResults)).

End Analysis.

(** ** db.ts *)

(** A [Partial<InsertMonitorTask>] as the monitor builds it; a key that is
    [undefined] leaves its column as it is. *)
Module TaskPatch.
Record t := {
  lastAnalysisId : option Z;
  lastAnalyzedAt : option Z;
  lastSentimentScore : option Z
}.
End TaskPatch.

Definition applyPatch (data : TaskPatch.t) (task : MonitorTask.t) : MonitorTask.t :=
  {| MonitorTask.id := MonitorTask.id task;
     MonitorTask.userId := MonitorTask.userId task;
     MonitorTask.productName := MonitorTask.productName task;
     MonitorTask.isActive := MonitorTask.isActive task;
     MonitorTask.frequency := MonitorTask.frequency task;
     MonitorTask.notifyOnSignificantChange := MonitorTask.notifyOnSignificantChange task;
     MonitorTask.significantChangeThreshold := MonitorTask.significantChangeThreshold task;
     MonitorTask.notifyEmail := MonitorTask.notifyEmail task;
     MonitorTask.notifyInApp := MonitorTask.notifyInApp task;
     MonitorTask.lastAnalysisId :=
       match TaskPatch.lastAnalysisId data with
       | Some v => Some v | None => MonitorTask.lastAnalysisId task end;
     MonitorTask.lastAnalyzedAt :=
       match TaskPatch.lastAnalyzedAt data with
       | Some v => Some v | None => MonitorTask.lastAnalyzedAt task end;
     MonitorTask.lastSentimentScore :=
       match TaskPatch.lastSentimentScore data with
       | Some v => Some v | None => MonitorTask.lastSentimentScore task end |}.

Definition setDb (d : Database) : M unit :=
  λ w, (Ok tt, {| db := Some d; trace := trace w; clock := clock w |}).

Section Services.

Variable env : Env.

(** Sending a statement to the driver, which may reject it. *)
Definition runQuery (q : Query) : M unit :=
  λ w, if queryFails env w q then (Throw QueryError, w) else (Ok tt, w).

Definition createAnalysisRecord (record : AnalysisRecord.Insert) : M Z :=
  w <- getWorld ;;
  match db w with
  | None => throw DatabaseNotAvailable
  | Some d =>
      _ <- runQuery (InsertAnalysisRecord record) ;;
      if negb (AnalysisRecord.complete record) then throw QueryError  (* NOT NULL *)
      else
        let insertId := nextAnalysisId d in
        _ <- setDb {| analysisRecords :=
                        analysisRecords d ++
                        [{| AnalysisRecord.id := insertId;
                            AnalysisRecord.row := record;
                            AnalysisRecord.createdAt := clock w |}];
                      nextAnalysisId := insertId + 1;
                      monitorTasks := monitorTasks d;
                      notifications := notifications d;
                      nextNotificationId := nextNotificationId d;
                      sentimentTrends := sentimentTrends d |} ;;
        ret insertId
  end.

Definition updateMonitorTask (id : Z) (data : TaskPatch.t) : M unit :=
  w <- getWorld ;;
  match db w with
  | None => throw DatabaseNotAvailable
  | Some d =>
      _ <- runQuery (UpdateMonitorTask id) ;;
      setDb {| analysisRecords := analysisRecords d;
               nextAnalysisId := nextAnalysisId d;
               monitorTasks :=
                 (λ task, if MonitorTask.id task =? id then applyPatch data task else task)
                   <$> monitorTasks d;
               notifications := notifications d;
               nextNotificationId := nextNotificationId d;
               sentimentTrends := sentimentTrends d |}
  end.

Definition getActiveMonitorTasks : M (list MonitorTask.t) :=
  w <- getWorld ;;
  match db w with
  | None => ret []
  | Some d =>
      _ <- runQuery SelectActiveMonitorTasks ;;
      ret (List.filter MonitorTask.isActive (monitorTasks d))
  end.

Definition createNotification (notification : Notification.Insert) : M Z :=
  w <- getWorld ;;
  match db w with
  | None => throw DatabaseNotAvailable
  | Some d =>
      _ <- runQuery (InsertNotification notification) ;;
      let insertId := nextNotificationId d in
      _ <- setDb {| analysisRecords := analysisRecords d;
                    nextAnalysisId := nextAnalysisId d;
                    monitorTasks := monitorTasks d;
                    notifications :=
                      notifications d ++
                      [{| Notification.id := insertId;
                          Notification.row := notification;
                          Notification.isRead := false;
                          Notification.createdAt := clock w |}];
                    nextNotificationId := insertId + 1;
                    sentimentTrends := sentimentTrends d |} ;;
      ret insertId
  end.

(** ** The collaborators as asynchronous functions *)

Definition searchSocialMedia (productName : string) : M SearchResponse :=
  w <- getWorld ;;
  _ <- emit (EvSearch productName) ;;
  liftResult (searchOutcome env w productName).

Definition notifyOwner (notice : ChangeNotice) : M unit :=
  w <- getWorld ;;
  _ <- emit (EvNotifyOwner notice) ;;
  if notifyOwnerFails env w notice then throw NotificationError else ret tt.

(** ** monitorService.ts *)

Definition recordOf (userId : Z) (productName : string)
           (analysis : SentimentAnalysis) (searchResponse : SearchResponse)
  : AnalysisRecord.Insert :=
  {| AnalysisRecord.userId := userId;
     AnalysisRecord.productName := productName;
     AnalysisRecord.overallSentiment := overallSentiment analysis;
     AnalysisRecord.positiveRatio := positiveRatio analysis;
     AnalysisRecord.negativeRatio := negativeRatio analysis;
     AnalysisRecord.neutralRatio := neutralRatio analysis;
     AnalysisRecord.summary := summary analysis;
     AnalysisRecord.keyThemes := keyThemes analysis;
     AnalysisRecord.positiveComments := positiveComments analysis;
     AnalysisRecord.negativeComments := negativeComments analysis;
     AnalysisRecord.neutralComments := neutralComments analysis;
     AnalysisRecord.totalCommentsAnalyzed := totalFound searchResponse;
     AnalysisRecord.sources := sources searchResponse |}.

(** Lines 80-86: the pair [(hasSignificantChange, changeAmount)]. *)
Definition checkSignificantChange (task : MonitorTask.t) (currentSentimentScore : Z)
  : bool * Z :=
  match MonitorTask.lastSentimentScore task with
  | Some lastSentimentScore =>
      if MonitorTask.notifyOnSignificantChange task then
        let changeAmount := Z.abs (currentSentimentScore - lastSentimentScore) in
        (MonitorTask.significantChangeThreshold task <=? changeAmount, changeAmount)
      else (false, 0)
  | None => (false, 0)
  end.

(** Line 97: [currentSentimentScore > (task.lastSentimentScore || 0)]. *)
Definition changeDirection (task : MonitorTask.t) (currentSentimentScore : Z) : Direction :=
  let previous :=
    match MonitorTask.lastSentimentScore task with
    | Some last => if last =? 0 then 0 else last
    | None => 0
    end in
  if previous <? currentSentimentScore then Up else Down.

(** Lines 96-126: the notifications of a significant change. *)
Definition notifyChange (task : MonitorTask.t) (analysisId currentSentimentScore changeAmount : Z)
  : M unit :=
  let notice :=
    {| noticeProduct := MonitorTask.productName task;
       noticeDirection := changeDirection task currentSentimentScore;
       noticeAmount := changeAmount;
       noticeScore := currentSentimentScore |} in
  _ <- (if MonitorTask.notifyInApp task then
          _ <- createNotification
                 {| Notification.userId := MonitorTask.userId task;
                    Notification.notice := notice;
                    Notification.analysisId := Some analysisId;
                    Notification.monitorTaskId := Some (MonitorTask.id task) |} ;;
          ret tt
        else ret tt) ;;
  _ <- (if MonitorTask.notifyEmail task then
          tryCatch (notifyOwner notice)
                   (λ error, console (LogOwnerNotificationFailed error))
        else ret tt) ;;
  console (LogSignificantChange (MonitorTask.productName task) changeAmount).

Definition executeMonitorTask (task : MonitorTask.t) : M unit :=
  _ <- console (LogExecutingTask (MonitorTask.id task) (MonitorTask.productName task)) ;;
  searchResponse <- searchSocialMedia (MonitorTask.productName task) ;;
  if Z.of_nat (length (results searchResponse)) =? 0 then
    console (LogNoResults (MonitorTask.productName task))
  else
    analysis <- analyzeSentiment env (MonitorTask.productName task) (results searchResponse) ;;
    analysisId <- createAnalysisRecord
                    (recordOf (MonitorTask.userId task) (MonitorTask.productName task)
                              analysis searchResponse) ;;
    match positiveRatio analysis with
    | Some currentSentimentScore =>
        let '(hasSignificantChange, changeAmount) :=
          checkSignificantChange task currentSentimentScore in
        w <- getWorld ;;
        _ <- updateMonitorTask (MonitorTask.id task)
               {| TaskPatch.lastAnalysisId := Some analysisId;
                  TaskPatch.lastAnalyzedAt := Some (clock w);
                  TaskPatch.lastSentimentScore := Some currentSentimentScore |} ;;
        _ <- (if hasSignificantChange
              then notifyChange task analysisId currentSentimentScore changeAmount
              else ret tt) ;;
        console (LogTaskCompleted (MonitorTask.id task) (Some currentSentimentScore))
    | None =>
        (* [currentSentimentScore] is [undefined]: [changeAmount] is NaN,
           [NaN >= threshold] is false, and the update leaves the score
           column alone.  The insert above rejects such a record, so a run
           does not come here. *)
        w <- getWorld ;;
        _ <- updateMonitorTask (MonitorTask.id task)
               {| TaskPatch.lastAnalysisId := Some analysisId;
                  TaskPatch.lastAnalyzedAt := Some (clock w);
                  TaskPatch.lastSentimentScore := None |} ;;
        console (LogTaskCompleted (MonitorTask.id task) None)
    end.

(** [try { await executeMonitorTask(task) } catch (error) { console.error(...) }]. *)
Definition guardedRun (task : MonitorTask.t) : M unit :=
  tryCatch (executeMonitorTask task)
           (λ error, console (LogMonitorTaskError (MonitorTask.id task) error)).

(** [for (const task of activeTasks) { ... }]. *)
Fixpoint forEach {A} (body : A → M unit) (xs : list A) : M unit :=
  match xs with
  | [] => ret tt
  | x :: xs' => _ <- body x ;; forEach body xs'
  end.

Definition executeMonitoringTasks : M unit :=
  _ <- console LogMonitorStarting ;;
  activeTasks <- getActiveMonitorTasks ;;
  _ <- console (LogMonitorFound (Z.of_nat (length activeTasks))) ;;
  _ <- forEach guardedRun activeTasks ;;
  console LogMonitorCompleted.

(** ** routers.ts: [analysis.analyze] *)

Record AnalyzeOutput := {
  outId : option Z;
  outProductName : string;
  outAnalysis : SentimentAnalysis;
  outTotalCommentsAnalyzed : Z;
  outSources : list string
}.

(** [user] is [ctx.user?.id]. *)
Definition analyze (user : option Z) (productName : string) : M AnalyzeOutput :=
  (* z.object({ productName: z.string().min(1).max(200) }) *)
  if (JsString.length productName <? 1) || (200 <? JsString.length productName)
  then throw (TRPCError BAD_REQUEST)
  else
    searchResponse <- searchSocialMedia productName ;;
    if Z.of_nat (length (results searchResponse)) =? 0 then
      throw (TRPCError NOT_FOUND)
    else
      analysis <- analyzeSentiment env productName (results searchResponse) ;;
      recordId <- match user with
                  | Some userId =>
                      tryCatch
                        (insertId <- createAnalysisRecord
                                       (recordOf userId productName analysis searchResponse) ;;
                         ret (Some insertId))
                        (λ error, _ <- console (LogSaveFailed error) ;; ret None)
                  | None => ret None
                  end ;;
      ret {| outId := recordId;
             outProductName := productName;
             outAnalysis := analysis;
             outTotalCommentsAnalyzed := totalFound searchResponse;
             outSources := sources searchResponse |}.

End Services.

(** ** Vocabulary of the statements *)

(** The bucket rule of [getFallbackAnalysis], read off the conditions of its
    [if ... else if ... else]. *)
Inductive Bucket := PositiveBucket | NegativeBucket | NeutralBucket.

Definition bucketOf (result : SearchResult) : Bucket :=
  if hasPositive result && negb (hasNegative result) then PositiveBucket
  else if hasNegative result && negb (hasPositive result) then NegativeBucket
  else NeutralBucket.

Global Instance Bucket_eq_dec : EqDecision Bucket.
Proof. solve_decision. Defined.

Definition inBucket (b : Bucket) (result : SearchResult) : bool :=
  bool_decide (bucketOf result = b).

(** The candidates of bucket [b], in input order. *)
Definition bucketMembers (b : Bucket) (searchResults : list SearchResult) : list SearchResult :=
  List.filter (inBucket b) searchResults.

(** [s] without the white space it starts with. *)
Fixpoint dropWhitespace (s : string) : string :=
  match s with
  | EmptyString => EmptyString
  | String c s' => if JsString.isWhitespace c then dropWhitespace s' else s
  end.

(** The code unit [n] is an upper-case letter of Latin-1: A to Z, or U+00C0
    to U+00DE without the multiplication sign. *)
Definition isUpperCode (n : N) : Prop :=
  (65 ≤ n ≤ 90 ∨ (192 ≤ n ≤ 222 ∧ n ≠ 215))%N.

(** What the specification says of one snippet given the snippets kept before
    it: it is kept when its text is longer than 20 code units and no kept
    snippet has its key. *)
Definition keptAfter (kept : list SearchResult) (r : SearchResult) : bool :=
  (20 <? JsString.length (text r)) && bool_decide (dedupKey r ∉ dedupKey <$> kept).

(** The invariant of the loop of [deduplicateResults]: [seen] holds exactly
    the keys of [deduplicated]. *)
Definition seenMatches (st : DedupState) : Prop :=
  ∀ k, k ∈ st.1 ↔ k ∈ dedupKey <$> st.2.

(** What the loop of [getFallbackAnalysis] is to compute: for each bucket the
    number of its members and the first five of them. *)
Definition tallyOf (searchResults : list SearchResult) : Tally.t :=
  {| Tally.positiveCount := Z.of_nat (length (bucketMembers PositiveBucket searchResults));
     Tally.negativeCount := Z.of_nat (length (bucketMembers NegativeBucket searchResults));
     Tally.neutralCount := Z.of_nat (length (bucketMembers NeutralBucket searchResults));
     Tally.positiveComments := take 5 (commentOf <$> bucketMembers PositiveBucket searchResults);
     Tally.negativeComments := take 5 (commentOf <$> bucketMembers NegativeBucket searchResults);
     Tally.neutralComments := take 5 (commentOf <$> bucketMembers NeutralBucket searchResults) |}.

(** The sum invariant of a [SentimentAnalysis]: the three ratios are numbers
    and add up to 100. *)
Definition ratiosSumTo100 (analysis : SentimentAnalysis) : Prop :=
  ∃ p n u, positiveRatio analysis = Some p ∧ negativeRatio analysis = Some n ∧
           neutralRatio analysis = Some u ∧ p + n + u = 100.

Definition responseRatiosSumTo100 (analysis : Llm.Analysis) : Prop :=
  ∃ p n u, Llm.positiveRatio analysis = Some p ∧ Llm.negativeRatio analysis = Some n ∧
           Llm.neutralRatio analysis = Some u ∧ p + n + u = 100.

(** The number of bits [binary_round_aux] drops from the mantissa [mx] at
    exponent [ex]. *)
Definition shiftOf (mx ex : Z) : Z :=
  Z.max 0 (fexp JsNumber.prec JsNumber.emax (Zdigits2 mx + ex) - ex).

(** [round(100 * count / total)] on exact rationals, ties upwards. *)
Definition roundedPercentage (count total : Z) : Z :=
  (200 * count + total) `div` (2 * total).

(** The candidate a 1-based index designates. *)
Definition candidateAt (searchResults : list SearchResult) (i : Z) : option SearchResult :=
  arrayGet searchResults (i - 1).

Definition inRangeIndices (searchResults : list SearchResult) (indices : list Z) : list Z :=
  List.filter (λ i, (1 <=? i) && (i <=? Z.of_nat (length searchResults))) indices.

(** An array of integers in the place of an index list. *)
Definition integers (indices : list Z) : Llm.Indices :=
  Llm.Elements (Llm.Whole <$> indices).

Definition isWhole (i : Llm.Index) : bool :=
  match i with Llm.Whole _ => true | _ => false end.

(** The elements of an array that [getComments] maps: the first five of
    those in range. *)
Definition mappedIndices (searchResults : list SearchResult) (elements : list Llm.Index)
  : list Llm.Index :=
  take 5 (List.filter (indexInRange searchResults) elements).

(** [getComments] can map the value of an index list: the value is falsy,
    or it is an array and the first five of its elements in range are
    integers. *)
Definition mappable (searchResults : list SearchResult) (indices : option Llm.Indices) : bool :=
  match indices with
  | None => true
  | Some Llm.NotAnArray => false
  | Some (Llm.Elements elements) => forallb isWhole (mappedIndices searchResults elements)
  end.

(** The comment [comment] is the text, the source and the author of the
    candidate that the element [i] designates. *)
Definition designates (searchResults : list SearchResult) (i : Llm.Index)
           (comment : Comment.t) : Prop :=
  ∃ z result,
    i = Llm.Whole z ∧ 1 ≤ z ≤ Z.of_nat (length searchResults) ∧
    searchResults !! Z.to_nat (z - 1) = Some result ∧
    Comment.text comment = text result ∧
    Comment.source comment = source result ∧
    Comment.author comment = author result.

(** The three index lists of a response can be mapped. *)
Definition mappableResponse (searchResults : list SearchResult) (analysis : Llm.Analysis)
  : bool :=
  mappable searchResults (Llm.positiveIndices analysis) &&
  mappable searchResults (Llm.negativeIndices analysis) &&
  mappable searchResults (Llm.neutralIndices analysis).

(** Removal of repeated indices, first occurrences kept. *)
Fixpoint dedupIndices (seen : list Z) (indices : list Z) : list Z :=
  match indices with
  | [] => []
  | i :: rest =>
      if bool_decide (i ∈ seen) then dedupIndices seen rest
      else i :: dedupIndices (i :: seen) rest
  end.

(** The exemplar list as the specification words it: out-of-range indices
    dropped, duplicates removed, at most five kept, each mapped to its
    candidate. *)
Definition exemplarsWithoutDuplicates (searchResults : list SearchResult) (indices : list Z)
  : list Comment.t :=
  omap (λ i, commentOf <$> candidateAt searchResults i)
       (take 5 (dedupIndices [] (inRangeIndices searchResults indices))).

(** [w] after the events [evs]. *)
Definition afterEvents (w : World) (evs : list Event) : World :=
  {| db := db w; trace := trace w ++ evs; clock := clock w |}.

(** The summary the [try] block returns for the parsed response [analysis]
    and the three comment lists [getComments] gave. *)
Definition summaryOfResponse (analysis : Llm.Analysis) (pos neg neu : list Comment.t)
  : SentimentAnalysis :=
  {| overallSentiment := Llm.overallSentiment analysis;
     positiveRatio := Llm.positiveRatio analysis;
     negativeRatio := Llm.negativeRatio analysis;
     neutralRatio := Llm.neutralRatio analysis;
     summary := SummaryText <$> Llm.summary analysis;
     keyThemes := map ThemeText <$> Llm.keyThemes analysis;
     positiveComments := pos;
     negativeComments := neg;
     neutralComments := neu |}.

(** [result] is built from the response [analysis] over [searchResults]: the
    six scalar fields are copied, absent ones staying absent, and each list
    of comments comes from the index list of the response, an absent list
    counting as empty. *)
Definition builtFromResponse (searchResults : list SearchResult) (analysis : Llm.Analysis)
           (result : SentimentAnalysis) : Prop :=
  overallSentiment result = Llm.overallSentiment analysis ∧
  positiveRatio result = Llm.positiveRatio analysis ∧
  negativeRatio result = Llm.negativeRatio analysis ∧
  neutralRatio result = Llm.neutralRatio analysis ∧
  summary result = SummaryText <$> Llm.summary analysis ∧
  keyThemes result = map ThemeText <$> Llm.keyThemes analysis ∧
  getComments searchResults (orEmpty (Llm.positiveIndices analysis))
    = Ok (positiveComments result) ∧
  getComments searchResults (orEmpty (Llm.negativeIndices analysis))
    = Ok (negativeComments result) ∧
  getComments searchResults (orEmpty (Llm.neutralIndices analysis))
    = Ok (neutralComments result).

(** The search for [productName], made in world [w], returns no result. *)
Definition findsNothing (env : Env) (productName : string) (w : World) : Prop :=
  ∃ response, searchOutcome env w productName = Ok response ∧ results response = [].

(** Events that open and close the run of one monitoring task. *)
Definition startOf (task : MonitorTask.t) : Event :=
  EvConsole (LogExecutingTask (MonitorTask.id task) (MonitorTask.productName task)).

Definition isBoundary (ev : Event) : bool :=
  match ev with
  | EvConsole (LogExecutingTask _ _) | EvConsole (LogNoResults _)
  | EvConsole (LogTaskCompleted _ _) | EvConsole (LogMonitorTaskError _ _) => true
  | _ => false
  end.

Definition quiet (evs : list Event) : Prop := Forall (λ ev, isBoundary ev = false) evs.

(** [ev] ends the run of [task]: no results, completion, or a caught error. *)
Definition closes (task : MonitorTask.t) (ev : Event) : Prop :=
  ev = EvConsole (LogNoResults (MonitorTask.productName task)) ∨
  (∃ score, ev = EvConsole (LogTaskCompleted (MonitorTask.id task) score)) ∨
  (∃ e, ev = EvConsole (LogMonitorTaskError (MonitorTask.id task) e)).


(** [m] adds only events that neither open nor close a run. *)
Definition quietly {A} (m : M A) : Prop :=
  ∀ w, ∃ evs, trace (m w).2 = trace w ++ evs ∧ quiet evs.

(** [m] adds quiet events and, when it returns, ends with an event that
    closes the run of [task]. *)
Definition ending (task : MonitorTask.t) {A} (m : M A) : Prop :=
  ∀ w, ∃ evs,
    trace (m w).2 = trace w ++ evs ∧
    match (m w).1 with
    | Ok _ => ∃ middle last, evs = middle ++ [last] ∧ quiet middle ∧ closes task last
    | Throw _ => quiet evs
    end.

(** ** Sample inputs *)

Definition snippet (t : string) : SearchResult :=
  {| text := t; source := "Twitter"; author := Some "@user1";
     url := None; date := None; platform := twitter |}.

(** Three snippets with a positive keyword only, five with a negative one
    only. *)
Definition threePraisesFiveComplaints : list SearchResult :=
  [ snippet "This is a great product overall";
    snippet "I love how fast it answers";
    snippet "The best assistant I have used";
    snippet "Terrible latency in the evening";
    snippet "Awful support, nobody replied";
    snippet "I hate the new interface a lot";
    snippet "The worst update so far, really";
    snippet "Too expensive for small teams" ].

Fixpoint stars (n : nat) : string :=
  match n with O => "" | S n' => String "*" (stars n') end.

(** [n] distinct snippets that start with [prefix]. *)
Definition numbered (prefix : string) (n : nat) : list SearchResult :=
  (λ k, snippet (prefix ++ stars k)%string) <$> seq 0 n.

(** Forty snippets, twenty-three of them with a positive keyword only and
    seventeen without any keyword. *)
Definition twentyThreePraisesOfForty : list SearchResult :=
  numbered "A great tool for my daily work " 23 ++
  numbered "It answers my questions quickly " 17.

Definition noAnalysis : Llm.Analysis :=
  {| Llm.overallSentiment := None; Llm.positiveRatio := None;
     Llm.negativeRatio := None; Llm.neutralRatio := None;
     Llm.summary := None; Llm.keyThemes := None;
     Llm.positiveIndices := None; Llm.negativeIndices := None;
     Llm.neutralIndices := None |}.

(** A complete response whose ratios are 50, 50 and 50. *)
Definition lopsidedAnalysis : Llm.Analysis :=
  {| Llm.overallSentiment := Some mixed; Llm.positiveRatio := Some 50;
     Llm.negativeRatio := Some 50; Llm.neutralRatio := Some 50;
     Llm.summary := Some "summary"; Llm.keyThemes := Some ["price"];
     Llm.positiveIndices := Some (integers [1]); Llm.negativeIndices := Some (integers []);
     Llm.neutralIndices := Some (integers []) |}.

(** A task whose last score is 50, with a threshold of 20, the in-app channel
    on, and [notifyOnSignificantChange] as given. *)
Definition sampleTask (id : Z) (productName : string) (notifyOnSignificantChange : bool)
  : MonitorTask.t :=
  {| MonitorTask.id := id; MonitorTask.userId := 7;
     MonitorTask.productName := productName; MonitorTask.isActive := true;
     MonitorTask.frequency := daily;
     MonitorTask.notifyOnSignificantChange := notifyOnSignificantChange;
     MonitorTask.significantChangeThreshold := 20;
     MonitorTask.notifyEmail := false; MonitorTask.notifyInApp := true;
     MonitorTask.lastAnalysisId := None; MonitorTask.lastAnalyzedAt := None;
     MonitorTask.lastSentimentScore := Some 50 |}.

Definition emptyDatabase : Database :=
  {| analysisRecords := []; nextAnalysisId := 1; monitorTasks := [];
     notifications := []; nextNotificationId := 1; sentimentTrends := [] |}.

Definition freshWorld : World :=
  {| db := Some emptyDatabase; trace := []; clock := 1000 |}.

Definition responseOf (rs : list SearchResult) : SearchResponse :=
  {| results := rs; totalFound := Z.of_nat (length rs);
     sources := uniqueInOrder ∅ (source <$> rs);
     sourceBreakdown := (Z.of_nat (length rs), 0, 0, 0) |}.

(** Collaborators that always answer the same way and never fail. *)
Definition steadyEnv (rs : list SearchResult) (outcome : Llm.Outcome) : Env :=
  {| searchOutcome := λ _ _, Ok (responseOf rs);
     llmOutcome := λ _ _ _, outcome;
     queryFails := λ _ _, false;
     notifyOwnerFails := λ _ _, false |}.

(** Collaborators for which the search throws for the product [broken] and
    returns eight snippets for any other, and the language model is out of
    reach. *)
Definition envBrokenSearch (broken : string) : Env :=
  {| searchOutcome := λ _ productName,
       if bool_decide (productName = broken) then Throw SearchError
       else Ok (responseOf threePraisesFiveComplaints);
     llmOutcome := λ _ _ _, Llm.Rejected;
     queryFails := λ _ _, false;
     notifyOwnerFails := λ _ _, false |}.

(** A world with three active tasks, for "Alpha", "Beta" and "Gamma". *)
Definition threeTaskWorld : World :=
  {| db := Some {| analysisRecords := []; nextAnalysisId := 1;
                   monitorTasks := [sampleTask 1 "Alpha" true; sampleTask 2 "Beta" true;
                                    sampleTask 3 "Gamma" true];
                   notifications := []; nextNotificationId := 1;
                   sentimentTrends := [] |};
     trace := []; clock := 1000 |}.

(** A complete response with the ratios 70, 20 and 10. *)
Definition seventyTwentyTen : Llm.Analysis :=
  {| Llm.overallSentiment := Some positive; Llm.positiveRatio := Some 70;
     Llm.negativeRatio := Some 20; Llm.neutralRatio := Some 10;
     Llm.summary := Some "summary"; Llm.keyThemes := Some ["price"];
     Llm.positiveIndices := Some (integers [1; 2]); Llm.negativeIndices := Some (integers [4]);
     Llm.neutralIndices := Some (integers []) |}.

(** A world whose only task is [task]. *)
Definition oneTaskWorld (task : MonitorTask.t) : World :=
  {| db := Some {| analysisRecords := []; nextAnalysisId := 1;
                   monitorTasks := [task];
                   notifications := []; nextNotificationId := 1;
                   sentimentTrends := [] |};
     trace := []; clock := 1000 |}.

(** The last scores of the tasks of a world. *)
Definition lastScores (w : World) : list (option Z) :=
  match db w with
  | Some d => MonitorTask.lastSentimentScore <$> monitorTasks d
  | None => []
  end.

(** The notices stored by a run. *)
Definition storedNotices (w : World) : list ChangeNotice :=
  match db w with
  | Some d => (λ n, Notification.notice (Notification.row n)) <$> notifications d
  | None => []
  end.

(** ** searchService.ts: the platform searches *)

(** The reply of the search API is not typed: [response.data] is whatever
    the JSON of the answer holds.  The model follows the item loops of the
    four searches as far as the interface [SearchResult] holds of what they
    push: an entry that a loop runs through is given by the six properties
    the loops read from it, each absent (or falsy) or a string, and a reply
    says whether the loop that reads it then meets an entry on which its
    body throws.  A reply that makes a search push a result with a snippet,
    description, title, author, date or url that is not a string (a number
    as snippet, say) is outside the model: [deduplicateResults] throws on
    such a text, outside any [try]. *)
Module Item.
Record t := {
  url : option string;
  snippet : option string;
  description : option string;
  title : option string;
  author : option string;
  date : option string
}.
End Item.

Module Forge.

(** [ENV.forgeApiUrl] and [ENV.forgeApiKey]. *)
Record Config := { forgeApiUrl : option string; forgeApiKey : option string }.

Inductive SearchType := InfoSearch (* "info" *) | NewsSearch (* "news" *).

(** The arguments of [axios.post]: the address, the body
    [{ query, search_type, max_results }], the Authorization header and the
    time-out. *)
Record Request := {
  address : string;
  query : string;
  search_type : SearchType;
  max_results : Z;
  authorization : string;
  timeout : Z
}.

(** How the loop [for (const item of response.data.results)] ends after the
    entries it runs through. *)
Inductive Ending :=
| Completes                   (* the array is exhausted *)
| Breaks.                     (* a TypeError: the next entry is [null], or (in
                                 [searchTwitter], [searchReddit] and
                                 [searchWeb]) its [url] is a value without an
                                 [includes] method, or an array that holds
                                 the host looked for and has no [match]
                                 method; or [results] cannot be iterated *)

(** How [await axios.post(...)], the test [response.data?.results] and the
    loop over the items come out, for the search that posts the request. *)
Inductive Reply :=
| Rejects                     (* the promise rejects (no connection, time-out,
                                 status outside 2xx) *)
| NoResults                   (* [response.data?.results] is falsy *)
| Results (items : list Item.t) (ending : Ending).

(** The outside of the module: the search API, and [new URL(u).hostname],
    which is [None] when the constructor throws. *)
Record Net := {
  post : Request → Reply;
  hostname : string → option string
}.

Inductive Thrown := AxiosError | InvalidUrl | TypeError.

Inductive Settled (A : Type) :=
| Fulfilled (a : A)
| Failed (e : Thrown).
Arguments Fulfilled {A} a.
Arguments Failed {A} e.

Inductive Log :=
| Posted (request : Request)
| Warned (message : string)               (* console.warn *)
| Errored (message : string) (e : Thrown). (* console.error *)

(** Code that changes a state [Σ] and settles; what it did to the state
    before it throws stays done. *)
Definition St (Σ A : Type) : Type := Σ → Settled A * Σ.

Definition ret {Σ A} (a : A) : St Σ A := λ σ, (Fulfilled a, σ).
Definition throw {Σ A} (e : Thrown) : St Σ A := λ σ, (Failed e, σ).
Definition bind {Σ A B} (m : St Σ A) (k : A → St Σ B) : St Σ B :=
  λ σ, match m σ with
       | (Fulfilled a, σ') => k a σ'
       | (Failed e, σ') => (Failed e, σ')
       end.
Definition tryCatch {Σ A} (m : St Σ A) (handler : Thrown → St Σ A) : St Σ A :=
  λ σ, match m σ with
       | (Fulfilled a, σ') => (Fulfilled a, σ')
       | (Failed e, σ') => handler e σ'
       end.

(** Asynchronous functions of the module: they append to the log and
    settle. *)
Definition S (A : Type) : Type := St (list Log) A.

(** The body of a platform search: the log, and the array [results] that
    the search declares before its [try] and fills in its loops. *)
Definition Frame : Type := list Log * list SearchResult.
Definition F (A : Type) : Type := St Frame A.

Definition say (entry : Log) : F unit := λ σ, (Fulfilled tt, (σ.1 ++ [entry], σ.2)).
(** [results] as it is now, and [results] after an iteration of a loop. *)
Definition getResults : F (list SearchResult) := λ σ, (Fulfilled σ.2, σ).
Definition setResults (results : list SearchResult) : F unit :=
  λ σ, (Fulfilled tt, (σ.1, results)).
(** [const results = []; ...]: a body run from the log [l], and the log it
    leaves. *)
Definition withResults {A} (body : F A) : S A :=
  λ l, let '(settled, σ) := body (l, []) in (settled, σ.1).

(** A JavaScript string in a condition: [undefined] and [""] are falsy. *)
Definition truthy (s : option string) : bool :=
  match s with
  | Some (String _ _) => true
  | _ => false
  end.

(** [a || b] on strings that may be absent. *)
Definition orElse (a b : option string) : option string := if truthy a then a else b.

(** [item.snippet || item.description || item.title || ""]. *)
Definition textOf (item : Item.t) : string :=
  default "" (orElse (orElse (orElse (Item.snippet item) (Item.description item))
                             (Item.title item))
                     (Some "")).

(** [item.url?.includes(k)], [undefined] counting as false. *)
Definition urlIncludes (item : Item.t) (k : string) : bool :=
  match Item.url item with
  | Some u => JsString.includes u k
  | None => false
  end.

(** The rest of [s] after the prefix [k]. *)
Fixpoint stripPrefix (k s : string) : option string :=
  match k, s with
  | EmptyString, _ => Some s
  | String _ _, EmptyString => None
  | String a k', String b s' => if bool_decide (a = b) then stripPrefix k' s' else None
  end.

Fixpoint takeWhile (p : ascii → bool) (s : string) : string :=
  match s with
  | EmptyString => EmptyString
  | String c s' => if p c then String c (takeWhile p s') else EmptyString
  end.

(** The classes [[^\/\?]] and [[^\/]]. *)
Definition notSlashNorQuestion (c : ascii) : bool :=
  negb (bool_decide (c = "/"%char)) && negb (bool_decide (c = "?"%char)).
Definition notSlash (c : ascii) : bool := negb (bool_decide (c = "/"%char)).

(** [prefix] followed by a group [(cls+)], tried at the start of [s]: the
    group is the longest run of the class, which must not be empty. *)
Definition groupAfter (prefix : string) (cls : ascii → bool) (s : string) : option string :=
  match stripPrefix prefix s with
  | Some rest =>
      match takeWhile cls rest with
      | EmptyString => None
      | g => Some g
      end
  | None => None
  end.

(** [s.match(re)] for a pattern without anchors: the first position of [s]
    at which the pattern matches, from the left. *)
Fixpoint firstMatch (here : string → option string) (s : string) : option string :=
  match here s with
  | Some g => Some g
  | None =>
      match s with
      | EmptyString => None
      | String _ s' => firstMatch here s'
      end
  end.

(** [/(?:twitter\.com|x\.com)\/([^\/\?]+)/] at the start of [s]. *)
Definition twitterPattern (s : string) : option string :=
  match groupAfter "twitter.com/" notSlashNorQuestion s with
  | Some g => Some g
  | None => groupAfter "x.com/" notSlashNorQuestion s
  end.

(** [/reddit\.com\/r\/([^\/]+)/] at the start of [s]. *)
Definition redditPattern (s : string) : option string :=
  groupAfter "reddit.com/r/" notSlash s.

Definition extractTwitterAuthor (url : option string) : option string :=
  if negb (truthy url) then None
  else match firstMatch twitterPattern (default "" url) with
       | Some g => Some ("@" ++ g)%string
       | None => None
       end.

Definition extractRedditAuthor (url : option string) : option string :=
  if negb (truthy url) then None
  else match firstMatch redditPattern (default "" url) with
       | Some g => Some ("r/" ++ g)%string
       | None => None
       end.

(** [s.replace(k, "")]: the first occurrence of [k] is removed. *)
Fixpoint removeFirst (k s : string) : string :=
  match stripPrefix k s with
  | Some rest => rest
  | None =>
      match s with
      | EmptyString => EmptyString
      | String c s' => String c (removeFirst k s')
      end
  end.

Definition getTwitterMockResults (productName : string) : list SearchResult :=
  [ {| text := ("Just tried " ++ productName ++ " and I'm impressed! The AI capabilities are really solid. Great for daily productivity tasks. #AI #Tech")%string;
       source := "Twitter"; author := Some "@tech_reviewer";
       url := Some "https://twitter.com/tech_reviewer/status/1234567890";
       date := None; platform := twitter |};
    {| text := (productName ++ " has been a game-changer for my workflow. The response quality keeps improving with each update.")%string;
       source := "Twitter"; author := Some "@ai_enthusiast";
       url := Some "https://twitter.com/ai_enthusiast/status/1234567891";
       date := None; platform := twitter |};
    {| text := ("Mixed feelings about " ++ productName ++ ". Great features but the pricing is getting out of hand. Anyone else feel the same?")%string;
       source := "Twitter"; author := Some "@startup_dev";
       url := Some "https://twitter.com/startup_dev/status/1234567892";
       date := None; platform := twitter |};
    {| text := ("The latest " ++ productName ++ " update fixed so many issues. Finally feels polished and ready for serious work.")%string;
       source := "Twitter"; author := Some "@product_hunter";
       url := Some "https://twitter.com/product_hunter/status/1234567893";
       date := None; platform := twitter |} ].

Definition getRedditMockResults (productName : string) : list SearchResult :=
  [ {| text := ("Been using " ++ productName ++ " for 3 months now. Here's my honest review: The good - excellent at creative tasks and brainstorming. The bad - sometimes hallucinates facts. Overall 8/10.")%string;
       source := "Reddit"; author := Some "r/artificial";
       url := Some "https://reddit.com/r/artificial/comments/abc123";
       date := None; platform := reddit |};
    {| text := (productName ++ " vs competitors: Did a side-by-side comparison. " ++ productName ++ " wins on speed but loses on accuracy for technical queries. Choose based on your use case.")%string;
       source := "Reddit"; author := Some "r/MachineLearning";
       url := Some "https://reddit.com/r/MachineLearning/comments/def456";
       date := None; platform := reddit |};
    {| text := ("PSA: " ++ productName ++ "'s free tier is actually quite generous compared to alternatives. Great for students and hobbyists.")%string;
       source := "Reddit"; author := Some "r/ChatGPT";
       url := Some "https://reddit.com/r/ChatGPT/comments/ghi789";
       date := None; platform := reddit |};
    {| text := ("Disappointed with " ++ productName ++ "'s customer support. Had billing issues for weeks with no resolution. The product itself is good though.")%string;
       source := "Reddit"; author := Some "r/technology";
       url := Some "https://reddit.com/r/technology/comments/jkl012";
       date := None; platform := reddit |} ].

Definition getNewsMockResults (productName : string) : list SearchResult :=
  [ {| text := (productName ++ " announces major update with improved reasoning capabilities. Industry analysts predict this could shift the competitive landscape in AI assistants.")%string;
       source := "TechCrunch"; author := Some "Sarah Chen";
       url := Some "https://techcrunch.com/2025/01/ai-update";
       date := None; platform := news |};
    {| text := ("Review: " ++ productName ++ " continues to lead in user satisfaction surveys, though privacy concerns remain a topic of discussion among experts.")%string;
       source := "The Verge"; author := Some "Mike Johnson";
       url := Some "https://theverge.com/2025/01/ai-review";
       date := None; platform := news |};
    {| text := ("Enterprise adoption of " ++ productName ++ " grows 200% as companies seek AI-powered productivity tools. Security features cited as key differentiator.")%string;
       source := "Forbes"; author := Some "Tech Team";
       url := Some "https://forbes.com/2025/01/enterprise-ai";
       date := None; platform := news |} ].

Definition getWebMockResults (productName : string) : list SearchResult :=
  [ {| text := ("Comprehensive " ++ productName ++ " review: After testing for 6 months, here are the features that stand out and the areas needing improvement.")%string;
       source := "ProductHunt"; author := None;
       url := Some "https://producthunt.com/products/ai-tool-review";
       date := None; platform := web |};
    {| text := (productName ++ " tutorial: How to get the most out of this AI tool. Tips from power users and best practices for different use cases.")%string;
       source := "Medium"; author := Some "AI Writer";
       url := Some "https://medium.com/@aiwriter/ai-tutorial";
       date := None; platform := web |};
    {| text := ("Comparing " ++ productName ++ " pricing plans: Which tier offers the best value? Analysis of features vs cost for different user types.")%string;
       source := "G2 Reviews"; author := None;
       url := Some "https://g2.com/products/ai-tool/reviews";
       date := None; platform := web |} ].

Section Searches.

Variable ENV : Config.
Variable net : Net.

(** [!forgeApiUrl || !forgeApiKey]. *)
Definition notConfigured : bool :=
  negb (truthy (forgeApiUrl ENV)) || negb (truthy (forgeApiKey ENV)).

(** [await axios.post(`${forgeApiUrl}/v1/search`, { query, search_type,
    max_results }, { headers, timeout: 20000 })] up to the test of
    [response.data?.results]: the entries of the list, if there is one, and
    how the loop over them ends. *)
Definition requestOf (query : string) (search_type : SearchType) (max_results : Z)
  : Request :=
  {| address := (default "" (forgeApiUrl ENV) ++ "/v1/search")%string;
     query := query; search_type := search_type; max_results := max_results;
     authorization := ("Bearer " ++ default "" (forgeApiKey ENV))%string;
     timeout := 20000 |}.

Definition postSearch (query : string) (search_type : SearchType) (max_results : Z)
  : F (option (list Item.t * Ending)) :=
  let request := requestOf query search_type max_results in
  bind (say (Posted request)) (λ _,
  match post net request with
  | Rejects => throw AxiosError
  | NoResults => ret None
  | Results items ending => ret (Some (items, ending))
  end).

(** The body of [for (const item of response.data.results)] in
    [searchTwitter], on an entry it runs through: [results] after it. *)
Definition pushTwitter (results : list SearchResult) (item : Item.t) : list SearchResult :=
  if urlIncludes item "twitter.com" || urlIncludes item "x.com" then
    results ++ [{| text := textOf item; source := "Twitter";
                   author := extractTwitterAuthor (Item.url item);
                   url := Item.url item; date := Item.date item;
                   platform := twitter |}]
  else results.

Definition pushReddit (results : list SearchResult) (item : Item.t) : list SearchResult :=
  if urlIncludes item "reddit.com" then
    results ++ [{| text := textOf item; source := "Reddit";
                   author := extractRedditAuthor (Item.url item);
                   url := Item.url item; date := Item.date item;
                   platform := reddit |}]
  else results.

(** [let sourceName = fallback; if (item.url) { try { sourceName =
    new URL(item.url).hostname.replace("www.", "") } catch {} }]. *)
Definition sourceNameOf (fallback : string) (item : Item.t) : string :=
  if truthy (Item.url item) then
    match hostname net (default "" (Item.url item)) with
    | Some host => removeFirst "www." host
    | None => fallback
    end
  else fallback.

Definition pushNews (results : list SearchResult) (item : Item.t) : list SearchResult :=
  results ++ [{| text := textOf item; source := sourceNameOf "News" item;
                 author := Item.author item;
                 url := Item.url item; date := Item.date item;
                 platform := news |}].

Definition pushWeb (results : list SearchResult) (item : Item.t) : list SearchResult :=
  if urlIncludes item "twitter.com" || urlIncludes item "x.com" || urlIncludes item "reddit.com"
  then results                                                     (* continue *)
  else
    results ++ [{| text := textOf item; source := sourceNameOf "Web" item;
                   author := Item.author item;
                   url := Item.url item; date := Item.date item;
                   platform := web |}].

(** [for (const item of response.data.results) { ... }]: the body on each
    entry the loop runs through, then the end of the loop. *)
Fixpoint forItems (push : list SearchResult → Item.t → list SearchResult)
         (items : list Item.t) (ending : Ending) : F unit :=
  match items with
  | [] => match ending with
          | Completes => ret tt
          | Breaks => throw TypeError
          end
  | item :: rest =>
      bind getResults (λ results,
      bind (setResults (push results item)) (λ _,
      forItems push rest ending))
  end.

(** One turn of [for (const query of queries) { try { ... } catch (e) {
    console.warn(...) } }].  The [try] holds the request and the loop over
    the items, so the handler also runs when the loop throws; what the loop
    pushed before stays in [results]. *)
Definition runQuery (push : list SearchResult → Item.t → list SearchResult)
           (search_type : SearchType) (max_results : Z) (warning : string)
           (query : string) : F unit :=
  tryCatch
    (bind (postSearch query search_type max_results) (λ found,
     match found with
     | Some (items, ending) => forItems push items ending
     | None => ret tt
     end))
    (λ e, say (Warned warning)).

(** [for (const query of queries) ...]. *)
Fixpoint forQueries (turn : string → F unit) (queries : list string) : F unit :=
  match queries with
  | [] => ret tt
  | query :: rest => bind (turn query) (λ _, forQueries turn rest)
  end.

(** [results.length > 0 ? results : mock]. *)
Definition orMock (results mock : list SearchResult) : list SearchResult :=
  if 0 <? Z.of_nat (length results) then results else mock.

(** [return results.length > 0 ? results : mock]. *)
Definition returnOrMock (mock : list SearchResult) : F (list SearchResult) :=
  bind getResults (λ results, ret (orMock results mock)).

Definition searchTwitter (productName : string) : S (list SearchResult) :=
  withResults
    (tryCatch
       (if notConfigured then ret (getTwitterMockResults productName)
        else
          let queries := [ (productName ++ " site:twitter.com OR site:x.com")%string;
                           (productName ++ " review twitter")%string ] in
          bind (forQueries
                  (λ query,
                     runQuery pushTwitter InfoSearch 8
                              ("Twitter search failed for query: " ++ query)%string query)
                  queries)
               (λ _, returnOrMock (getTwitterMockResults productName)))
       (λ error,
          bind (say (Errored "Twitter search error:" error)) (λ _,
          ret (getTwitterMockResults productName)))).

Definition searchReddit (productName : string) : S (list SearchResult) :=
  withResults
    (tryCatch
       (if notConfigured then ret (getRedditMockResults productName)
        else
          let queries := [ (productName ++ " site:reddit.com")%string;
                           (productName ++ " reddit discussion review")%string ] in
          bind (forQueries
                  (λ query,
                     runQuery pushReddit InfoSearch 8
                              ("Reddit search failed for query: " ++ query)%string query)
                  queries)
               (λ _, returnOrMock (getRedditMockResults productName)))
       (λ error,
          bind (say (Errored "Reddit search error:" error)) (λ _,
          ret (getRedditMockResults productName)))).

Definition searchNews (productName : string) : S (list SearchResult) :=
  withResults
    (tryCatch
       (if notConfigured then ret (getNewsMockResults productName)
        else
          let query := (productName ++ " AI review news")%string in
          bind (runQuery pushNews NewsSearch 6 "News search failed" query)
               (λ _, returnOrMock (getNewsMockResults productName)))
       (λ error,
          bind (say (Errored "News search error:" error)) (λ _,
          ret (getNewsMockResults productName)))).

Definition searchWeb (productName : string) : S (list SearchResult) :=
  withResults
    (tryCatch
       (if notConfigured then ret (getWebMockResults productName)
        else
          let queries := [ (productName ++ " user review experience")%string;
                           (productName ++ " pros cons comparison")%string ] in
          bind (forQueries
                  (λ query,
                     runQuery pushWeb InfoSearch 6
                              ("Web search failed for query: " ++ query)%string query)
                  queries)
               (λ _, returnOrMock (getWebMockResults productName)))
       (λ error,
          bind (say (Errored "Web search error:" error)) (λ _,
          ret (getWebMockResults productName)))).

(** [searchSocialMedia]: the four searches of [Promise.all], run here one
    after the other, then the aggregation.  Every request of one call has a
    query of its own, so the replies do not depend on the order in which the
    four searches take their turns; only the order of the log does. *)
Definition searchSocialMedia (productName : string) : S SearchResponse :=
  bind (searchTwitter productName) (λ twitterResults,
  bind (searchReddit productName) (λ redditResults,
  bind (searchNews productName) (λ newsResults,
  bind (searchWeb productName) (λ webResults,
  ret (searchSocialMedia_merge twitterResults redditResults newsResults webResults))))).

End Searches.

End Forge.

(** ** monitorService.ts: [shouldTaskRun] *)

(** [shouldTaskRun(frequency, lastAnalyzedAt)].  Dates are their time values
    in milliseconds; [now] is what [new Date()] reads.  The difference of two
    time values is the correctly rounded difference of two integers, which is
    [JsNumber.ofZ (now - lastRun)]; [x >= y] is [SFleb y x]. *)
Definition hoursSinceLastRun (now lastRun : Z) : spec_float :=
  JsNumber.div (JsNumber.ofZ (now - lastRun)) (JsNumber.ofZ (1000 * 60 * 60)).

Definition shouldTaskRun (frequency : Frequency) (lastAnalyzedAt : option Z) (now : Z) : bool :=
  match lastAnalyzedAt with
  | None => true
  | Some lastRun =>
      match frequency with
      | daily => SFleb (JsNumber.ofZ 24) (hoursSinceLastRun now lastRun)
      | weekly => SFleb (JsNumber.ofZ (24 * 7)) (hoursSinceLastRun now lastRun)
      | monthly => SFleb (JsNumber.ofZ (24 * 30)) (hoursSinceLastRun now lastRun)
      end
  end.

(** ** Vocabulary of the further statements *)

(** [r] is longer than 20 code units; the key of [r] is [k]. *)
Definition isLong (r : SearchResult) : bool := 20 <? JsString.length (text r).
Definition hasKey (k : string) (r : SearchResult) : bool := bool_decide (dedupKey r = k).

(** The entries of the reply to [request] that the loop runs through, none
    when there is no list; the warning logged when the request is rejected
    or the loop over the entries throws. *)
Definition liveItems (net : Forge.Net) (request : Forge.Request) : list Item.t :=
  match Forge.post net request with
  | Forge.Results items _ => items
  | _ => []
  end.

Definition warningIf (net : Forge.Net) (request : Forge.Request) (warning : string)
  : list Forge.Log :=
  match Forge.post net request with
  | Forge.Rejects | Forge.Results _ Forge.Breaks => [Forge.Warned warning]
  | _ => []
  end.

(** The requests of a log, in order. *)
Definition posts (l : list Forge.Log) : list Forge.Request :=
  omap (λ entry, match entry with Forge.Posted r => Some r | _ => None end) l.

(** What a platform search makes of the items of a reply. *)
Definition madeOf (push : list SearchResult → Item.t → list SearchResult)
           (items : list Item.t) : list SearchResult :=
  mjoin ((λ item, push [] item) <$> items).

(** A loop body that appends at most one result per item. *)
Definition appends (push : list SearchResult → Item.t → list SearchResult) : Prop :=
  ∀ results item, push results item = results ++ push [] item.

(** The address of [r] contains one of [hosts]. *)
Definition urlMentions (hosts : list string) (r : SearchResult) : bool :=
  match url r with
  | Some u => existsb (JsString.includes u) hosts
  | None => false
  end.

(** The fourteen mock results, in the order of the aggregation. *)
Definition mockResults (productName : string) : list SearchResult :=
  Forge.getTwitterMockResults productName ++ Forge.getRedditMockResults productName ++
  Forge.getNewsMockResults productName ++ Forge.getWebMockResults productName.

(** The members of [xs] at the positions [positions]. *)
Definition pick {A} (positions : list nat) (xs : list A) : list A :=
  omap (λ i, xs !! i) positions.

(** The seven requests of one configured call of [searchSocialMedia]. *)
Definition requestsFor (ENV : Forge.Config) (productName : string) : list Forge.Request :=
  [ Forge.requestOf ENV (productName ++ " site:twitter.com OR site:x.com")%string Forge.InfoSearch 8;
    Forge.requestOf ENV (productName ++ " review twitter")%string Forge.InfoSearch 8;
    Forge.requestOf ENV (productName ++ " site:reddit.com")%string Forge.InfoSearch 8;
    Forge.requestOf ENV (productName ++ " reddit discussion review")%string Forge.InfoSearch 8;
    Forge.requestOf ENV (productName ++ " AI review news")%string Forge.NewsSearch 6;
    Forge.requestOf ENV (productName ++ " user review experience")%string Forge.InfoSearch 6;
    Forge.requestOf ENV (productName ++ " pros cons comparison")%string Forge.InfoSearch 6 ].

(** Every code unit of [s] is in the class [cls]. *)
Fixpoint allOf (cls : ascii → bool) (s : string) : bool :=
  match s with
  | EmptyString => true
  | String c s' => cls c && allOf cls s'
  end.

(** [s] does not go on with a code unit of the class [cls]. *)
Definition stopsAt (cls : ascii → bool) (s : string) : bool :=
  match s with
  | EmptyString => true
  | String c _ => negb (cls c)
  end.

(** [s] holds [prefix] followed by the non-empty run [g] of the class [cls]:
    [s = before ++ prefix ++ g ++ after]. *)
Definition holdsGroup (prefix : string) (cls : ascii → bool) (s g : string) : Prop :=
  ∃ before after,
    s = (before ++ prefix ++ g ++ after)%string ∧
    g ≠ "" ∧ allOf cls g = true ∧ stopsAt cls after = true.

(** [w] with the database [d]. *)
Definition withDb (w : World) (d : Database) : World :=
  {| db := Some d; trace := trace w; clock := clock w |}.

(** The database after the insertion of [record] at the time [now]. *)
Definition insertAnalysis (d : Database) (record : AnalysisRecord.Insert) (now : Z) : Database :=
  {| analysisRecords :=
       analysisRecords d ++
       [{| AnalysisRecord.id := nextAnalysisId d;
           AnalysisRecord.row := record;
           AnalysisRecord.createdAt := now |}];
     nextAnalysisId := nextAnalysisId d + 1;
     monitorTasks := monitorTasks d;
     notifications := notifications d;
     nextNotificationId := nextNotificationId d;
     sentimentTrends := sentimentTrends d |}.

(** The database after the row of the task [id] has taken [data]. *)
Definition patchTask (d : Database) (id : Z) (data : TaskPatch.t) : Database :=
  {| analysisRecords := analysisRecords d;
     nextAnalysisId := nextAnalysisId d;
     monitorTasks :=
       (λ task, if MonitorTask.id task =? id then applyPatch data task else task)
         <$> monitorTasks d;
     notifications := notifications d;
     nextNotificationId := nextNotificationId d;
     sentimentTrends := sentimentTrends d |}.

(** The database after the insertion of [notification] at the time [now]. *)
Definition insertNotification (d : Database) (notification : Notification.Insert) (now : Z)
  : Database :=
  {| analysisRecords := analysisRecords d;
     nextAnalysisId := nextAnalysisId d;
     monitorTasks := monitorTasks d;
     notifications :=
       notifications d ++
       [{| Notification.id := nextNotificationId d;
           Notification.row := notification;
           Notification.isRead := false;
           Notification.createdAt := now |}];
     nextNotificationId := nextNotificationId d + 1;
     sentimentTrends := sentimentTrends d |}.

(** The notice of a change of [task] to the score [score]. *)
Definition noticeOf (task : MonitorTask.t) (score : Z) : ChangeNotice :=
  {| noticeProduct := MonitorTask.productName task;
     noticeDirection := changeDirection task score;
     noticeAmount := (checkSignificantChange task score).2;
     noticeScore := score |}.

(** The stamp a run puts on its task. *)
Definition stampOf (analysisId now score : Z) : TaskPatch.t :=
  {| TaskPatch.lastAnalysisId := Some analysisId;
     TaskPatch.lastAnalyzedAt := Some now;
     TaskPatch.lastSentimentScore := Some score |}.

(** The owner notifications of a trace. *)
Definition ownerNotices (evs : list Event) : list ChangeNotice :=
  omap (λ ev, match ev with EvNotifyOwner notice => Some notice | _ => None end) evs.

(** The driver accepts every statement. *)
Definition accepting (env : Env) : Prop := ∀ w q, queryFails env w q = false.

(** The notification row a run stores for [task]. *)
Definition notificationOf (task : MonitorTask.t) (analysisId score : Z) : Notification.Insert :=
  {| Notification.userId := MonitorTask.userId task;
     Notification.notice := noticeOf task score;
     Notification.analysisId := Some analysisId;
     Notification.monitorTaskId := Some (MonitorTask.id task) |}.

(** The driver accepts every statement but the insertion of a
    notification, which it rejects. *)
Definition rejectingNotifications (env : Env) : Prop :=
  ∀ w q, queryFails env w q = match q with InsertNotification _ => true | _ => false end.

(** The three ratios and the label of a summary. *)
Definition verdict (analysis : SentimentAnalysis)
  : option Z * option Z * option Z * option Sentiment :=
  (positiveRatio analysis, negativeRatio analysis, neutralRatio analysis,
   overallSentiment analysis).

(** The period of a frequency, in milliseconds. *)
Definition periodOf (frequency : Frequency) : Z :=
  match frequency with
  | daily => 24 * 3600000
  | weekly => 24 * 7 * 3600000
  | monthly => 24 * 30 * 3600000
  end.

(** [m] is the mantissa of a normal binary64 number. *)
Definition normalMantissa (m : Z) : Prop := 2 ^ 52 ≤ m < 2 ^ 53.

(** ** Further sample inputs *)

(** The search API without its address and key. *)
Definition offlineConfig : Forge.Config :=
  {| Forge.forgeApiUrl := None; Forge.forgeApiKey := None |}.

(** A network on which every request is rejected and no address parses. *)
Definition deadNet : Forge.Net :=
  {| Forge.post := λ _, Forge.Rejects; Forge.hostname := λ _, None |}.

(** Collaborators that never fail, except that the driver rejects the
    insertion of a notification. *)
Definition envRejectingNotifications (rs : list SearchResult) (outcome : Llm.Outcome) : Env :=
  {| searchOutcome := λ _ _, Ok (responseOf rs);
     llmOutcome := λ _ _ _, outcome;
     queryFails := λ _ q, match q with InsertNotification _ => true | _ => false end;
     notifyOwnerFails := λ _ _, false |}.

(** The database of [oneTaskWorld task]. *)
Definition oneTaskDatabase (task : MonitorTask.t) : Database :=
  {| analysisRecords := []; nextAnalysisId := 1; monitorTasks := [task];
     notifications := []; nextNotificationId := 1; sentimentTrends := [] |}.

(** * Theorems *)

(** ** Theorems on de-duplication *)

Section Dedup.

Implicit Types (results pre : list SearchResult) (r : SearchResult).

Lemma dedupStep_invariant st r : seenMatches st → seenMatches (dedupStep st r).
Proof.
  intros Hinv k. unfold dedupStep.
  destruct (bool_decide _ && _) eqn:E; [|apply Hinv].
  simpl. rewrite fmap_app, elem_of_app, elem_of_union, elem_of_singleton.
  rewrite (Hinv k). simpl. rewrite list_elem_of_singleton. tauto.
Qed.

Lemma dedupLoop_invariant results st :
  seenMatches st → seenMatches (fold_left dedupStep results st).
Proof.
  revert st. induction results as [|r results IH]; intros st Hinv; simpl; [done|].
  apply IH, dedupStep_invariant, Hinv.
Qed.

Lemma seenMatches_init : seenMatches (∅, []).
Proof. intros k. simpl. set_solver. Qed.

Lemma deduplicateResults_snoc pre r :
  deduplicateResults (pre ++ [r]) =
  deduplicateResults pre ++ (if keptAfter (deduplicateResults pre) r then [r] else []).
Proof.
  unfold deduplicateResults. rewrite fold_left_app. simpl.
  pose proof (dedupLoop_invariant pre _ seenMatches_init) as Hinv.
  destruct (fold_left dedupStep pre (∅, [])) as [seen acc]. simpl in *.
  unfold dedupStep, keptAfter. simpl.
  assert (bool_decide (dedupKey r ∉ seen) = bool_decide (dedupKey r ∉ dedupKey <$> acc)) as ->.
  { apply bool_decide_ext. specialize (Hinv (dedupKey r)). simpl in Hinv. tauto. }
  rewrite andb_comm.
  destruct (_ && _); simpl; [done|by rewrite app_nil_r].
Qed.

Lemma deduplicateResults_sublist results :
  sublist (deduplicateResults results) results.
Proof.
  induction results as [|r pre IH] using rev_ind; [done|].
  rewrite deduplicateResults_snoc.
  destruct (keptAfter _ _).
  - by apply sublist_app.
  - rewrite app_nil_r. by apply sublist_inserts_r.
Qed.

Lemma deduplicateResults_keys_NoDup results :
  NoDup (dedupKey <$> deduplicateResults results).
Proof.
  induction results as [|r pre IH] using rev_ind; [constructor|].
  rewrite deduplicateResults_snoc.
  destruct (keptAfter _ _) eqn:E.
  - rewrite fmap_app. apply NoDup_app. split; [done|]. split.
    + intros k Hk Hk'. simpl in Hk'. apply list_elem_of_singleton in Hk' as ->.
      unfold keptAfter in E. apply andb_true_iff in E as [_ E].
      apply bool_decide_eq_true in E. done.
    + simpl. apply NoDup_singleton.
  - by rewrite app_nil_r.
Qed.

Lemma lowerUnit_code (c : ascii) :
  (isUpperCode (JsString.code c) →
   JsString.code (JsString.lowerUnit c) = (JsString.code c + 32)%N) ∧
  (¬ isUpperCode (JsString.code c) → JsString.lowerUnit c = c).
Proof.
  unfold isUpperCode, JsString.lowerUnit, JsString.code. cbv zeta.
  pose proof (N_ascii_bounded c) as Hb.
  destruct ((65 <=? N_of_ascii c) && (N_of_ascii c <=? 90)
            || (192 <=? N_of_ascii c) && (N_of_ascii c <=? 222)
               && negb (N_of_ascii c =? 215))%N eqn:E.
  - split; [|intros Hno; exfalso; apply Hno].
    + intros _. apply N_ascii_embedding.
      apply orb_true_iff in E as [E|E].
      * apply andb_true_iff in E as [_ E%N.leb_le]. lia.
      * apply andb_true_iff in E as [E _]. apply andb_true_iff in E as [_ E%N.leb_le]. lia.
    + apply orb_true_iff in E as [E|E].
      * apply andb_true_iff in E as [E1%N.leb_le E2%N.leb_le]. left. lia.
      * apply andb_true_iff in E as [E E3]. apply andb_true_iff in E as [E1%N.leb_le E2%N.leb_le].
        apply negb_true_iff, N.eqb_neq in E3. right. lia.
  - split; [|done]. intros Hup. exfalso.
    apply orb_false_iff in E as [E1 E2].
    destruct Hup as [[H1 H2]|[[H1 H2] H3]].
    + apply andb_false_iff in E1 as [E1%N.leb_gt|E1%N.leb_gt]; lia.
    + apply andb_false_iff in E2 as [E2|E2].
      * apply andb_false_iff in E2 as [E2%N.leb_gt|E2%N.leb_gt]; lia.
      * apply negb_false_iff, N.eqb_eq in E2. lia.
Qed.

Lemma isWhitespace_code (c : ascii) :
  JsString.isWhitespace c = true ↔
  JsString.code c ∈ [9; 10; 11; 12; 13; 32; 160]%N.
Proof.
  unfold JsString.isWhitespace. cbv zeta. set (n := JsString.code c).
  rewrite !orb_true_iff, andb_true_iff, !N.leb_le, !N.eqb_eq.
  rewrite !elem_of_cons, elem_of_nil. lia.
Qed.

Lemma toLowerCase_get (s : string) : ∀ (k : nat),
  String.get k (JsString.toLowerCase s) = JsString.lowerUnit <$> String.get k s.
Proof.
  induction s as [|c s IH]; intros k; [done|].
  destruct k as [|k]; simpl; [done|apply IH].
Qed.

Lemma toLowerCase_length (s : string) :
  String.length (JsString.toLowerCase s) = String.length s.
Proof. induction s as [|c s IH]; simpl; [done|by rewrite IH]. Qed.

Lemma slice0_prefix (n : nat) : ∀ s,
  ∃ rest, s = (JsString.slice0 n s ++ rest)%string ∧
          String.length (JsString.slice0 n s) = (n `min` String.length s)%nat.
Proof.
  induction n as [|n IH]; intros s.
  - exists s. by destruct s.
  - destruct s as [|c s]; [by exists ""|].
    destruct (IH s) as (rest & Hs & Hlen). exists rest. split.
    + change (String c s = String c (JsString.slice0 n s ++ rest)%string). by rewrite <- Hs.
    + simpl. by rewrite Hlen.
Qed.

Lemma slice0_toLowerCase (n : nat) : ∀ s,
  JsString.slice0 n (JsString.toLowerCase s) = JsString.toLowerCase (JsString.slice0 n s).
Proof.
  induction n as [|n IH]; intros s; [by destruct s|].
  destruct s as [|c s]; [done|]. simpl. by rewrite IH.
Qed.

Lemma collapseFrom_run (s : string) :
  JsString.collapseFrom true s = JsString.collapseFrom false (dropWhitespace s).
Proof.
  induction s as [|c s IH]; [done|]. simpl.
  destruct (JsString.isWhitespace c) eqn:E; [exact IH|]. simpl. by rewrite E.
Qed.

End Dedup.

(** C3.  [deduplicateResults] keeps exactly the snippets that are longer than
    20 code units and whose key is not the key of a snippet kept before: it
    keeps nothing of the empty input, and after any prefix [pre] the next
    snippet [r] is appended when [keptAfter] holds of it and skipped
    otherwise.  The output is a subsequence of the input (input order is
    preserved), it is not longer than the input, and the keys of the kept
    snippets are pairwise distinct.  The key of a snippet is its text in
    lower case, cut after 100 code units, with every run of white space
    replaced by one space, in this order: lower-casing keeps the length and
    moves each upper-case letter up by 32 and no other code unit; the cut
    is the prefix of 100 code units, or the whole text when it is shorter;
    a code unit that is not white space is kept, and a white space is
    replaced, together with the white space that follows it, by one space.
    The key depends on the first 100 code units of the text only. *)
Theorem deduplicateResults_correct :
  deduplicateResults [] = [] ∧
  (∀ pre r,
     deduplicateResults (pre ++ [r]) =
     deduplicateResults pre ++ (if keptAfter (deduplicateResults pre) r then [r] else [])) ∧
  (∀ r kept,
     keptAfter kept r = true ↔
     (20 < JsString.length (text r) ∧ ∀ r', r' ∈ kept → dedupKey r' ≠ dedupKey r)) ∧
  (∀ results,
     sublist (deduplicateResults results) results ∧
     (List.length (deduplicateResults results) ≤ List.length results)%nat ∧
     NoDup (dedupKey <$> deduplicateResults results)) ∧
  (∀ r, dedupKey r =
        JsString.collapseWhitespace (JsString.slice0 100 (JsString.toLowerCase (text r)))) ∧
  (∀ s, String.length (JsString.toLowerCase s) = String.length s ∧
        ∀ k, String.get k (JsString.toLowerCase s) = JsString.lowerUnit <$> String.get k s) ∧
  (∀ c, (isUpperCode (JsString.code c) →
         JsString.code (JsString.lowerUnit c) = (JsString.code c + 32)%N) ∧
        (¬ isUpperCode (JsString.code c) → JsString.lowerUnit c = c)) ∧
  (∀ n s, ∃ rest, s = (JsString.slice0 n s ++ rest)%string ∧
                  String.length (JsString.slice0 n s) = (n `min` String.length s)%nat) ∧
  (JsString.collapseWhitespace "" = "" ∧
   ∀ c s, JsString.collapseWhitespace (String c s) =
          if JsString.isWhitespace c
          then String " " (JsString.collapseWhitespace (dropWhitespace s))
          else String c (JsString.collapseWhitespace s)) ∧
  (∀ c, JsString.isWhitespace c = true ↔
        JsString.code c ∈ [9; 10; 11; 12; 13; 32; 160]%N) ∧
  (∀ r r', JsString.slice0 100 (text r) = JsString.slice0 100 (text r') →
           dedupKey r = dedupKey r').
Proof.
  split; [done|]. split; [apply deduplicateResults_snoc|]. split.
  { intros r kept. unfold keptAfter.
    rewrite andb_true_iff, Z.ltb_lt, bool_decide_eq_true, list_elem_of_fmap.
    split; intros [Hlen Hkey]; (split; [done|]).
    + intros r' Hin Heq. apply Hkey. exists r'. by split.
    + intros (r' & Heq & Hin). by apply (Hkey r' Hin). }
  split.
  { intros results. split; [apply deduplicateResults_sublist|]. split.
    + apply sublist_length, deduplicateResults_sublist.
    + apply deduplicateResults_keys_NoDup. }
  split; [done|].
  split; [intros s; split; [apply toLowerCase_length|apply toLowerCase_get]|].
  split; [apply lowerUnit_code|].
  split; [intros n s; apply slice0_prefix|].
  split.
  { split; [done|]. intros c s. unfold JsString.collapseWhitespace. simpl.
    destruct (JsString.isWhitespace c); [|done]. by rewrite collapseFrom_run. }
  split; [apply isWhitespace_code|].
  intros r r' Heq. unfold dedupKey. by rewrite !slice0_toLowerCase, Heq.
Qed.

(** ** Theorems on the keyword classifier *)

Lemma filter_sublist {A} (P : A → bool) (xs : list A) : sublist (List.filter P xs) xs.
Proof.
  induction xs as [|x xs IH]; [done|]. simpl. destruct (P x); by constructor.
Qed.

Section Fallback.

Implicit Types (searchResults pre : list SearchResult) (r : SearchResult).

Lemma tally_snoc pre r : tally (pre ++ [r]) = tallyStep (tally pre) r.
Proof. unfold tally. by rewrite fold_left_app. Qed.

Lemma bucketMembers_snoc b pre r :
  bucketMembers b (pre ++ [r]) =
  bucketMembers b pre ++ (if inBucket b r then [r] else []).
Proof. unfold bucketMembers. rewrite List.filter_app. simpl. by destruct (inBucket b r). Qed.

Lemma pushUpTo5_take (comments : list Comment.t) (c : Comment.t) :
  pushUpTo5 (take 5 comments) c = take 5 (comments ++ [c]).
Proof.
  unfold pushUpTo5. rewrite length_take.
  destruct (Z.ltb_spec (Z.of_nat (5 `min` length comments)) 5) as [Hlt|Hge].
  - assert (length comments < 5)%nat as Hlen by lia.
    rewrite (take_ge comments) by lia.
    rewrite take_ge; [done|]. rewrite length_app. simpl. lia.
  - rewrite take_app_le by lia. done.
Qed.

Lemma tally_tallyOf searchResults : tally searchResults = tallyOf searchResults.
Proof.
  induction searchResults as [|r pre IH] using rev_ind; [done|].
  rewrite tally_snoc, IH. unfold tallyOf, tallyStep. simpl.
  rewrite !bucketMembers_snoc. unfold inBucket, bucketOf.
  destruct (hasPositive r && negb (hasNegative r)) eqn:E1;
    [|destruct (hasNegative r && negb (hasPositive r)) eqn:E2];
    simpl; rewrite ?app_nil_r, ?fmap_app, ?length_app; simpl;
    rewrite ?pushUpTo5_take; f_equal; lia.
Qed.

Lemma bucketMembers_total searchResults :
  (length (bucketMembers PositiveBucket searchResults)
   + length (bucketMembers NegativeBucket searchResults)
   + length (bucketMembers NeutralBucket searchResults) = length searchResults)%nat.
Proof.
  induction searchResults as [|r l IH]; [done|].
  unfold bucketMembers, inBucket in *. simpl.
  destruct (bucketOf r); simpl; lia.
Qed.

Lemma startsWith_spec (k : string) : ∀ s,
  JsString.startsWith k s = true ↔ ∃ after, s = (k ++ after)%string.
Proof.
  induction k as [|a k IH]; intros s; simpl.
  - split; [by exists s|done].
  - destruct s as [|b s]; [split; [done|by intros [? ?]]|].
    rewrite andb_true_iff, bool_decide_eq_true, IH. split.
    + intros [-> [after ->]]. by exists after.
    + intros [after [= -> ->]]. split; [done|by exists after].
Qed.

Lemma includes_spec (k : string) : ∀ s,
  JsString.includes s k = true ↔ ∃ before after, s = (before ++ k ++ after)%string.
Proof.
  induction s as [|c s IH]; simpl; rewrite orb_true_iff, startsWith_spec.
  - split.
    + intros [[after Hs]|?]; [|done]. by exists "", after.
    + intros (before & after & Hs). left. destruct before; [by exists after|done].
  - rewrite IH. split.
    + intros [[after Hs]|(before & after & ->)]; [by exists "", after|].
      by exists (String c before), after.
    + intros ([|c' before] & after & Hs); [left; by exists after|right].
      injection Hs as -> ->. by exists before, after.
Qed.

Lemma inBucket_spec r :
  (inBucket PositiveBucket r = true ↔ hasPositive r = true ∧ hasNegative r = false) ∧
  (inBucket NegativeBucket r = true ↔ hasNegative r = true ∧ hasPositive r = false) ∧
  (inBucket NeutralBucket r = true ↔ hasPositive r = hasNegative r).
Proof.
  unfold inBucket, bucketOf. rewrite !bool_decide_eq_true.
  destruct (hasPositive r), (hasNegative r); simpl; intuition congruence.
Qed.

Lemma hasKeyword_spec (keywords : list string) r :
  existsb (JsString.includes (JsString.toLowerCase (text r))) keywords = true ↔
  ∃ k before after,
    k ∈ keywords ∧ JsString.toLowerCase (text r) = (before ++ k ++ after)%string.
Proof.
  rewrite existsb_exists. split.
  - intros (k & Hk & (before & after & Hs)%includes_spec).
    exists k, before, after. split; [by apply list_elem_of_In|done].
  - intros (k & before & after & Hk & Hs). exists k.
    split; [by apply list_elem_of_In|]. apply includes_spec. by exists before, after.
Qed.

Lemma take_commentOf (rs : list SearchResult) :
  Comment.text <$> take 5 (commentOf <$> rs) = take 5 (text <$> rs) ∧
  Comment.source <$> take 5 (commentOf <$> rs) = take 5 (source <$> rs) ∧
  Comment.author <$> take 5 (commentOf <$> rs) = take 5 (author <$> rs).
Proof. rewrite <- !fmap_take, <- !list_fmap_compose. done. Qed.

End Fallback.

(** C10.  In [getFallbackAnalysis] the bucket counts partition the input:
    every candidate falls in exactly one of the three buckets, each counter
    is the number of candidates of its bucket, the three counters add up to
    the number of search results, and each list of comments holds the first
    five candidates of its bucket (all of them when there are fewer), in
    input order, each by its text, source and author; these lists are the
    ones the function returns.  A candidate is in the positive bucket when
    its text in lower case contains one of the ten positive keywords and
    none of the ten negative ones, in the negative bucket when it contains
    a negative keyword and no positive one, and in the neutral bucket
    otherwise (both or neither). *)
Theorem fallback_counts_partition (productName : string) (searchResults : list SearchResult) :
  (∀ r, exists! b, inBucket b r = true) ∧
  Tally.positiveCount (tally searchResults)
    = Z.of_nat (length (bucketMembers PositiveBucket searchResults)) ∧
  Tally.negativeCount (tally searchResults)
    = Z.of_nat (length (bucketMembers NegativeBucket searchResults)) ∧
  Tally.neutralCount (tally searchResults)
    = Z.of_nat (length (bucketMembers NeutralBucket searchResults)) ∧
  Tally.positiveCount (tally searchResults) + Tally.negativeCount (tally searchResults)
    + Tally.neutralCount (tally searchResults) = Z.of_nat (length searchResults) ∧
  positiveComments (getFallbackAnalysis productName searchResults)
    = take 5 (commentOf <$> bucketMembers PositiveBucket searchResults) ∧
  negativeComments (getFallbackAnalysis productName searchResults)
    = take 5 (commentOf <$> bucketMembers NegativeBucket searchResults) ∧
  neutralComments (getFallbackAnalysis productName searchResults)
    = take 5 (commentOf <$> bucketMembers NeutralBucket searchResults) ∧
  (let comments := positiveComments (getFallbackAnalysis productName searchResults) in
   let members := bucketMembers PositiveBucket searchResults in
   Comment.text <$> comments = take 5 (text <$> members) ∧
   Comment.source <$> comments = take 5 (source <$> members) ∧
   Comment.author <$> comments = take 5 (author <$> members)) ∧
  (let comments := negativeComments (getFallbackAnalysis productName searchResults) in
   let members := bucketMembers NegativeBucket searchResults in
   Comment.text <$> comments = take 5 (text <$> members) ∧
   Comment.source <$> comments = take 5 (source <$> members) ∧
   Comment.author <$> comments = take 5 (author <$> members)) ∧
  (let comments := neutralComments (getFallbackAnalysis productName searchResults) in
   let members := bucketMembers NeutralBucket searchResults in
   Comment.text <$> comments = take 5 (text <$> members) ∧
   Comment.source <$> comments = take 5 (source <$> members) ∧
   Comment.author <$> comments = take 5 (author <$> members)) ∧
  (∀ b, sublist (bucketMembers b searchResults) searchResults ∧
        ∀ r, r ∈ bucketMembers b searchResults ↔ r ∈ searchResults ∧ inBucket b r = true) ∧
  (∀ r, (inBucket PositiveBucket r = true ↔ hasPositive r = true ∧ hasNegative r = false) ∧
        (inBucket NegativeBucket r = true ↔ hasNegative r = true ∧ hasPositive r = false) ∧
        (inBucket NeutralBucket r = true ↔ hasPositive r = hasNegative r)) ∧
  (∀ r, (hasPositive r = true ↔
         ∃ k before after,
           k ∈ ["great"; "excellent"; "amazing"; "love"; "best"; "impressed"; "recommend";
                "fantastic"; "helpful"; "powerful"] ∧
           JsString.toLowerCase (text r) = (before ++ k ++ after)%string) ∧
        (hasNegative r = true ↔
         ∃ k before after,
           k ∈ ["bad"; "terrible"; "awful"; "hate"; "worst"; "disappointed"; "issues";
                "problems"; "expensive"; "concerns"] ∧
           JsString.toLowerCase (text r) = (before ++ k ++ after)%string)).
Proof.
  assert (positiveComments (getFallbackAnalysis productName searchResults)
          = take 5 (commentOf <$> bucketMembers PositiveBucket searchResults) ∧
          negativeComments (getFallbackAnalysis productName searchResults)
          = take 5 (commentOf <$> bucketMembers NegativeBucket searchResults) ∧
          neutralComments (getFallbackAnalysis productName searchResults)
          = take 5 (commentOf <$> bucketMembers NeutralBucket searchResults))
    as (Hpos & Hneg & Hneu).
  { unfold getFallbackAnalysis. simpl. rewrite tally_tallyOf. done. }
  rewrite tally_tallyOf. cbn [tallyOf Tally.positiveCount Tally.negativeCount
                              Tally.neutralCount].
  pose proof (bucketMembers_total searchResults) as Htotal.
  split.
  { intros r. exists (bucketOf r). split.
    - unfold inBucket. by apply bool_decide_eq_true.
    - intros b Hb. unfold inBucket in Hb. by apply bool_decide_eq_true in Hb. }
  split; [done|]. split; [done|]. split; [done|]. split; [lia|].
  split; [exact Hpos|]. split; [exact Hneg|]. split; [exact Hneu|].
  split; [cbv zeta; rewrite Hpos; apply take_commentOf|].
  split; [cbv zeta; rewrite Hneg; apply take_commentOf|].
  split; [cbv zeta; rewrite Hneu; apply take_commentOf|].
  split.
  { intros b. split; [apply filter_sublist|]. intros r. unfold bucketMembers.
    by rewrite !list_elem_of_In, List.filter_In. }
  split; [apply inBucket_spec|].
  intros r. split; apply hasKeyword_spec.
Qed.

(** ** Theorems on binary64 arithmetic

    Bounds on [Math.round((count / total) * 100)] from the definitions of
    [SpecFloat]: the quotient of two integers below 2^53 exceeds the exact
    quotient by at most 2^-52, the product with 100 adds a relative error of
    at most 2^-52, and [Math.round] adds at most one half. *)

Module Binary64.

Lemma digits2_pos_bounds (p : BinNums.positive) :
  2 ^ (Zpos (digits2_pos p) - 1) <= Zpos p < 2 ^ Zpos (digits2_pos p).
Proof.
  induction p as [p IH|p IH|]; simpl digits2_pos.
  - rewrite Pos2Z.inj_succ.
    replace (Z.succ (Zpos (digits2_pos p)) - 1) with (Zpos (digits2_pos p) - 1 + 1) by lia.
    rewrite Z.pow_succ_r by lia.
    assert (0 <= Zpos (digits2_pos p) - 1) by lia.
    rewrite Z.pow_add_r by lia. lia.
  - rewrite Pos2Z.inj_succ.
    replace (Z.succ (Zpos (digits2_pos p)) - 1) with (Zpos (digits2_pos p) - 1 + 1) by lia.
    rewrite Z.pow_succ_r by lia.
    assert (0 <= Zpos (digits2_pos p) - 1) by lia.
    rewrite Z.pow_add_r by lia. lia.
  - simpl. lia.
Qed.

Lemma digits_le (p : BinNums.positive) (k : Z) :
  Zpos p < 2 ^ k -> Zpos (digits2_pos p) <= k.
Proof.
  intros H. destruct (digits2_pos_bounds p) as [Hlo _].
  destruct (Z_lt_le_dec k (Zpos (digits2_pos p))) as [Hlt|]; [|lia].
  assert (0 <= k \/ k < 0) as [Hk|Hk] by lia.
  - assert (2 ^ k <= 2 ^ (Zpos (digits2_pos p) - 1)) by (apply Z.pow_le_mono_r; lia). lia.
  - rewrite Z.pow_neg_r in H by lia. lia.
Qed.

Lemma shr_1_m (mrs : shr_record) :
  0 <= shr_m mrs -> shr_m (shr_1 mrs) = shr_m mrs / 2.
Proof.
  destruct mrs as [m r s]. cbn [shr_m]. intros Hm.
  rewrite <- Z.div2_div.
  destruct m as [|[p|p|]|p]; try reflexivity. lia.
Qed.

Lemma iter_pos_shr_m (p : BinNums.positive) : forall mrs,
  0 <= shr_m mrs -> shr_m (SpecFloat.iter_pos shr_1 p mrs) = shr_m mrs / 2 ^ Zpos p.
Proof.
  induction p as [p IH|p IH|]; intros mrs Hm; simpl SpecFloat.iter_pos.
  - assert (0 <= shr_m (shr_1 mrs)) as H1.
    { rewrite shr_1_m by lia. apply Z.div_pos; lia. }
    assert (0 <= shr_m (SpecFloat.iter_pos shr_1 p (shr_1 mrs))) as H2.
    { rewrite IH by lia. apply Z.div_pos; [lia|]. apply Z.pow_pos_nonneg; lia. }
    rewrite IH by lia. rewrite IH by lia. rewrite shr_1_m by lia.
    rewrite !Z.div_div by (try apply Z.pow_pos_nonneg; lia).
    assert (2 ^ Zpos p~1 = 2 * (2 ^ Zpos p * 2 ^ Zpos p)) as ->; [|reflexivity].
    rewrite Pos2Z.inj_xI.
    replace (2 * Zpos p + 1) with (1 + Zpos p + Zpos p) by lia.
    rewrite !Z.pow_add_r by lia. lia.
  - assert (0 <= shr_m (SpecFloat.iter_pos shr_1 p mrs)) as H2.
    { rewrite IH by lia. apply Z.div_pos; [lia|]. apply Z.pow_pos_nonneg; lia. }
    rewrite IH by lia. rewrite IH by lia.
    rewrite !Z.div_div by (try apply Z.pow_pos_nonneg; lia).
    assert (2 ^ Zpos p~0 = 2 ^ Zpos p * 2 ^ Zpos p) as ->; [|reflexivity].
    replace (Zpos p~0) with (Zpos p + Zpos p) by lia.
    apply Z.pow_add_r; lia.
  - rewrite shr_1_m by lia. reflexivity.
Qed.

Lemma shr_record_of_loc_m m l : shr_m (shr_record_of_loc m l) = m.
Proof. destruct l as [|[]]; reflexivity. Qed.

Lemma shr_fexp_m (mx ex : Z) (lx : location) :
  0 <= mx ->
  shr_m (fst (shr_fexp JsNumber.prec JsNumber.emax mx ex lx)) = mx / 2 ^ shiftOf mx ex /\
  snd (shr_fexp JsNumber.prec JsNumber.emax mx ex lx) = ex + shiftOf mx ex.
Proof.
  intros Hm. unfold shr_fexp, shr, shiftOf.
  destruct (fexp JsNumber.prec JsNumber.emax (Zdigits2 mx + ex) - ex) as [|p|p] eqn:E; simpl.
  - rewrite shr_record_of_loc_m, Z.div_1_r. lia.
  - rewrite iter_pos_shr_m by (rewrite shr_record_of_loc_m; lia).
    rewrite shr_record_of_loc_m. rewrite Z.max_r by lia. split; reflexivity.
  - rewrite shr_record_of_loc_m, Z.div_1_r. lia.
Qed.

Lemma round_nearest_even_bounds m l :
  m <= round_nearest_even m l <= m + 1.
Proof. destruct l as [|[]]; simpl; try lia. destruct (Z.even m); lia. Qed.

(** Result of binary_round_aux on a non-negative mantissa. *)
Lemma binary_round_aux_bound (sx : bool) (mx ex : Z) (lx : location) :
  0 <= mx ->
  match binary_round_aux JsNumber.prec JsNumber.emax sx mx ex lx with
  | S754_finite s m e =>
      s = sx /\ exists k, 0 <= k /\ e = ex + k /\ Zpos m * 2 ^ k <= mx + 2 ^ shiftOf mx ex
  | S754_zero s => s = sx
  | S754_infinity s => s = sx
  | S754_nan => False
  end.
Proof.
  intros Hm. unfold binary_round_aux.
  destruct (shr_fexp_m mx ex lx Hm) as [H1 H1e].
  destruct (shr_fexp JsNumber.prec JsNumber.emax mx ex lx) as [mrs' e']. simpl in H1, H1e.
  set (mr := round_nearest_even (shr_m mrs') (loc_of_shr_record mrs')).
  pose proof (round_nearest_even_bounds (shr_m mrs') (loc_of_shr_record mrs')) as Hr.
  fold mr in Hr.
  assert (0 <= shiftOf mx ex) as Hn by (unfold shiftOf; lia).
  assert (0 < 2 ^ shiftOf mx ex) as Hpow by (apply Z.pow_pos_nonneg; lia).
  assert (0 <= shr_m mrs') as Hm' by (rewrite H1; apply Z.div_pos; lia).
  assert (0 <= mr) as Hmr by lia.
  destruct (shr_fexp_m mr e' loc_Exact Hmr) as [H2 H2e].
  destruct (shr_fexp JsNumber.prec JsNumber.emax mr e' loc_Exact) as [mrs'' e'']. simpl in H2, H2e.
  assert (0 <= shiftOf mr e') as Hn2 by (unfold shiftOf; lia).
  assert (0 < 2 ^ shiftOf mr e') as Hpow2 by (apply Z.pow_pos_nonneg; lia).
  destruct (shr_m mrs'') as [|m|m] eqn:Em; [reflexivity| |].
  - destruct (Z.leb e'' (JsNumber.emax - JsNumber.prec)); [|reflexivity].
    split; [reflexivity|]. exists (shiftOf mx ex + shiftOf mr e').
    split; [lia|]. split; [lia|].
    rewrite Z.pow_add_r by lia.
    assert (Zpos m * 2 ^ shiftOf mr e' <= mr).
    { rewrite H2. rewrite Z.mul_comm. apply Z.mul_div_le. lia. }
    assert (shr_m mrs' * 2 ^ shiftOf mx ex <= mx).
    { rewrite H1. rewrite Z.mul_comm. apply Z.mul_div_le. lia. }
    nia.
  - assert (0 <= mr / 2 ^ shiftOf mr e') by (apply Z.div_pos; lia). lia.
Qed.

Lemma iter_xO_value (m d : BinNums.positive) :
  Zpos (Pos.iter xO m d) = Zpos m * 2 ^ Zpos d.
Proof.
  revert m. induction d as [|d IH] using Pos.peano_ind; intros m.
  - simpl. lia.
  - rewrite Pos.iter_succ, Pos2Z.inj_xO, IH, Pos2Z.inj_succ, Z.pow_succ_r by lia. lia.
Qed.

Lemma iter_xO_digits (m d : BinNums.positive) :
  Zpos (digits2_pos (Pos.iter xO m d)) = Zpos (digits2_pos m) + Zpos d.
Proof.
  revert m. induction d as [|d IH] using Pos.peano_ind; intros m.
  - simpl. lia.
  - rewrite Pos.iter_succ. simpl digits2_pos. rewrite Pos2Z.inj_succ, IH. lia.
Qed.

Lemma shr_fexp_noshift (m e : Z) (l : location) :
  fexp JsNumber.prec JsNumber.emax (Zdigits2 m + e) <= e ->
  shr_fexp JsNumber.prec JsNumber.emax m e l = (shr_record_of_loc m l, e).
Proof.
  intros H. unfold shr_fexp, shr.
  destruct (fexp JsNumber.prec JsNumber.emax (Zdigits2 m + e) - e) eqn:E; try reflexivity. lia.
Qed.

Lemma binary_round_aux_exact (sx : bool) (m : BinNums.positive) (e : Z) :
  fexp JsNumber.prec JsNumber.emax (Zpos (digits2_pos m) + e) <= e -> e <= JsNumber.emax - JsNumber.prec ->
  binary_round_aux JsNumber.prec JsNumber.emax sx (Zpos m) e loc_Exact = S754_finite sx m e.
Proof.
  intros Hfexp He. unfold binary_round_aux.
  rewrite shr_fexp_noshift by exact Hfexp.
  cbn [shr_record_of_loc loc_of_shr_record round_nearest_even shr_m].
  rewrite shr_fexp_noshift by exact Hfexp.
  cbn [shr_record_of_loc shr_m].
  destruct (Z.leb_spec e (JsNumber.emax - JsNumber.prec)); [reflexivity|lia].
Qed.

Lemma ofZ_exact (z : Z) :
  1 <= z < 2 ^ 53 ->
  exists m e, JsNumber.ofZ z = S754_finite false m e /\ -52 <= e <= 0 /\
              Zpos m = z * 2 ^ (- e) /\ Zpos (digits2_pos m) = 53.
Proof.
  intros Hz. destruct z as [|p|p]; try lia.
  unfold JsNumber.ofZ, binary_normalize, binary_round, shl_align.
  pose proof (digits2_pos_bounds p) as Hd.
  assert (Zpos (digits2_pos p) <= 53) as Hle by (apply digits_le; lia).
  assert (fexp JsNumber.prec JsNumber.emax (Zpos (digits2_pos p) + 0) = Zpos (digits2_pos p) - 53) as ->.
  { unfold fexp, emin, JsNumber.prec, JsNumber.emax. lia. }
  destruct (Zpos (digits2_pos p) - 53 - 0) as [|d|d] eqn:E; try lia.
  - rewrite binary_round_aux_exact.
    + exists p, 0. repeat split; try lia.
    + unfold fexp, emin, JsNumber.prec, JsNumber.emax. lia.
    + unfold JsNumber.emax, JsNumber.prec. lia.
  - rewrite binary_round_aux_exact.
    + exists (Pos.iter xO p d), (Zpos (digits2_pos p) - 53).
      split; [reflexivity|]. split; [lia|]. split.
      * rewrite iter_xO_value. f_equal. f_equal. lia.
      * rewrite iter_xO_digits. lia.
    + rewrite iter_xO_digits. unfold fexp, emin, JsNumber.prec, JsNumber.emax. lia.
    + unfold JsNumber.emax, JsNumber.prec. lia.
Qed.

Lemma Zdigits2_le (q k : Z) : 0 <= q < 2 ^ k -> 0 <= k -> Zdigits2 q <= k.
Proof.
  intros Hq Hk. destruct q as [|p|p]; simpl; try lia. apply digits_le. lia.
Qed.

Lemma div_bound (mc mt : BinNums.positive) (ec et : Z) :
  Zpos (digits2_pos mc) = 53 -> Zpos (digits2_pos mt) = 53 ->
  -52 <= ec <= 0 -> -52 <= et <= 0 ->
  match SFdiv JsNumber.prec JsNumber.emax (S754_finite false mc ec) (S754_finite false mt et) with
  | S754_finite s m e =>
      s = false /\ exists k, 0 <= k /\ e = ec - et - 53 + k /\
                             Zpos m * 2 ^ k <= (Zpos mc * 2 ^ 53) / Zpos mt + 2
  | S754_zero s => s = false
  | S754_infinity s => s = false
  | S754_nan => False
  end.
Proof.
  intros Hdc Hdt Hec Het. unfold SFdiv, SFdiv_core_binary.
  cbn [Zdigits2]. rewrite Hdc, Hdt.
  assert (Z.min (fexp JsNumber.prec JsNumber.emax (53 + ec - (53 + et))) (ec - et) = ec - et - 53) as ->.
  { unfold fexp, emin, JsNumber.prec, JsNumber.emax. lia. }
  replace (ec - et - (ec - et - 53)) with 53 by lia.
  rewrite Z.shiftl_mul_pow2 by lia.
  pose proof (digits2_pos_bounds mc) as Hbc. pose proof (digits2_pos_bounds mt) as Hbt.
  rewrite Hdc in Hbc. rewrite Hdt in Hbt.
  set (q := (Zpos mc * 2 ^ 53) / Zpos mt).
  assert (Z.div_eucl (Zpos mc * 2 ^ 53) (Zpos mt)
          = (q, (Zpos mc * 2 ^ 53) mod Zpos mt)) as ->.
  { unfold q, Z.div, Z.modulo. destruct (Z.div_eucl _ _). reflexivity. }
  assert (0 <= q < 2 ^ 54) as Hq.
  { unfold q. split.
    - apply Z.div_pos; lia.
    - apply Z.div_lt_upper_bound; lia. }
  pose proof (binary_round_aux_bound (xorb false false) q (ec - et - 53)
                (new_location (Zpos mt) ((Zpos mc * 2 ^ 53) mod Zpos mt))
                ltac:(lia)) as Hb.
  assert (shiftOf q (ec - et - 53) <= 1) as Hsh.
  { unfold shiftOf, fexp, emin, JsNumber.prec, JsNumber.emax.
    pose proof (Zdigits2_le q 54 Hq ltac:(lia)). lia. }
  assert (2 ^ shiftOf q (ec - et - 53) <= 2) as Hpow.
  { assert (0 <= shiftOf q (ec - et - 53)) by (unfold shiftOf; lia).
    change 2 with (2 ^ 1) at 2. apply Z.pow_le_mono_r; lia. }
  cbn [xorb] in Hb. cbv iota beta. cbn [xorb].
  destruct (binary_round_aux JsNumber.prec JsNumber.emax false q (ec - et - 53) _) as [s|s| |s m e]; try exact Hb.
  destruct Hb as (-> & k & Hk & -> & Hm). split; [reflexivity|].
  exists k. repeat split; try lia.
Qed.

Lemma ofZ_100 : JsNumber.ofZ 100 = S754_finite false 7036874417766400 (-46).
Proof. reflexivity. Qed.

Lemma mul100_bound (m : BinNums.positive) (e : Z) :
  -200 <= e ->
  match SFmul JsNumber.prec JsNumber.emax (S754_finite false m e) (JsNumber.ofZ 100) with
  | S754_finite s m2 e2 =>
      s = false /\ exists k, 0 <= k /\ e2 = e - 46 + k /\
        Zpos m2 * 2 ^ k * 2 ^ 52
        <= Zpos m * 7036874417766400 * (2 ^ 52 + 1) + 2 ^ 52
  | S754_zero s => s = false
  | S754_infinity s => s = false
  | S754_nan => False
  end.
Proof.
  intros He. rewrite ofZ_100. unfold SFmul. cbn [xorb].
  set (P := Zpos (m * 7036874417766400)).
  assert (P = Zpos m * 7036874417766400) as HP by (unfold P; lia).
  pose proof (binary_round_aux_bound false P (e + -46) loc_Exact ltac:(lia)) as Hb.
  assert (2 ^ shiftOf P (e + -46) * 2 ^ 52 <= 2 ^ 52 + P) as Hsh.
  { unfold shiftOf, fexp, emin, JsNumber.prec, JsNumber.emax. unfold P at 1. cbn [Zdigits2].
    pose proof (digits2_pos_bounds (m * 7036874417766400)) as Hd. fold P in Hd.
    set (d := Zpos (digits2_pos (m * 7036874417766400))) in *.
    destruct (Z.max_spec 0 (Z.max (d + (e + -46) - 53) (3 - 1024 - 53) - (e + -46)))
      as [[Hlt ->]|[Hge ->]].
    - replace (Z.max (d + (e + -46) - 53) (3 - 1024 - 53) - (e + -46)) with (d - 53) by lia.
      rewrite <- Z.pow_add_r by lia. replace (d - 53 + 52) with (d - 1) by lia. lia.
    - rewrite Z.pow_0_r. lia. }
  destruct (binary_round_aux JsNumber.prec JsNumber.emax false P (e + -46) loc_Exact) as [s|s| |s m2 e2];
    try exact Hb.
  destruct Hb as (-> & k & Hk & -> & Hm). split; [reflexivity|].
  exists k. split; [lia|]. split; [lia|].
  rewrite <- HP. nia.
Qed.

Lemma round_scaled (m : BinNums.positive) (e : Z) :
  -160 <= e ->
  0 <= JsNumber.round (S754_finite false m e) /\
  JsNumber.round (S754_finite false m e) * 2 ^ 160 <= Zpos m * 2 ^ (e + 160) + 2 ^ 159.
Proof.
  intros He. unfold JsNumber.round.
  destruct (Z.leb_spec 0 e) as [Hpos|Hneg].
  - assert (0 < 2 ^ e) by (apply Z.pow_pos_nonneg; lia).
    rewrite Z.pow_add_r by lia. split; [lia|]. lia.
  - assert (0 < 2 ^ (- e)) as Hp by (apply Z.pow_pos_nonneg; lia).
    assert (0 < 2 ^ (e + 160)) as Hp' by (apply Z.pow_pos_nonneg; lia).
    assert (2 ^ (- e) * 2 ^ (e + 160) = 2 ^ 160) as Hmul.
    { rewrite <- Z.pow_add_r by lia. f_equal. lia. }
    set (r := (2 * Zpos m + 2 ^ (- e)) / (2 * 2 ^ (- e))).
    assert (0 <= r) by (apply Z.div_pos; lia).
    assert (r * (2 * 2 ^ (- e)) <= 2 * Zpos m + 2 ^ (- e)) as Hr.
    { unfold r. rewrite Z.mul_comm. apply Z.mul_div_le. lia. }
    split; [lia|].
    assert (r * (2 * 2 ^ (- e)) * 2 ^ (e + 160)
            <= (2 * Zpos m + 2 ^ (- e)) * 2 ^ (e + 160)) as Hr2.
    { apply Z.mul_le_mono_nonneg_r; lia. }
    change (2 ^ 160) with (2 * 2 ^ 159) in *.
    nia.
Qed.


(** Pure arithmetic steps. *)
Lemma arith_exponents_ordered (c t E D : Z) :
  1 <= c <= t -> 0 < E -> 2 <= D ->
  2 ^ 52 <= c * E -> t * (E * D) < 2 ^ 53 -> False.
Proof.
  intros Hc HE HD Hlo Hhi.
  assert (c * E <= t * E) by (apply Z.mul_le_mono_nonneg_r; lia).
  assert (t * E * 2 <= t * E * D) by (apply Z.mul_le_mono_nonneg_l; nia).
  lia.
Qed.

Lemma arith_cancel (q t c A E Et : Z) :
  0 <= q -> 0 < t -> 0 < E -> 0 < Et ->
  A * E = Et * 2 ^ 107 ->
  q * (t * Et) <= c * E * 2 ^ 53 ->
  q * t * A <= c * 2 ^ 160.
Proof.
  intros Hq Ht HE HEt HA Hqm.
  apply (Z.mul_le_mono_pos_r _ _ E); [lia|].
  replace (q * t * A * E) with (q * (t * Et) * 2 ^ 107).
  2:{ replace (q * t * A * E) with (q * t * (A * E)) by ring. rewrite HA. ring. }
  replace (c * 2 ^ 160 * E) with (c * E * 2 ^ 53 * 2 ^ 107) by (change (2 ^ 160) with (2 ^ 53 * 2 ^ 107); ring).
  apply Z.mul_le_mono_nonneg_r; lia.
Qed.

Lemma arith_div_value (M q t c A : Z) :
  0 <= M -> M <= q + 2 -> 0 < t -> 0 < A -> A <= 2 ^ 107 ->
  q * t * A <= c * 2 ^ 160 ->
  M * A * t <= c * 2 ^ 160 + t * 2 ^ 108.
Proof.
  intros HM HMq Ht HA HA' Hq.
  assert (M * (A * t) <= (q + 2) * (A * t)) by (apply Z.mul_le_mono_nonneg_r; nia).
  assert (2 * (A * t) <= 2 * (2 ^ 107 * t)).
  { apply Z.mul_le_mono_nonneg_l; [lia|]. apply Z.mul_le_mono_nonneg_r; lia. }
  replace (M * A * t) with (M * (A * t)) by ring.
  replace ((q + 2) * (A * t)) with (q * t * A + 2 * (A * t)) in H by ring.
  change (2 ^ 108) with (2 * 2 ^ 107). lia.
Qed.

Lemma div_ofZ_bound (c t : Z) :
  1 <= c <= t -> t < 2 ^ 53 ->
  match SFdiv JsNumber.prec JsNumber.emax (JsNumber.ofZ c) (JsNumber.ofZ t) with
  | S754_finite s m e =>
      s = false /\ -105 <= e <= 1 /\
      Zpos m * 2 ^ (e + 160) * t <= c * 2 ^ 160 + t * 2 ^ 108
  | S754_zero s => s = false
  | S754_infinity s => s = false
  | S754_nan => False
  end.
Proof.
  intros Hc Ht.
  destruct (ofZ_exact c ltac:(lia)) as (mc & ec & -> & Hec & Hmc & Hdc).
  destruct (ofZ_exact t ltac:(lia)) as (mt & et & -> & Het & Hmt & Hdt).
  pose proof (div_bound mc mt ec et Hdc Hdt Hec Het) as Hb.
  destruct (SFdiv JsNumber.prec JsNumber.emax _ _) as [s|s| |s m e]; try exact Hb.
  destruct Hb as (-> & k & Hk & -> & Hm). split; [reflexivity|].
  pose proof (digits2_pos_bounds mc) as Hbc. pose proof (digits2_pos_bounds mt) as Hbt.
  rewrite Hdc in Hbc. rewrite Hdt in Hbt.
  set (q := (Zpos mc * 2 ^ 53) / Zpos mt) in *.
  assert (0 <= q < 2 ^ 54) as Hq.
  { unfold q. split; [apply Z.div_pos; lia|apply Z.div_lt_upper_bound; lia]. }
  assert (q * Zpos mt <= Zpos mc * 2 ^ 53) as Hqm.
  { unfold q. rewrite Z.mul_comm. apply Z.mul_div_le. lia. }
  assert (0 < 2 ^ (- ec)) as HE by (apply Z.pow_pos_nonneg; lia).
  assert (0 < 2 ^ (- et)) as HEt by (apply Z.pow_pos_nonneg; lia).
  assert (ec <= et) as Hx.
  { destruct (Z_le_gt_dec ec et) as [|Hgt]; [assumption|exfalso].
    apply (arith_exponents_ordered c t (2 ^ (- ec)) (2 ^ (ec - et))); try lia.
    - change 2 with (2 ^ 1) at 1. apply Z.pow_le_mono_r; lia.
    - rewrite <- Z.pow_add_r by lia. replace (- ec + (ec - et)) with (- et) by lia. lia. }
  assert (k <= 54) as Hk54.
  { destruct (Z_le_gt_dec k 54) as [|Hgt]; [assumption|exfalso].
    assert (2 ^ 55 <= 2 ^ k) by (apply Z.pow_le_mono_r; lia).
    assert (1 * 2 ^ k <= Zpos m * 2 ^ k) by (apply Z.mul_le_mono_nonneg_r; lia).
    lia. }
  split; [lia|].
  replace (ec - et - 53 + k + 160) with (k + (ec - et + 107)) by lia.
  rewrite Z.pow_add_r by lia.
  set (A := 2 ^ (ec - et + 107)).
  assert (0 < A) as HA by (apply Z.pow_pos_nonneg; lia).
  assert (A <= 2 ^ 107) as HA' by (apply Z.pow_le_mono_r; lia).
  assert (0 < 2 ^ k) by (apply Z.pow_pos_nonneg; lia).
  rewrite Z.mul_assoc.
  apply (arith_div_value _ q); try lia.
  apply (arith_cancel q t c A (2 ^ (- ec)) (2 ^ (- et))); try lia.
  unfold A. rewrite <- !Z.pow_add_r by lia. f_equal. lia.
Qed.

Lemma arith_mul_value (r M2 m B sx t c : Z) :
  0 <= r -> 0 < t -> 0 < B -> B <= 2 ^ 115 -> 0 <= m ->
  sx = m * (B * 2 ^ 46) ->
  r * 2 ^ 160 <= M2 * B + 2 ^ 159 ->
  M2 * 2 ^ 52 <= m * 7036874417766400 * (2 ^ 52 + 1) + 2 ^ 52 ->
  sx * t <= c * 2 ^ 160 + t * 2 ^ 108 ->
  r * 2 ^ 212 * t
  <= 100 * (2 ^ 52 + 1) * (c * 2 ^ 160 + t * 2 ^ 108) + (2 ^ 167 + 2 ^ 211) * t.
Proof.
  intros Hr Ht HB HB' Hm Hsx Hround Hmul Hdiv.
  assert (r * 2 ^ 212 <= 100 * (2 ^ 52 + 1) * sx + (2 ^ 167 + 2 ^ 211)) as Hstep.
  { assert (r * 2 ^ 160 * 2 ^ 52 <= (M2 * B + 2 ^ 159) * 2 ^ 52) as H1
        by (apply Z.mul_le_mono_nonneg_r; lia).
    assert (M2 * 2 ^ 52 * B <= (m * 7036874417766400 * (2 ^ 52 + 1) + 2 ^ 52) * B) as H2
        by (apply Z.mul_le_mono_nonneg_r; lia).
    assert (2 ^ 52 * B <= 2 ^ 52 * 2 ^ 115) as H3
        by (apply Z.mul_le_mono_nonneg_l; lia).
    replace (r * 2 ^ 212) with (r * 2 ^ 160 * 2 ^ 52)
      by (change (2 ^ 212) with (2 ^ 160 * 2 ^ 52); ring).
    replace ((M2 * B + 2 ^ 159) * 2 ^ 52) with (M2 * 2 ^ 52 * B + 2 ^ 211) in H1
      by (change (2 ^ 211) with (2 ^ 159 * 2 ^ 52); ring).
    replace ((m * 7036874417766400 * (2 ^ 52 + 1) + 2 ^ 52) * B)
      with (100 * (2 ^ 52 + 1) * sx + 2 ^ 52 * B) in H2
      by (rewrite Hsx; change 7036874417766400 with (100 * 2 ^ 46); ring).
    change (2 ^ 167) with (2 ^ 52 * 2 ^ 115). lia. }
  assert (r * 2 ^ 212 * t <= (100 * (2 ^ 52 + 1) * sx + (2 ^ 167 + 2 ^ 211)) * t) as H4
      by (apply Z.mul_le_mono_nonneg_r; lia).
  assert (100 * (2 ^ 52 + 1) * (sx * t) <= 100 * (2 ^ 52 + 1) * (c * 2 ^ 160 + t * 2 ^ 108)) as H5
      by (apply Z.mul_le_mono_nonneg_l; lia).
  replace ((100 * (2 ^ 52 + 1) * sx + (2 ^ 167 + 2 ^ 211)) * t)
    with (100 * (2 ^ 52 + 1) * (sx * t) + (2 ^ 167 + 2 ^ 211) * t) in H4 by ring.
  lia.
Qed.

Lemma percentage_scaled (c t : Z) :
  0 <= c <= t -> 1 <= t < 2 ^ 53 ->
  0 <= JsNumber.percentage c t /\
  JsNumber.percentage c t * 2 ^ 212 * t
  <= 100 * (2 ^ 52 + 1) * (c * 2 ^ 160 + t * 2 ^ 108) + (2 ^ 167 + 2 ^ 211) * t.
Proof.
  intros Hc Ht. unfold JsNumber.percentage, JsNumber.mul, JsNumber.div.
  assert (0 <= 100 * (2 ^ 52 + 1) * (c * 2 ^ 160 + t * 2 ^ 108) + (2 ^ 167 + 2 ^ 211) * t)
    as Hrhs by nia.
  destruct (Z.eq_dec c 0) as [->|Hc0].
  - destruct (ofZ_exact t ltac:(lia)) as (mt & et & -> & _).
    change (JsNumber.ofZ 0) with (S754_zero false). rewrite ofZ_100.
    cbn [SFdiv SFmul xorb JsNumber.round]. lia.
  - pose proof (div_ofZ_bound c t ltac:(lia) ltac:(lia)) as Hdiv.
    destruct (SFdiv JsNumber.prec JsNumber.emax (JsNumber.ofZ c) (JsNumber.ofZ t)) as [s|s| |s m e].
    + rewrite ofZ_100. cbn [SFmul xorb JsNumber.round]. lia.
    + rewrite ofZ_100. cbn [SFmul xorb JsNumber.round]. lia.
    + contradiction.
    + destruct Hdiv as (-> & He & Hval).
      pose proof (mul100_bound m e ltac:(lia)) as Hmul.
      destruct (SFmul JsNumber.prec JsNumber.emax (S754_finite false m e) (JsNumber.ofZ 100)) as [s2|s2| |s2 m2 e2];
        try (cbn [JsNumber.round]; lia).
      destruct Hmul as (-> & k & Hk & -> & Hm2).
      destruct (round_scaled m2 (e - 46 + k) ltac:(lia)) as [Hr0 Hr].
      split; [exact Hr0|].
      replace (e - 46 + k + 160) with (k + (e + 114)) in Hr by lia.
      rewrite Z.pow_add_r, Z.mul_assoc in Hr by lia.
      assert (0 < 2 ^ (e + 114)) by (apply Z.pow_pos_nonneg; lia).
      assert (2 ^ (e + 114) <= 2 ^ 115) by (apply Z.pow_le_mono_r; lia).
      apply (arith_mul_value _ (Zpos m2 * 2 ^ k) (Zpos m) (2 ^ (e + 114))
               (Zpos m * 2 ^ (e + 160))); try lia.
      rewrite <- Z.pow_add_r by lia. do 2 f_equal. lia.
Qed.

Theorem percentage_range (c t : Z) :
  0 <= c <= t -> 1 <= t < 2 ^ 53 -> 0 <= JsNumber.percentage c t <= 100.
Proof.
  intros Hc Ht. destruct (percentage_scaled c t Hc Ht) as [H0 H].
  split; [exact H0|].
  destruct (Z_le_gt_dec (JsNumber.percentage c t) 100) as [|Hgt]; [assumption|exfalso].
  assert (101 * (2 ^ 212 * t) <= JsNumber.percentage c t * (2 ^ 212 * t))
    by (apply Z.mul_le_mono_nonneg_r; lia).
  assert (c * 2 ^ 160 <= t * 2 ^ 160) by (apply Z.mul_le_mono_nonneg_r; lia).
  lia.
Qed.

Theorem percentage_pair (c1 c2 t : Z) :
  0 <= c1 -> 0 <= c2 -> c1 + c2 <= t -> 1 <= t < 2 ^ 53 ->
  JsNumber.percentage c1 t + JsNumber.percentage c2 t <= 101.
Proof.
  intros H1 H2 Hsum Ht.
  destruct (percentage_scaled c1 t ltac:(lia) Ht) as [_ Hp1].
  destruct (percentage_scaled c2 t ltac:(lia) Ht) as [_ Hp2].
  destruct (Z_le_gt_dec (JsNumber.percentage c1 t + JsNumber.percentage c2 t) 101) as [|Hgt];
    [assumption|exfalso].
  assert (102 * (2 ^ 212 * t) <= (JsNumber.percentage c1 t + JsNumber.percentage c2 t) * (2 ^ 212 * t))
    by (apply Z.mul_le_mono_nonneg_r; lia).
  assert ((c1 + c2) * 2 ^ 160 <= t * 2 ^ 160) by (apply Z.mul_le_mono_nonneg_r; lia).
  lia.
Qed.

End Binary64.

(** The ratios of [getFallbackAnalysis] by construction: the positive and
    the negative ratio are [Math.round((count / total) * 100)] with
    [total = searchResults.length || 1], the neutral ratio is what is left of
    100, and an empty candidate list gives 0, 0 and 100. *)
Lemma fallback_ratios_formula (productName : string) (searchResults : list SearchResult) :
  let total := Z.max (Z.of_nat (length searchResults)) 1 in
  let p := JsNumber.percentage (Tally.positiveCount (tally searchResults)) total in
  let n := JsNumber.percentage (Tally.negativeCount (tally searchResults)) total in
  positiveRatio (getFallbackAnalysis productName searchResults) = Some p ∧
  negativeRatio (getFallbackAnalysis productName searchResults) = Some n ∧
  neutralRatio (getFallbackAnalysis productName searchResults) = Some (100 - p - n) ∧
  (positiveRatio (getFallbackAnalysis productName []),
   negativeRatio (getFallbackAnalysis productName []),
   neutralRatio (getFallbackAnalysis productName [])) = (Some 0, Some 0, Some 100).
Proof.
  intros total p n. subst p n total. unfold getFallbackAnalysis. simpl.
  assert ((if Z.of_nat (length searchResults) =? 0 then 1 else Z.of_nat (length searchResults))
          = Z.max (Z.of_nat (length searchResults)) 1) as ->.
  { destruct (Z.eqb_spec (Z.of_nat (length searchResults)) 0); lia. }
  repeat split.
Qed.

(** For fewer than 2^53 candidates the positive and the negative ratio lie
    between 0 and 100, and the neutral ratio between -1 and 100. *)
Lemma fallback_ratios_range (productName : string) (searchResults : list SearchResult) :
  Z.of_nat (length searchResults) < 2 ^ 53 →
  ∃ p n u,
    positiveRatio (getFallbackAnalysis productName searchResults) = Some p ∧
    negativeRatio (getFallbackAnalysis productName searchResults) = Some n ∧
    neutralRatio (getFallbackAnalysis productName searchResults) = Some u ∧
    0 ≤ p ≤ 100 ∧ 0 ≤ n ≤ 100 ∧ -1 ≤ u ≤ 100 ∧ p + n + u = 100.
Proof.
  intros Hlen.
  destruct (fallback_ratios_formula productName searchResults) as (Hp & Hn & Hu & _).
  rewrite Hp, Hn, Hu. rewrite tally_tallyOf. simpl.
  pose proof (bucketMembers_total searchResults) as Htotal.
  set (total := Z.max (Z.of_nat (length searchResults)) 1).
  set (cp := Z.of_nat (length (bucketMembers PositiveBucket searchResults))).
  set (cn := Z.of_nat (length (bucketMembers NegativeBucket searchResults))).
  assert (0 ≤ cp ∧ 0 ≤ cn ∧ cp + cn ≤ total ∧ 1 ≤ total < 2 ^ 53) as (H1 & H2 & H3 & H4)
    by (unfold cp, cn, total; lia).
  pose proof (Binary64.percentage_range cp total ltac:(lia) H4).
  pose proof (Binary64.percentage_range cn total ltac:(lia) H4).
  pose proof (Binary64.percentage_pair cp cn total H1 H2 H3 H4).
  do 3 eexists. repeat split; try reflexivity; lia.
Qed.

(** C4.  The eight snippets of [threePraisesFiveComplaints] pass
    [deduplicateResults] unchanged; three of them are positive and five
    negative.  [getFallbackAnalysis] computes [Math.round(37.5) = 38] and
    [Math.round(62.5) = 63] for them, so that
    [neutralRatio = 100 - 38 - 63 = -1]: the neutral ratio is not a percentage
    between 0 and 100.  This is the summary [analyzeSentiment] returns when
    the call to the language model is rejected. *)
Theorem fallback_neutral_ratio_negative :
  deduplicateResults threePraisesFiveComplaints = threePraisesFiveComplaints ∧
  length threePraisesFiveComplaints = 8%nat ∧
  Tally.positiveCount (tally threePraisesFiveComplaints) = 3 ∧
  Tally.negativeCount (tally threePraisesFiveComplaints) = 5 ∧
  positiveRatio (getFallbackAnalysis "Product" threePraisesFiveComplaints) = Some 38 ∧
  negativeRatio (getFallbackAnalysis "Product" threePraisesFiveComplaints) = Some 63 ∧
  neutralRatio (getFallbackAnalysis "Product" threePraisesFiveComplaints) = Some (-1) ∧
  (analyzeSentiment (steadyEnv [] Llm.Rejected) "Product"
                    threePraisesFiveComplaints freshWorld).1
  = Ok (getFallbackAnalysis "Product" threePraisesFiveComplaints).
Proof. vm_compute. done. Qed.

(** The binary64 product [(23 / 40) * 100] is 57.49999999999999, which
    [Math.round] takes to 57, where [round(100 * 23 / 40) = round(57.5)] is
    58. *)
Lemma fallback_ratio_rounds_low :
  length twentyThreePraisesOfForty = 40%nat ∧
  Tally.positiveCount (tally twentyThreePraisesOfForty) = 23 ∧
  positiveRatio (getFallbackAnalysis "Product" twentyThreePraisesOfForty) = Some 57 ∧
  roundedPercentage 23 40 = 58 ∧
  deduplicateResults twentyThreePraisesOfForty = twentyThreePraisesOfForty.
Proof. vm_compute. done. Qed.

(** ** Theorems on [getComments] *)

Section Exemplars.

Variable searchResults : list SearchResult.

Lemma indexInRange_spec (i : Llm.Index) :
  indexInRange searchResults i = true ↔
  match i with
  | Llm.Whole z => 1 ≤ z ≤ Z.of_nat (length searchResults)
  | Llm.Fraction below => 1 ≤ below ∧ below + 1 ≤ Z.of_nat (length searchResults)
  | Llm.NotANumber | Llm.Infinite _ => False
  end.
Proof.
  unfold indexInRange. destruct i as [z|below| |[]]; simpl;
    rewrite ?andb_true_iff, ?Z.leb_le; intuition congruence.
Qed.

Lemma resultBefore_whole (z : Z) :
  1 ≤ z ≤ Z.of_nat (length searchResults) →
  ∃ result, searchResults !! Z.to_nat (z - 1) = Some result ∧
            resultBefore searchResults (Llm.Whole z) = Some result.
Proof.
  intros Hz. unfold resultBefore, arrayGet.
  destruct (Z.ltb_spec (z - 1) 0) as [?|_]; [lia|].
  destruct (lookup_lt_is_Some_2 searchResults (Z.to_nat (z - 1))) as [r Hr]; [lia|].
  by exists r.
Qed.

Lemma commentAt_throws (i : Llm.Index) (e : Exn) :
  commentAt searchResults i = Throw e → e = TypeError.
Proof. unfold commentAt. destruct (resultBefore _ _); [done|by intros [= <-]]. Qed.

Lemma commentAt_not_whole (i : Llm.Index) :
  isWhole i = false → commentAt searchResults i = Throw TypeError.
Proof. by destruct i. Qed.

Lemma mapResult_commentAt (kept : list Llm.Index) :
  Forall (λ i, indexInRange searchResults i = true) kept →
  match mapResult (commentAt searchResults) kept with
  | Ok comments =>
      Forall2 (designates searchResults) kept comments ∧
      Some <$> comments = (λ i, commentOf <$> resultBefore searchResults i) <$> kept
  | Throw e => e = TypeError ∧ Exists (λ i, isWhole i = false) kept
  end.
Proof.
  induction 1 as [|i rest Hi _ IH]; [by split; [constructor|]|].
  cbn [mapResult]. destruct i as [z|below| |minus];
    try (split; [done|]; by apply Exists_cons_hd).
  apply indexInRange_spec in Hi.
  destruct (resultBefore_whole z Hi) as (r & Hlookup & Hr).
  unfold commentAt at 1. rewrite Hr.
  destruct (mapResult (commentAt searchResults) rest) as [comments|e].
  - destruct IH as [IH1 IH2]. split.
    + constructor; [|done]. by exists z, r.
    + rewrite !fmap_cons, Hr, IH2. done.
  - destruct IH as [-> IH]. split; [done|by apply Exists_cons_tl].
Qed.

Lemma mappedIndices_Forall (elements : list Llm.Index) :
  Forall (λ i, indexInRange searchResults i = true) (mappedIndices searchResults elements).
Proof.
  unfold mappedIndices. apply Forall_take, List.Forall_forall.
  intros i Hi. by apply List.filter_In in Hi as [_ ?].
Qed.

Lemma mappedIndices_sublist (elements : list Llm.Index) :
  sublist (mappedIndices searchResults elements) elements.
Proof.
  unfold mappedIndices. etrans; [apply sublist_take|apply filter_sublist].
Qed.

Lemma inRangeIndices_sublist (indices : list Z) :
  sublist (inRangeIndices searchResults indices) indices.
Proof. apply filter_sublist. Qed.

Lemma filter_integers (indices : list Z) :
  List.filter (indexInRange searchResults) (Llm.Whole <$> indices)
  = Llm.Whole <$> inRangeIndices searchResults indices.
Proof.
  unfold inRangeIndices. induction indices as [|i rest IH]; [done|].
  rewrite fmap_cons. simpl. unfold indexInRange at 1. simpl.
  destruct ((1 <=? i) && (i <=? Z.of_nat (length searchResults))); rewrite IH; done.
Qed.

Lemma mappedIndices_integers (indices : list Z) :
  mappedIndices searchResults (Llm.Whole <$> indices)
  = Llm.Whole <$> take 5 (inRangeIndices searchResults indices).
Proof. unfold mappedIndices. by rewrite filter_integers, fmap_take. Qed.

Lemma mappable_spec (indices : option Llm.Indices) :
  mappable searchResults indices = true ↔
  ∃ comments, getComments searchResults (orEmpty indices) = Ok comments.
Proof.
  destruct indices as [[|elements]|]; simpl.
  - split; [done|]. by intros [? ?].
  - fold (mappedIndices searchResults elements).
    pose proof (mapResult_commentAt _ (mappedIndices_Forall elements)) as H.
    rewrite forallb_forall.
    destruct (mapResult (commentAt searchResults) (mappedIndices searchResults elements))
      as [comments|e].
    + split; [by exists comments|]. intros _ i Hi. destruct H as [H _].
      apply list_elem_of_In, list_elem_of_lookup_1 in Hi as [k Hk].
      destruct (Forall2_lookup_l _ _ _ _ _ H Hk) as (c & _ & z & r & -> & _). done.
    + destruct H as [_ H]. split; [|by intros [? ?]].
      intros Hall. exfalso. apply Exists_exists in H as (i & Hi & Hw).
      apply list_elem_of_In in Hi. rewrite (Hall i Hi) in Hw. done.
  - split; [by exists []|done].
Qed.

Lemma getComments_not_mappable (indices : option Llm.Indices) :
  mappable searchResults indices = false →
  getComments searchResults (orEmpty indices) = Throw TypeError.
Proof.
  intros Hno. destruct (getComments searchResults (orEmpty indices)) as [comments|e] eqn:E.
  - assert (mappable searchResults indices = true) as Hyes
      by (apply mappable_spec; by exists comments).
    congruence.
  - f_equal. destruct indices as [[|elements]|]; simpl in E; [congruence| |done].
    pose proof (mapResult_commentAt _ (mappedIndices_Forall elements)) as H.
    unfold mappedIndices in H. rewrite E in H. by destruct H.
Qed.

End Exemplars.

(** C5, as the code has it.  [getComments] looks at the value it is given as
    JavaScript does.  A value that is not an array makes it throw.  Of an
    array it keeps the elements in [1, searchResults.length], in the order
    of the response and repeated ones included, and maps the first five of
    them: when these are integers, each gives the text, the source and the
    author of the candidate it designates; when one of them is not (1.5
    over two candidates), [getComments] throws a TypeError.  For an array of
    integers it never throws. *)
Theorem getComments_correct (searchResults : list SearchResult) :
  getComments searchResults Llm.NotAnArray = Throw TypeError ∧
  (∀ i, indexInRange searchResults i = true ↔
        match i with
        | Llm.Whole z => 1 ≤ z ≤ Z.of_nat (length searchResults)
        | Llm.Fraction below => 1 ≤ below ∧ below + 1 ≤ Z.of_nat (length searchResults)
        | Llm.NotANumber | Llm.Infinite _ => False
        end) ∧
  (∀ elements,
     let mapped := take 5 (List.filter (indexInRange searchResults) elements) in
     sublist (List.filter (indexInRange searchResults) elements) elements ∧
     (∀ i, i ∈ List.filter (indexInRange searchResults) elements ↔
           i ∈ elements ∧ indexInRange searchResults i = true) ∧
     match getComments searchResults (Llm.Elements elements) with
     | Ok comments =>
         Forall2 (λ i comment,
                    ∃ z result,
                      i = Llm.Whole z ∧ 1 ≤ z ≤ Z.of_nat (length searchResults) ∧
                      searchResults !! Z.to_nat (z - 1) = Some result ∧
                      Comment.text comment = text result ∧
                      Comment.source comment = source result ∧
                      Comment.author comment = author result)
                 mapped comments ∧
         (length comments ≤ 5)%nat
     | Throw e => e = TypeError ∧ Exists (λ i, isWhole i = false) mapped
     end) ∧
  (∀ indices : list Z,
     ∃ comments,
       getComments searchResults (integers indices) = Ok comments ∧
       Some <$> comments =
         (λ i, commentOf <$> candidateAt searchResults i)
           <$> take 5 (inRangeIndices searchResults indices) ∧
       (length comments ≤ 5)%nat ∧
       length comments = (5 `min` length (inRangeIndices searchResults indices))%nat ∧
       sublist (inRangeIndices searchResults indices) indices ∧
       ∀ i, i ∈ inRangeIndices searchResults indices ↔
            i ∈ indices ∧ 1 ≤ i ≤ Z.of_nat (length searchResults)).
Proof.
  split; [done|]. split; [apply indexInRange_spec|]. split.
  - intros elements mapped. split; [apply filter_sublist|]. split.
    { intros i. by rewrite !list_elem_of_In, List.filter_In. }
    pose proof (mapResult_commentAt searchResults _
                  (mappedIndices_Forall searchResults elements)) as H.
    unfold mappedIndices in H. fold mapped in H. simpl. fold mapped.
    destruct (mapResult (commentAt searchResults) mapped) as [comments|e]; [|done].
    destruct H as [H _]. split; [exact H|].
    rewrite <- (Forall2_length _ _ _ H). unfold mapped. rewrite length_take. lia.
  - intros indices. unfold integers.
    pose proof (mapResult_commentAt searchResults _
                  (mappedIndices_Forall searchResults (Llm.Whole <$> indices))) as H.
    simpl. fold (mappedIndices searchResults (Llm.Whole <$> indices)).
    rewrite mappedIndices_integers in *.
    destruct (mapResult (commentAt searchResults) _) as [comments|e].
    + destruct H as [_ H]. exists comments. split; [done|].
      assert (Some <$> comments =
              (λ i, commentOf <$> candidateAt searchResults i)
                <$> take 5 (inRangeIndices searchResults indices)) as Heq.
      { rewrite H, <- list_fmap_compose. done. }
      split; [exact Heq|].
      assert (length comments
              = (5 `min` length (inRangeIndices searchResults indices))%nat) as Hlen.
      { rewrite <- (length_fmap Some comments), Heq, length_fmap, length_take. done. }
      split; [lia|]. split; [exact Hlen|]. split; [apply inRangeIndices_sublist|].
      intros i. unfold inRangeIndices.
      rewrite !list_elem_of_In, List.filter_In, andb_true_iff, !Z.leb_le. done.
    + exfalso. destruct H as [_ H]. apply Exists_exists in H as (i & Hi & Hw).
      apply list_elem_of_fmap in Hi as (z & -> & _). done.
Qed.

(** C5 as stated fails: the index list [1, 1] over one candidate yields that
    candidate twice, where the removal of duplicates would yield it once. *)
Lemma getComments_keeps_duplicates :
  getComments [snippet "This is a great product overall"] (integers [1; 1])
  ≠ Ok (exemplarsWithoutDuplicates [snippet "This is a great product overall"] [1; 1]).
Proof. vm_compute. discriminate. Qed.

(** The array [1.5] over two candidates passes the filter and makes
    [getComments] throw, and so does the string "1,2". *)
Lemma getComments_throws_on_a_fraction :
  getComments [snippet "This is a great product overall"; snippet "I love how fast it answers"]
              (Llm.Elements [Llm.Fraction 1]) = Throw TypeError ∧
  getComments [snippet "This is a great product overall"; snippet "I love how fast it answers"]
              Llm.NotAnArray = Throw TypeError.
Proof. split; reflexivity. Qed.

(** ** Theorems on [analyzeSentiment] *)

Section AnalyzeSentiment.

Variable env : Env.
Implicit Types (productName : string) (searchResults : list SearchResult) (w : World).

Lemma afterEvents_afterEvents w evs evs' :
  afterEvents (afterEvents w evs) evs' = afterEvents w (evs ++ evs').
Proof. unfold afterEvents. simpl. by rewrite app_assoc. Qed.

(** What the [try] block comes to, by the outcome of the call. *)
Lemma analyzeWithLLM_cases productName searchResults w :
  match llmOutcome env w productName searchResults with
  | Llm.Parsed analysis =>
      if mappableResponse searchResults analysis then
        ∃ pos neg neu,
          builtFromResponse searchResults analysis (summaryOfResponse analysis pos neg neu) ∧
          analyzeWithLLM env productName searchResults w =
          (Ok (summaryOfResponse analysis pos neg neu),
           afterEvents w [EvInvokeLLM productName searchResults])
      else
        analyzeWithLLM env productName searchResults w =
        (Throw TypeError, afterEvents w [EvInvokeLLM productName searchResults])
  | _ =>
      ∃ e, analyzeWithLLM env productName searchResults w =
           (Throw e, afterEvents w [EvInvokeLLM productName searchResults])
  end.
Proof.
  unfold analyzeWithLLM, invokeAndParse, bind, getWorld, emit, throw, ret, liftResult.
  simpl. destruct (llmOutcome env w productName searchResults) as [| | | |a];
    try (eexists; reflexivity).
  unfold mappableResponse.
  destruct (mappable searchResults (Llm.positiveIndices a)) eqn:Hp; simpl;
    [|by rewrite (getComments_not_mappable _ _ Hp)].
  apply mappable_spec in Hp as [pos Hpos]. rewrite Hpos.
  destruct (mappable searchResults (Llm.negativeIndices a)) eqn:Hn; simpl;
    [|by rewrite (getComments_not_mappable _ _ Hn)].
  apply mappable_spec in Hn as [neg Hneg]. rewrite Hneg.
  destruct (mappable searchResults (Llm.neutralIndices a)) eqn:Hu; simpl;
    [|by rewrite (getComments_not_mappable _ _ Hu)].
  apply mappable_spec in Hu as [neu Hneu]. rewrite Hneu.
  exists pos, neg, neu. split; [|done].
  unfold builtFromResponse, summaryOfResponse. simpl. done.
Qed.

Lemma analyzeSentiment_cases productName searchResults w :
  match llmOutcome env w productName searchResults with
  | Llm.Parsed analysis =>
      if mappableResponse searchResults analysis then
        ∃ result,
          builtFromResponse searchResults analysis result ∧
          analyzeSentiment env productName searchResults w =
          (Ok result, afterEvents w [EvInvokeLLM productName searchResults])
      else
        analyzeSentiment env productName searchResults w =
        (Ok (getFallbackAnalysis productName searchResults),
         afterEvents w [EvInvokeLLM productName searchResults;
                        EvConsole (LogLlmAnalysisError TypeError)])
  | _ =>
      ∃ e, analyzeSentiment env productName searchResults w =
           (Ok (getFallbackAnalysis productName searchResults),
            afterEvents w [EvInvokeLLM productName searchResults;
                           EvConsole (LogLlmAnalysisError e)])
  end.
Proof.
  pose proof (analyzeWithLLM_cases productName searchResults w) as H.
  unfold analyzeSentiment, tryCatch.
  destruct (llmOutcome env w productName searchResults) as [| | | |a];
    try (destruct H as [e ->]; exists e;
         unfold bind, console, emit, ret, afterEvents; simpl;
         by rewrite <- app_assoc).
  destruct (mappableResponse searchResults a).
  - destruct H as (pos & neg & neu & Hbuilt & ->). eauto.
  - rewrite H. unfold bind, console, emit, ret, afterEvents; simpl.
    by rewrite <- app_assoc.
Qed.

Lemma fallback_ratiosSumTo100 productName searchResults :
  ratiosSumTo100 (getFallbackAnalysis productName searchResults).
Proof.
  unfold ratiosSumTo100, getFallbackAnalysis. simpl.
  do 3 eexists. repeat split. lia.
Qed.

Lemma mappableResponse_spec searchResults (analysis : Llm.Analysis) :
  mappableResponse searchResults analysis = true ↔
  ∃ pos neg neu,
    getComments searchResults (orEmpty (Llm.positiveIndices analysis)) = Ok pos ∧
    getComments searchResults (orEmpty (Llm.negativeIndices analysis)) = Ok neg ∧
    getComments searchResults (orEmpty (Llm.neutralIndices analysis)) = Ok neu.
Proof.
  unfold mappableResponse. rewrite !andb_true_iff, !mappable_spec. split.
  - intros [[[pos ?] [neg ?]] [neu ?]]. by exists pos, neg, neu.
  - intros (pos & neg & neu & ? & ? & ?). repeat split; by eexists.
Qed.

Lemma mappable_integers searchResults (indices : list Z) :
  mappable searchResults (Some (integers indices)) = true.
Proof.
  simpl. fold (mappedIndices searchResults (Llm.Whole <$> indices)).
  rewrite mappedIndices_integers. apply forallb_forall.
  intros i Hi. apply list_elem_of_In, list_elem_of_fmap in Hi as (z & -> & _). done.
Qed.

End AnalyzeSentiment.

(** C1, as the code has it.  The summary of the keyword classifier always has
    ratios that add up to 100.  [analyzeSentiment] returns that summary
    whenever the [try] block throws: when the call to the language model
    fails, and when the response is parsed but one of its index lists
    cannot be mapped (a value that is not an array, or a number that is not
    an integer among the first five elements in range).  When the response
    is parsed and [getComments] maps its three index lists, the three
    ratios of the response are copied unchanged, so the returned ratios add
    up to 100 exactly when those of the response do. *)
Theorem ratios_sum_to_100 (env : Env) (productName : string)
        (searchResults : list SearchResult) (w : World) :
  ratiosSumTo100 (getFallbackAnalysis productName searchResults) ∧
  ∃ result w',
    analyzeSentiment env productName searchResults w = (Ok result, w') ∧
    match llmOutcome env w productName searchResults with
    | Llm.Parsed analysis =>
        (mappableResponse searchResults analysis = true ↔
         ∃ pos neg neu,
           getComments searchResults (orEmpty (Llm.positiveIndices analysis)) = Ok pos ∧
           getComments searchResults (orEmpty (Llm.negativeIndices analysis)) = Ok neg ∧
           getComments searchResults (orEmpty (Llm.neutralIndices analysis)) = Ok neu) ∧
        if mappableResponse searchResults analysis then
          positiveRatio result = Llm.positiveRatio analysis ∧
          negativeRatio result = Llm.negativeRatio analysis ∧
          neutralRatio result = Llm.neutralRatio analysis ∧
          (ratiosSumTo100 result ↔ responseRatiosSumTo100 analysis)
        else
          result = getFallbackAnalysis productName searchResults ∧ ratiosSumTo100 result
    | _ => result = getFallbackAnalysis productName searchResults ∧ ratiosSumTo100 result
    end.
Proof.
  split; [apply fallback_ratiosSumTo100|].
  pose proof (analyzeSentiment_cases env productName searchResults w) as H.
  destruct (llmOutcome env w productName searchResults) as [| | | |a];
    try (destruct H as [e ->]; do 2 eexists; split; [reflexivity|];
         split; [reflexivity|apply fallback_ratiosSumTo100]).
  pose proof (mappableResponse_spec searchResults a) as Hspec.
  destruct (mappableResponse searchResults a).
  - destruct H as (result & Hbuilt & ->). exists result. eexists. split; [reflexivity|].
    split; [exact Hspec|].
    destruct Hbuilt as (_ & Hp & Hn & Hu & _).
    repeat split; try done;
      unfold ratiosSumTo100, responseRatiosSumTo100; rewrite Hp, Hn, Hu; done.
  - rewrite H. do 2 eexists. split; [reflexivity|]. split; [exact Hspec|].
    split; [reflexivity|apply fallback_ratiosSumTo100].
Qed.

(** C1 as stated fails: a response with the ratios 50, 50 and 50 is returned
    as it is. *)
Lemma llm_ratios_not_checked :
  ∃ result w',
    analyzeSentiment (steadyEnv [] (Llm.Parsed lopsidedAnalysis)) "Product"
                     threePraisesFiveComplaints freshWorld = (Ok result, w') ∧
    positiveRatio result = Some 50 ∧ negativeRatio result = Some 50 ∧
    neutralRatio result = Some 50 ∧
    ¬ ratiosSumTo100 result.
Proof.
  do 2 eexists. split; [vm_compute; reflexivity|]. simpl. repeat split.
  intros (p & n & u & Hp & Hn & Hu & Hsum). simpl in *.
  injection Hp as <-. injection Hn as <-. injection Hu as <-. lia.
Qed.


(** C7, as the code has it.  A response that parses to an object is never
    rejected for what it lacks: an absent index list can always be mapped,
    and when [getComments] maps the three index lists the returned summary
    is built from the response, an absent label, ratio, narrative or theme
    list staying absent and an absent index list giving an empty list of
    comments, and nothing is logged.  The response is replaced by the
    summary of the keyword classifier, and a TypeError logged, exactly when
    an index list cannot be mapped: it is a value that is not an array, or
    one of its first five elements in range is not an integer. *)
Theorem incomplete_response_is_used (env : Env) (productName : string)
        (searchResults : list SearchResult) (w : World) (analysis : Llm.Analysis)
        (Hparsed : llmOutcome env w productName searchResults = Llm.Parsed analysis) :
  (mappableResponse searchResults analysis = true ↔
   ∃ pos neg neu,
     getComments searchResults (orEmpty (Llm.positiveIndices analysis)) = Ok pos ∧
     getComments searchResults (orEmpty (Llm.negativeIndices analysis)) = Ok neg ∧
     getComments searchResults (orEmpty (Llm.neutralIndices analysis)) = Ok neu) ∧
  (∀ indices, mappable searchResults indices = true ↔
              match indices with
              | None => True
              | Some Llm.NotAnArray => False
              | Some (Llm.Elements elements) =>
                  Forall (λ i, isWhole i = true)
                         (take 5 (List.filter (indexInRange searchResults) elements))
              end) ∧
  if mappableResponse searchResults analysis then
    ∃ result,
      analyzeSentiment env productName searchResults w =
      (Ok result, afterEvents w [EvInvokeLLM productName searchResults]) ∧
      builtFromResponse searchResults analysis result ∧
      (Llm.positiveIndices analysis = None → positiveComments result = []) ∧
      (Llm.negativeIndices analysis = None → negativeComments result = []) ∧
      (Llm.neutralIndices analysis = None → neutralComments result = [])
  else
    analyzeSentiment env productName searchResults w =
    (Ok (getFallbackAnalysis productName searchResults),
     afterEvents w [EvInvokeLLM productName searchResults;
                    EvConsole (LogLlmAnalysisError TypeError)]).
Proof.
  split; [apply mappableResponse_spec|]. split.
  { intros [[|elements]|]; simpl; [done| |done].
    rewrite forallb_forall, List.Forall_forall. done. }
  pose proof (analyzeSentiment_cases env productName searchResults w) as H.
  rewrite Hparsed in H. destruct (mappableResponse searchResults analysis); [|done].
  destruct H as (result & Hbuilt & ->).
  exists result. split; [done|]. split; [done|].
  destruct Hbuilt as (_ & _ & _ & _ & _ & _ & Hp & Hn & Hu).
  repeat split; intros Hnone; rewrite Hnone in *; vm_compute in *; congruence.
Qed.

Lemma incomplete_response_is_used_witness :
  (mappableResponse threePraisesFiveComplaints noAnalysis = true ↔
   ∃ pos neg neu,
     getComments threePraisesFiveComplaints (orEmpty (Llm.positiveIndices noAnalysis)) = Ok pos ∧
     getComments threePraisesFiveComplaints (orEmpty (Llm.negativeIndices noAnalysis)) = Ok neg ∧
     getComments threePraisesFiveComplaints (orEmpty (Llm.neutralIndices noAnalysis)) = Ok neu) ∧
  (∀ indices, mappable threePraisesFiveComplaints indices = true ↔
              match indices with
              | None => True
              | Some Llm.NotAnArray => False
              | Some (Llm.Elements elements) =>
                  Forall (λ i, isWhole i = true)
                         (take 5 (List.filter (indexInRange threePraisesFiveComplaints)
                                              elements))
              end) ∧
  ∃ result,
    analyzeSentiment (steadyEnv [] (Llm.Parsed noAnalysis)) "Product"
                     threePraisesFiveComplaints freshWorld =
    (Ok result, afterEvents freshWorld [EvInvokeLLM "Product" threePraisesFiveComplaints]) ∧
    builtFromResponse threePraisesFiveComplaints noAnalysis result ∧
    (Llm.positiveIndices noAnalysis = None → positiveComments result = []) ∧
    (Llm.negativeIndices noAnalysis = None → negativeComments result = []) ∧
    (Llm.neutralIndices noAnalysis = None → neutralComments result = []).
Proof.
  apply (incomplete_response_is_used (steadyEnv [] (Llm.Parsed noAnalysis)) "Product"
           threePraisesFiveComplaints freshWorld noAnalysis).
  reflexivity.
Defined.

(** C7 as stated fails: for the response [{}] the result is not the summary
    of the keyword classifier; its label is absent. *)
Lemma empty_response_not_rejected :
  ∃ result w',
    analyzeSentiment (steadyEnv [] (Llm.Parsed noAnalysis)) "Product"
                     threePraisesFiveComplaints freshWorld = (Ok result, w') ∧
    overallSentiment result = None ∧
    result ≠ getFallbackAnalysis "Product" threePraisesFiveComplaints.
Proof.
  do 2 eexists. split; [vm_compute; reflexivity|]. split; [reflexivity|].
  intros Heq. apply (f_equal overallSentiment) in Heq. vm_compute in Heq. discriminate.
Qed.

(** ** Equations of the monad *)

Lemma bind_emit {B} (ev : Event) (k : unit → M B) (w : World) :
  bind (emit ev) k w = k tt (afterEvents w [ev]).
Proof. reflexivity. Qed.

Lemma bind_ok {A B} (m : M A) (k : A → M B) (w w1 : World) (a : A) :
  m w = (Ok a, w1) → bind m k w = k a w1.
Proof. intros Hm. unfold bind. by rewrite Hm. Qed.

Lemma bind_throw {A B} (m : M A) (k : A → M B) (w w1 : World) (e : Exn) :
  m w = (Throw e, w1) → bind m k w = (Throw e, w1).
Proof. intros Hm. unfold bind. by rewrite Hm. Qed.

(** ** Theorems on the monitor *)

(** C2, as the code has it.  Without a previous score no change is flagged,
    whatever the current score and the threshold.  With a previous score [p]
    a change is flagged exactly when [notifyOnSignificantChange] is set and
    [|current - p| >= threshold], equality included; the magnitude computed
    under that flag is [|current - p|]; the direction is up exactly when
    [current > p] and down otherwise. *)
Theorem significant_change_rule (task : MonitorTask.t) (currentSentimentScore : Z) :
  match MonitorTask.lastSentimentScore task with
  | None => checkSignificantChange task currentSentimentScore = (false, 0)
  | Some p =>
      ((checkSignificantChange task currentSentimentScore).1 = true ↔
       MonitorTask.notifyOnSignificantChange task = true ∧
       MonitorTask.significantChangeThreshold task ≤ Z.abs (currentSentimentScore - p)) ∧
      (MonitorTask.notifyOnSignificantChange task = true →
       (checkSignificantChange task currentSentimentScore).2
       = Z.abs (currentSentimentScore - p)) ∧
      (changeDirection task currentSentimentScore = Up ↔ p < currentSentimentScore) ∧
      (changeDirection task currentSentimentScore = Down ↔ currentSentimentScore ≤ p)
  end.
Proof.
  unfold checkSignificantChange, changeDirection.
  destruct (MonitorTask.lastSentimentScore task) as [p|]; [|done].
  assert ((if p =? 0 then 0 else p) = p) as -> by (destruct (Z.eqb_spec p 0); lia).
  split; [|split; [|split]].
  - destruct (MonitorTask.notifyOnSignificantChange task); simpl.
    + rewrite Z.leb_le. tauto.
    + split; [done|]. by intros [? _].
  - by intros ->.
  - destruct (Z.ltb_spec p currentSentimentScore); split; (done || lia).
  - destruct (Z.ltb_spec p currentSentimentScore); split; (done || lia).
Qed.

(** C2 as stated fails: with [notifyOnSignificantChange] off, a move from 50
    to 70 against a threshold of 20 is not flagged. *)
Lemma change_not_flagged_when_gate_off :
  MonitorTask.lastSentimentScore (sampleTask 1 "Product" false) = Some 50 ∧
  MonitorTask.significantChangeThreshold (sampleTask 1 "Product" false) ≤ Z.abs (70 - 50) ∧
  (checkSignificantChange (sampleTask 1 "Product" false) 70).1 = false.
Proof. vm_compute. repeat split; congruence. Qed.

(** A run from the score 50 to the score 70 against the threshold 20: with
    [notifyOnSignificantChange] set one notice is stored, upwards and of
    magnitude 20; with the flag off none is.  Either way the task takes the
    new score. *)
Lemma run_at_the_threshold :
  let env := steadyEnv threePraisesFiveComplaints (Llm.Parsed seventyTwentyTen) in
  let ran flag := (executeMonitorTask env (sampleTask 1 "Product" flag)
                     (oneTaskWorld (sampleTask 1 "Product" flag))).2 in
  storedNotices (ran true) =
    [{| noticeProduct := "Product"; noticeDirection := Up;
        noticeAmount := 20; noticeScore := 70 |}] ∧
  storedNotices (ran false) = [] ∧
  lastScores (ran true) = [Some 70] ∧
  lastScores (ran false) = [Some 70].
Proof. vm_compute. done. Qed.

(** C8.  When the search for the product of a monitoring task returns no
    result, the run returns normally after logging that nothing was found:
    the language model is not called, the database (analysis records, trend
    snapshots, the task's [lastAnalysisId], [lastAnalyzedAt] and
    [lastSentimentScore], notifications) is unchanged and the owner is not
    notified.  In the same situation [analysis.analyze] throws the NOT_FOUND
    error and leaves the database unchanged. *)
Theorem zero_results_is_a_no_op (env : Env) (task : MonitorTask.t) (user : option Z) (w : World)
        (Hmonitor : findsNothing env (MonitorTask.productName task) (afterEvents w [startOf task]))
        (Hanalyze : findsNothing env (MonitorTask.productName task) w)
        (Hname : 1 ≤ JsString.length (MonitorTask.productName task) ≤ 200) :
  executeMonitorTask env task w =
    (Ok tt, afterEvents w [startOf task;
                           EvSearch (MonitorTask.productName task);
                           EvConsole (LogNoResults (MonitorTask.productName task))]) ∧
  db (executeMonitorTask env task w).2 = db w ∧
  analyze env user (MonitorTask.productName task) w =
    (Throw (TRPCError NOT_FOUND), afterEvents w [EvSearch (MonitorTask.productName task)]) ∧
  db (analyze env user (MonitorTask.productName task) w).2 = db w.
Proof.
  destruct Hmonitor as (r1 & Hs1 & Hr1). destruct Hanalyze as (r2 & Hs2 & Hr2).
  assert (executeMonitorTask env task w =
          (Ok tt, afterEvents w [startOf task;
                                 EvSearch (MonitorTask.productName task);
                                 EvConsole (LogNoResults (MonitorTask.productName task))])) as Hrun.
  { unfold executeMonitorTask, searchSocialMedia, bind, console, emit, getWorld, liftResult.
    simpl. unfold afterEvents, startOf in Hs1. simpl in Hs1. rewrite Hs1, Hr1. simpl.
    unfold afterEvents. simpl. by rewrite <- !app_assoc. }
  assert (analyze env user (MonitorTask.productName task) w =
          (Throw (TRPCError NOT_FOUND),
           afterEvents w [EvSearch (MonitorTask.productName task)])) as Hana.
  { unfold analyze.
    destruct (Z.ltb_spec (JsString.length (MonitorTask.productName task)) 1); [lia|].
    destruct (Z.ltb_spec 200 (JsString.length (MonitorTask.productName task))); [lia|].
    simpl. unfold searchSocialMedia, bind, emit, getWorld, liftResult. simpl.
    rewrite Hs2, Hr2. done. }
  rewrite Hrun, Hana. done.
Qed.

Lemma zero_results_is_a_no_op_witness :
  executeMonitorTask (steadyEnv [] Llm.Rejected) (sampleTask 1 "Product" true) freshWorld =
    (Ok tt, afterEvents freshWorld [startOf (sampleTask 1 "Product" true);
                                    EvSearch "Product";
                                    EvConsole (LogNoResults "Product")]) ∧
  db (executeMonitorTask (steadyEnv [] Llm.Rejected) (sampleTask 1 "Product" true) freshWorld).2
    = db freshWorld ∧
  analyze (steadyEnv [] Llm.Rejected) (Some 7) "Product" freshWorld =
    (Throw (TRPCError NOT_FOUND), afterEvents freshWorld [EvSearch "Product"]) ∧
  db (analyze (steadyEnv [] Llm.Rejected) (Some 7) "Product" freshWorld).2 = db freshWorld.
Proof.
  apply (zero_results_is_a_no_op (steadyEnv [] Llm.Rejected) (sampleTask 1 "Product" true)
           (Some 7) freshWorld).
  - exists (responseOf []). split; reflexivity.
  - exists (responseOf []). split; reflexivity.
  - vm_compute. split; discriminate.
Defined.

Section Sweep.

Variable env : Env.

Lemma quiet_nil : quiet [].
Proof. constructor. Qed.

Lemma quiet_app evs evs' : quiet evs → quiet evs' → quiet (evs ++ evs').
Proof. intros. by apply Forall_app. Qed.

Lemma quietly_silent {A} (m : M A) : (∀ w, trace (m w).2 = trace w) → quietly m.
Proof.
  intros Hm w. exists []. rewrite app_nil_r. split; [apply Hm|apply quiet_nil].
Qed.

Lemma quietly_ret {A} (a : A) : quietly (ret a).
Proof. by apply quietly_silent. Qed.

Lemma quietly_throw {A} e : quietly (throw (A := A) e).
Proof. by apply quietly_silent. Qed.

Lemma quietly_getWorld : quietly getWorld.
Proof. by apply quietly_silent. Qed.

Lemma quietly_liftResult {A} (r : Result A) : quietly (liftResult r).
Proof. by apply quietly_silent. Qed.

Lemma quietly_setDb d : quietly (setDb d).
Proof. by apply quietly_silent. Qed.

Lemma quietly_runQuery q : quietly (runQuery env q).
Proof.
  apply quietly_silent. intros w. unfold runQuery. by destruct (queryFails env w q).
Qed.

Lemma quietly_emit ev : isBoundary ev = false → quietly (emit ev).
Proof.
  intros Hev w. exists [ev]. simpl. split; [done|]. by apply Forall_singleton.
Qed.

Lemma quietly_console entry : isBoundary (EvConsole entry) = false → quietly (console entry).
Proof. apply quietly_emit. Qed.

Lemma quietly_bind {A B} (m : M A) (k : A → M B) :
  quietly m → (∀ a, quietly (k a)) → quietly (bind m k).
Proof.
  intros Hm Hk w. unfold bind. destruct (Hm w) as (e1 & H1 & Q1).
  destruct (m w) as [[a|e] w1]; simpl in *.
  - destruct (Hk a w1) as (e2 & H2 & Q2). exists (e1 ++ e2).
    rewrite H2, H1, app_assoc. split; [done|by apply quiet_app].
  - by exists e1.
Qed.

Lemma quietly_tryCatch {A} (m : M A) (handler : Exn → M A) :
  quietly m → (∀ e, quietly (handler e)) → quietly (tryCatch m handler).
Proof.
  intros Hm Hh w. unfold tryCatch. destruct (Hm w) as (e1 & H1 & Q1).
  destruct (m w) as [[a|e] w1]; simpl in *.
  - by exists e1.
  - destruct (Hh e w1) as (e2 & H2 & Q2). exists (e1 ++ e2).
    rewrite H2, H1, app_assoc. split; [done|by apply quiet_app].
Qed.

Create HintDb quiet.
Hint Resolve quietly_ret quietly_throw quietly_getWorld quietly_liftResult
     quietly_setDb quietly_runQuery : quiet.

Ltac quiet_step :=
  first
    [ solve [auto with quiet]
    | apply quietly_bind; [|intros ?]
    | apply quietly_tryCatch; [|intros ?]
    | apply quietly_emit; reflexivity
    | apply quietly_console; reflexivity
    | match goal with
      | |- quietly (if ?b then _ else _) => destruct b
      | |- quietly (match ?x with _ => _ end) => destruct x
      end ].

Lemma quietly_analyzeSentiment productName searchResults :
  quietly (analyzeSentiment env productName searchResults).
Proof. unfold analyzeSentiment, analyzeWithLLM, invokeAndParse. repeat quiet_step. Qed.

Lemma quietly_createAnalysisRecord record : quietly (createAnalysisRecord env record).
Proof. unfold createAnalysisRecord. repeat quiet_step. Qed.

Lemma quietly_updateMonitorTask id data : quietly (updateMonitorTask env id data).
Proof. unfold updateMonitorTask. repeat quiet_step. Qed.

Lemma quietly_createNotification notification :
  quietly (createNotification env notification).
Proof. unfold createNotification. repeat quiet_step. Qed.

Lemma quietly_searchSocialMedia productName : quietly (searchSocialMedia env productName).
Proof. unfold searchSocialMedia. repeat quiet_step. Qed.

Lemma quietly_notifyOwner notice : quietly (notifyOwner env notice).
Proof. unfold notifyOwner. repeat quiet_step. Qed.

Hint Resolve quietly_analyzeSentiment quietly_createAnalysisRecord
     quietly_updateMonitorTask quietly_createNotification
     quietly_searchSocialMedia quietly_notifyOwner : quiet.

Lemma quietly_notifyChange task analysisId score changeAmount :
  quietly (notifyChange env task analysisId score changeAmount).
Proof. unfold notifyChange. repeat quiet_step. Qed.

Hint Resolve quietly_notifyChange : quiet.







End Sweep.


(** Three active tasks, the search throwing for the second: the first and the
    third are analysed and stamped, the second keeps its fields, and its error
    is logged. *)
Lemma sweep_with_a_failing_task :
  ∃ w',
    executeMonitoringTasks (envBrokenSearch "Beta") threeTaskWorld = (Ok tt, w') ∧
    (monitorTasks <$> db w') =
      Some [applyPatch {| TaskPatch.lastAnalysisId := Some 1;
                          TaskPatch.lastAnalyzedAt := Some 1000;
                          TaskPatch.lastSentimentScore := Some 38 |}
                       (sampleTask 1 "Alpha" true);
            sampleTask 2 "Beta" true;
            applyPatch {| TaskPatch.lastAnalysisId := Some 2;
                          TaskPatch.lastAnalyzedAt := Some 1000;
                          TaskPatch.lastSentimentScore := Some 38 |}
                       (sampleTask 3 "Gamma" true)] ∧
    EvConsole (LogMonitorTaskError 2 SearchError) ∈ trace w'.
Proof.
  eexists. split; [vm_compute; reflexivity|]. split; [vm_compute; reflexivity|].
  simpl. set_solver.
Qed.

(** ** Further theorems on de-duplication *)

Section DedupMore.

Implicit Types (results pre : list SearchResult) (r : SearchResult).

Lemma find_app_first {A} (P : A → bool) (xs ys : list A) :
  List.find P (xs ++ ys) =
  match List.find P xs with
  | Some y => Some y
  | None => List.find P ys
  end.
Proof.
  induction xs as [|y xs IH]; simpl; [done|].
  destruct (P y); [done|apply IH].
Qed.

Lemma find_none_fmap k kept :
  List.find (hasKey k) kept = None → k ∉ dedupKey <$> kept.
Proof.
  intros Hnone (r & -> & Hin)%list_elem_of_fmap.
  apply list_elem_of_In in Hin.
  pose proof (List.find_none _ _ Hnone r Hin) as H. unfold hasKey in H.
  by rewrite bool_decide_eq_false in H.
Qed.

Lemma deduplicateResults_find k results :
  List.find (hasKey k) (deduplicateResults results)
  = List.find (λ r, hasKey k r && isLong r) results.
Proof.
  induction results as [|r pre IH] using rev_ind; [done|].
  rewrite deduplicateResults_snoc, !find_app_first, <- IH.
  destruct (List.find (hasKey k) (deduplicateResults pre)) as [x|] eqn:Hfind; [done|].
  unfold keptAfter. fold (isLong r). simpl.
  destruct (bool_decide_reflect (dedupKey r = k)) as [Hk|Hk].
  - unfold hasKey at 2. rewrite (bool_decide_eq_true_2 _ Hk). simpl.
    destruct (isLong r); simpl; [|done].
    rewrite bool_decide_eq_true_2.
    + simpl. unfold hasKey. by rewrite bool_decide_eq_true_2.
    + rewrite Hk. by apply find_none_fmap.
  - unfold hasKey at 2. rewrite (bool_decide_eq_false_2 _ Hk). simpl.
    destruct (isLong r && _); simpl; [|done].
    unfold hasKey. by rewrite bool_decide_eq_false_2.
Qed.

Lemma deduplicateResults_long results :
  Forall (λ r, isLong r = true) (deduplicateResults results).
Proof.
  induction results as [|r pre IH] using rev_ind; [constructor|].
  rewrite deduplicateResults_snoc. apply Forall_app. split; [done|].
  destruct (keptAfter _ r) eqn:E; [|constructor].
  apply Forall_singleton. unfold keptAfter in E. by apply andb_true_iff in E as [? _].
Qed.

Lemma deduplicateResults_fixed results :
  Forall (λ r, isLong r = true) results → NoDup (dedupKey <$> results) →
  deduplicateResults results = results.
Proof.
  induction results as [|r pre IH] using rev_ind; [done|].
  intros [Hpre Hr%List.Forall_inv]%Forall_app.
  rewrite fmap_app. intros (Hnd & Hdisj & _)%NoDup_app.
  rewrite deduplicateResults_snoc. rewrite (IH Hpre Hnd).
  simpl in Hr. unfold keptAfter. fold (isLong r). rewrite Hr. simpl.
  rewrite bool_decide_eq_true_2; [done|].
  intros Hin. apply (Hdisj _ Hin). simpl. constructor.
Qed.

Lemma NoDup_fmap_eq {A B} (f : A → B) (l : list A) (x y : A) :
  NoDup (f <$> l) → x ∈ l → y ∈ l → f x = f y → x = y.
Proof.
  induction l as [|z l IH]; [by intros _ ?%elem_of_nil|].
  rewrite fmap_cons, NoDup_cons. intros [Hz Hnd].
  rewrite !elem_of_cons. intros [->|Hx] [->|Hy] Heq; [done| | |by apply IH].
  - exfalso. apply Hz. rewrite Heq. by apply list_elem_of_fmap_2.
  - exfalso. apply Hz. rewrite <- Heq. by apply list_elem_of_fmap_2.
Qed.

End DedupMore.

(** X1.  [deduplicateResults] is idempotent: what it returns is longer than 20
    code units and has pairwise distinct keys, so a second pass keeps all of
    it, in the same order. *)
Theorem deduplicateResults_idempotent (results : list SearchResult) :
  deduplicateResults (deduplicateResults results) = deduplicateResults results.
Proof.
  apply deduplicateResults_fixed.
  - apply deduplicateResults_long.
  - apply deduplicateResults_keys_NoDup.
Qed.

(** X2.  For every key [k], the result of [deduplicateResults] that has the
    key [k] is the first snippet of the input that has the key [k] and is
    longer than 20 code units, and there is none in the output exactly when
    there is none in the input. Hence a snippet is kept exactly when it is the
    first one among the snippets of the input that have its key and are longer
    than 20 code units; a snippet of at most 20 code units does not block a
    later one that has its key. *)
Theorem deduplicateResults_first_wins (results : list SearchResult) :
  (∀ k, List.find (hasKey k) (deduplicateResults results)
        = List.find (λ r, hasKey k r && isLong r) results) ∧
  (∀ r, r ∈ deduplicateResults results ↔
        List.find (λ r', hasKey (dedupKey r) r' && isLong r') results = Some r).
Proof.
  split; [intros k; apply deduplicateResults_find|].
  intros r. rewrite <- deduplicateResults_find. split.
  - intros Hr.
    destruct (List.find (hasKey (dedupKey r)) (deduplicateResults results)) as [r'|] eqn:Hfind.
    + apply List.find_some in Hfind as [Hin Hkey].
      unfold hasKey in Hkey. apply bool_decide_eq_true in Hkey. f_equal.
      apply (NoDup_fmap_eq dedupKey (deduplicateResults results));
        [apply deduplicateResults_keys_NoDup|by apply list_elem_of_In|done|done].
    + exfalso. pose proof (List.find_none _ _ Hfind r ltac:(by apply list_elem_of_In)) as Hnone.
      unfold hasKey in Hnone. by rewrite bool_decide_eq_true_2 in Hnone.
  - intros Hfind. apply List.find_some in Hfind as [Hin _]. by apply list_elem_of_In.
Qed.

(** ** Theorems on the aggregation of [searchSocialMedia] *)

Lemma uniqueInOrder_elem_of (xs : list string) : ∀ (seen : gset string) (x : string),
  x ∈ uniqueInOrder seen xs ↔ x ∈ xs ∧ x ∉ seen.
Proof.
  induction xs as [|y xs IH]; intros seen x; simpl.
  - split; [by intros ?%elem_of_nil|by intros [?%elem_of_nil _]].
  - destruct (bool_decide_reflect (y ∈ seen)) as [Hy|Hy].
    + rewrite IH, elem_of_cons. split; [tauto|]. intros [[->|?] ?]; done.
    + rewrite !elem_of_cons, IH. rewrite elem_of_union, elem_of_singleton.
      split.
      * intros [->|[? ?]]; [tauto|]. split; [tauto|]. tauto.
      * intros [[->|?] ?]; [tauto|]. destruct (decide (x = y)); tauto.
Qed.

Lemma uniqueInOrder_NoDup (xs : list string) : ∀ (seen : gset string),
  NoDup (uniqueInOrder seen xs).
Proof.
  induction xs as [|y xs IH]; intros seen; simpl; [constructor|].
  destruct (bool_decide_reflect (y ∈ seen)); [apply IH|].
  constructor; [|apply IH].
  rewrite uniqueInOrder_elem_of. intros [_ Hseen]. apply Hseen.
  apply elem_of_union_l, elem_of_singleton. done.
Qed.

Lemma uniqueInOrder_sublist (xs : list string) : ∀ (seen : gset string),
  sublist (uniqueInOrder seen xs) xs.
Proof.
  induction xs as [|y xs IH]; intros seen; simpl; [done|].
  destruct (bool_decide (y ∈ seen)); [apply sublist_cons|apply sublist_skip]; apply IH.
Qed.

Lemma uniqueInOrder_order (xs : list string) : ∀ (seen : gset string) (i j : nat) (s t : string),
  (i < j)%nat →
  uniqueInOrder seen xs !! i = Some s → uniqueInOrder seen xs !! j = Some t →
  ∃ k, xs !! k = Some s ∧ t ∉ take (S k) xs.
Proof.
  induction xs as [|x xs IH]; intros seen i j s t Hij Hi Hj; simpl in *; [done|].
  destruct (bool_decide_reflect (x ∈ seen)) as [Hx|Hx].
  - destruct (IH seen i j s t Hij Hi Hj) as (k & Hk & Hnot).
    exists (S k). split; [done|]. cbn [take]. apply not_elem_of_cons. split; [|done].
    apply list_elem_of_lookup_2, uniqueInOrder_elem_of in Hj as [_ Hseen]. congruence.
  - destruct j as [|j]; [lia|]. simpl in Hj.
    assert (t ≠ x) as Hne.
    { apply list_elem_of_lookup_2, uniqueInOrder_elem_of in Hj as [_ Hseen].
      intros ->. apply Hseen, elem_of_union_l, elem_of_singleton. done. }
    destruct i as [|i]; simpl in Hi.
    + injection Hi as ->. exists 0%nat. split; [done|].
      cbn [take]. apply not_elem_of_cons. split; [done|apply not_elem_of_nil].
    + destruct (IH _ i j s t ltac:(lia) Hi Hj) as (k & Hk & Hnot).
      exists (S k). split; [done|]. cbn [take]. by apply not_elem_of_cons.
Qed.

(** X3.  The aggregation of [searchSocialMedia], for any four lists handed
    over by the platform searches: [results] is what [deduplicateResults]
    keeps of the four lists in the order Twitter, Reddit, news, web, a
    subsequence of them; [totalFound] is its length; each count of
    [sourceBreakdown] is the length of its list before de-duplication, so
    the sum is the number of results handed over and [totalFound] never
    exceeds it; [sources] lists each source of [results] once, in the order
    of first appearance (of two entries of [sources] the earlier one appears
    in [results] before the later one appears at all), and is empty exactly
    when [results] is. *)
Theorem searchSocialMedia_merge_invariants (tw rd nw wb : list SearchResult) :
  let response := searchSocialMedia_merge tw rd nw wb in
  let '(nTwitter, nReddit, nNews, nWeb) := sourceBreakdown response in
  results response = deduplicateResults (tw ++ rd ++ nw ++ wb) ∧
  sublist (results response) (tw ++ rd ++ nw ++ wb) ∧
  totalFound response = Z.of_nat (length (results response)) ∧
  nTwitter = Z.of_nat (length tw) ∧ nReddit = Z.of_nat (length rd) ∧
  nNews = Z.of_nat (length nw) ∧ nWeb = Z.of_nat (length wb) ∧
  nTwitter + nReddit + nNews + nWeb = Z.of_nat (length (tw ++ rd ++ nw ++ wb)) ∧
  0 ≤ totalFound response ≤ nTwitter + nReddit + nNews + nWeb ∧
  NoDup (sources response) ∧
  sublist (sources response) (source <$> results response) ∧
  (∀ s, s ∈ sources response ↔ ∃ r, r ∈ results response ∧ source r = s) ∧
  (∀ i j s t,
     (i < j)%nat → sources response !! i = Some s → sources response !! j = Some t →
     ∃ k, (source <$> results response) !! k = Some s ∧
          t ∉ take (S k) (source <$> results response)) ∧
  (sources response = [] ↔ results response = []).
Proof.
  simpl. split; [done|]. split; [apply deduplicateResults_sublist|]. split; [done|].
  split; [done|]. split; [done|]. split; [done|]. split; [done|].
  split; [rewrite !length_app; lia|]. split.
  { pose proof (sublist_length _ _ (deduplicateResults_sublist (tw ++ rd ++ nw ++ wb))) as H.
    rewrite !length_app in H. lia. }
  split; [apply uniqueInOrder_NoDup|]. split; [apply uniqueInOrder_sublist|].
  assert (∀ s, s ∈ uniqueInOrder ∅ (source <$> deduplicateResults (tw ++ rd ++ nw ++ wb)) ↔
               ∃ r, r ∈ deduplicateResults (tw ++ rd ++ nw ++ wb) ∧ source r = s) as Hmem.
  { intros s. rewrite uniqueInOrder_elem_of, list_elem_of_fmap. split.
    - intros [(r & -> & Hr) _]. by exists r.
    - intros (r & Hr & <-). split; [by exists r|apply not_elem_of_empty]. }
  split; [exact Hmem|].
  split; [apply uniqueInOrder_order|].
  split.
  - intros Hnil. destruct (deduplicateResults _) as [|r rest] eqn:E; [done|].
    exfalso. assert (source r ∈ @nil string) as H; [|by apply elem_of_nil in H].
    rewrite <- Hnil. apply Hmem. exists r. split; [constructor|done].
  - by intros ->.
Qed.

(** ** Theorems on the extraction of authors *)

Section Patterns.

Import Forge.

Lemma append_cons (c : ascii) (a b : string) :
  (String c a ++ b = String c (a ++ b))%string.
Proof. reflexivity. Qed.

Lemma append_nil (b : string) : ("" ++ b = b)%string.
Proof. reflexivity. Qed.

Lemma stripPrefix_Some k : ∀ s rest, stripPrefix k s = Some rest ↔ s = (k ++ rest)%string.
Proof.
  induction k as [|a k IH]; intros s rest; simpl; rewrite ?append_nil, ?append_cons.
  - split; [by intros [= ->]|by intros ->].
  - destruct s as [|b s]; [split; done|].
    destruct (bool_decide_reflect (a = b)) as [->|Hne].
    + rewrite IH. split; [by intros ->|by intros [= ->]].
    + split; [done|]. intros [= -> _]. done.
Qed.

Lemma takeWhile_split cls : ∀ s,
  ∃ after, s = (takeWhile cls s ++ after)%string ∧
           allOf cls (takeWhile cls s) = true ∧ stopsAt cls after = true.
Proof.
  induction s as [|c s (after & Hs & Hall & Hstop)]; simpl.
  - by exists "".
  - destruct (cls c) eqn:Hc.
    + exists after. simpl. rewrite Hc, append_cons. split; [by f_equal|done].
    + exists (String c s). simpl. by rewrite Hc.
Qed.

Lemma takeWhile_run cls : ∀ g after,
  allOf cls g = true → stopsAt cls after = true → takeWhile cls (g ++ after) = g.
Proof.
  induction g as [|c g IH]; intros after Hall Hstop;
    rewrite ?append_nil, ?append_cons; simpl in *.
  - destruct after as [|c after]; [done|]. simpl in *. by destruct (cls c).
  - apply andb_true_iff in Hall as [-> Hall]. by rewrite IH.
Qed.

Lemma groupAfter_Some prefix cls s g :
  groupAfter prefix cls s = Some g ↔
  ∃ after, s = (prefix ++ g ++ after)%string ∧
           g ≠ "" ∧ allOf cls g = true ∧ stopsAt cls after = true.
Proof.
  unfold groupAfter. split.
  - destruct (stripPrefix prefix s) as [rest|] eqn:Hstrip; [|done].
    apply stripPrefix_Some in Hstrip as ->.
    destruct (takeWhile_split cls rest) as (after & Hrest & Hall & Hstop).
    destruct (takeWhile cls rest) as [|c g'] eqn:Htake; [done|].
    intros [= <-]. exists after. by rewrite Hrest at 1.
  - intros (after & -> & Hne & Hall & Hstop).
    rewrite (proj2 (stripPrefix_Some prefix _ _) eq_refl).
    rewrite takeWhile_run by done. by destruct g.
Qed.

Lemma groupAfter_starts prefix cls c rest :
  cls c = true → groupAfter prefix cls (prefix ++ String c rest) ≠ None.
Proof.
  intros Hc. unfold groupAfter.
  rewrite (proj2 (stripPrefix_Some prefix _ _) eq_refl). simpl. by rewrite Hc.
Qed.

Lemma firstMatch_Some here : ∀ s g,
  firstMatch here s = Some g → ∃ before rest, s = (before ++ rest)%string ∧ here rest = Some g.
Proof.
  induction s as [|c s IH]; intros g; simpl.
  - destruct (here "") eqn:E; [|done]. intros [= <-]. by exists "", "".
  - destruct (here (String c s)) eqn:E.
    + intros [= <-]. by exists "", (String c s).
    + intros (before & rest & -> & Hrest)%IH. by exists (String c before), rest.
Qed.

Lemma firstMatch_None here : ∀ s,
  firstMatch here s = None → ∀ before rest, s = (before ++ rest)%string → here rest = None.
Proof.
  induction s as [|c s IH]; simpl.
  - destruct (here "") eqn:E; [done|].
    intros _ [|??] rest; rewrite ?append_nil, ?append_cons; [by intros <-|done].
  - destruct (here (String c s)) eqn:E; [done|].
    intros Hs [|b before] rest; rewrite ?append_nil, ?append_cons.
    + by intros <-.
    + intros [= <- ->]. by apply (IH Hs before).
Qed.

Lemma firstMatch_skip here c s :
  here (String c s) = None → firstMatch here (String c s) = firstMatch here s.
Proof. intros H. simpl. by rewrite H. Qed.

Lemma firstMatch_here here s g : here s = Some g → firstMatch here s = Some g.
Proof. intros H. destruct s; simpl; by rewrite H. Qed.

Lemma append_assoc (a b c : string) : ((a ++ b) ++ c = a ++ (b ++ c))%string.
Proof. induction a as [|x a IH]; rewrite ?append_nil, ?append_cons; [done|by rewrite IH]. Qed.

End Patterns.

(** X8.  [extractTwitterAuthor] returns nothing for an absent or empty
    address. When it returns an author, the address holds "twitter.com/" or
    "x.com/" followed by a non-empty run [h] of code units other than "/" and
    "?", the run ends the address or is followed by "/" or "?", and the author
    is "@" followed by [h]. When it returns nothing, the address holds neither
    "twitter.com/" nor "x.com/" followed by a code unit other than "/" and
    "?". For an address that starts with "https://twitter.com/" or
    "https://x.com/" the author is "@" and the first path segment. *)
Theorem extractTwitterAuthor_correct (url : option string) :
  Forge.extractTwitterAuthor None = None ∧
  Forge.extractTwitterAuthor (Some "") = None ∧
  match Forge.extractTwitterAuthor url with
  | Some author =>
      ∃ u h, url = Some u ∧ author = ("@" ++ h)%string ∧
             (holdsGroup "twitter.com/" Forge.notSlashNorQuestion u h ∨
              holdsGroup "x.com/" Forge.notSlashNorQuestion u h)
  | None =>
      ∀ u before c after,
        url = Some u → Forge.notSlashNorQuestion c = true →
        u ≠ (before ++ "twitter.com/" ++ String c after)%string ∧
        u ≠ (before ++ "x.com/" ++ String c after)%string
  end ∧
  (∀ h after,
     h ≠ "" → allOf Forge.notSlashNorQuestion h = true →
     stopsAt Forge.notSlashNorQuestion after = true →
     Forge.extractTwitterAuthor (Some ("https://twitter.com/" ++ h ++ after)%string)
       = Some ("@" ++ h)%string ∧
     Forge.extractTwitterAuthor (Some ("https://x.com/" ++ h ++ after)%string)
       = Some ("@" ++ h)%string).
Proof.
  split; [done|]. split; [done|]. split.
  - unfold Forge.extractTwitterAuthor.
    destruct url as [[|c0 u0]|].
    { cbn. intros u before c after [= <-] Hc.
      split; destruct before; rewrite ?append_nil, ?append_cons; discriminate. }
    2: { cbn. by intros u before c after [=]. }
    set (u := String c0 u0). change (negb (Forge.truthy (Some u))) with false.
    cbv iota. change (default "" (Some u)) with u.
    destruct (Forge.firstMatch Forge.twitterPattern u) as [g|] eqn:Hfind.
    + apply firstMatch_Some in Hfind as (before & rest & Hu & Hrest).
      exists u, g. split; [done|]. split; [done|].
      unfold Forge.twitterPattern in Hrest.
      destruct (Forge.groupAfter "twitter.com/" _ rest) as [g'|] eqn:Htw.
      * injection Hrest as ->. apply groupAfter_Some in Htw as (after & -> & ? & ? & ?).
        left. by exists before, after.
      * apply groupAfter_Some in Hrest as (after & -> & ? & ? & ?).
        right. by exists before, after.
    + intros u' before c after [= <-] Hc.
      pose proof (firstMatch_None _ _ Hfind) as Hnone.
      split; intros Hu; specialize (Hnone before _ Hu);
        unfold Forge.twitterPattern in Hnone.
      * destruct (Forge.groupAfter "twitter.com/" _ _) eqn:E; [done|].
        by apply (groupAfter_starts "twitter.com/" _ c after Hc).
      * destruct (Forge.groupAfter "twitter.com/" _ _) eqn:E; [done|].
        by apply (groupAfter_starts "x.com/" _ c after Hc).
  - intros h after Hne Hall Hstop.
    assert (∀ host, Forge.groupAfter host Forge.notSlashNorQuestion (host ++ h ++ after)
                    = Some h) as Hgroup.
    { intros host. apply groupAfter_Some. by exists after. }
    unfold Forge.extractTwitterAuthor.
    split; rewrite !append_cons, !append_nil; cbn [negb Forge.truthy default];
      change (id ?x) with x;
      repeat (rewrite firstMatch_skip by reflexivity).
    + rewrite (firstMatch_here _ _ h); [done|].
      unfold Forge.twitterPattern.
      pose proof (Hgroup "twitter.com/") as Hg. rewrite !append_cons, !append_nil in Hg.
      by rewrite Hg.
    + rewrite (firstMatch_here _ _ h); [done|].
      unfold Forge.twitterPattern.
      pose proof (Hgroup "x.com/") as Hg. rewrite !append_cons, !append_nil in Hg.
      rewrite <- Hg. reflexivity.
Qed.

(** X9.  [extractRedditAuthor] returns nothing for an absent or empty address.
    When it returns an author, the address holds "reddit.com/r/" followed by a
    non-empty run [h] of code units other than "/", the run ends the address
    or is followed by "/", and the author is "r/" followed by [h]. When it
    returns nothing, the address does not hold "reddit.com/r/" followed by a
    code unit other than "/". For an address that starts with
    "https://reddit.com/r/" or "https://www.reddit.com/r/" the author is "r/"
    and the name of the subreddit. *)
Theorem extractRedditAuthor_correct (url : option string) :
  Forge.extractRedditAuthor None = None ∧
  Forge.extractRedditAuthor (Some "") = None ∧
  match Forge.extractRedditAuthor url with
  | Some author =>
      ∃ u h, url = Some u ∧ author = ("r/" ++ h)%string ∧
             holdsGroup "reddit.com/r/" Forge.notSlash u h
  | None =>
      ∀ u before c after,
        url = Some u → Forge.notSlash c = true →
        u ≠ (before ++ "reddit.com/r/" ++ String c after)%string
  end ∧
  (∀ h after,
     h ≠ "" → allOf Forge.notSlash h = true → stopsAt Forge.notSlash after = true →
     Forge.extractRedditAuthor (Some ("https://reddit.com/r/" ++ h ++ after)%string)
       = Some ("r/" ++ h)%string ∧
     Forge.extractRedditAuthor (Some ("https://www.reddit.com/r/" ++ h ++ after)%string)
       = Some ("r/" ++ h)%string).
Proof.
  split; [done|]. split; [done|]. split.
  - unfold Forge.extractRedditAuthor.
    destruct url as [[|c0 u0]|].
    { cbn. intros u before c after [= <-] Hc.
      destruct before; rewrite ?append_nil, ?append_cons; discriminate. }
    2: { cbn. by intros u before c after [=]. }
    set (u := String c0 u0). change (negb (Forge.truthy (Some u))) with false.
    cbv iota. change (default "" (Some u)) with u.
    destruct (Forge.firstMatch Forge.redditPattern u) as [g|] eqn:Hfind.
    + apply firstMatch_Some in Hfind as (before & rest & Hu & Hrest).
      exists u, g. split; [done|]. split; [done|].
      unfold Forge.redditPattern in Hrest.
      apply groupAfter_Some in Hrest as (after & -> & ? & ? & ?).
      by exists before, after.
    + intros u' before c after [= <-] Hc Hu.
      pose proof (firstMatch_None _ _ Hfind before _ Hu) as Hnone.
      by apply (groupAfter_starts "reddit.com/r/" _ c after Hc).
  - intros h after Hne Hall Hstop.
    assert (Forge.groupAfter "reddit.com/r/" Forge.notSlash ("reddit.com/r/" ++ h ++ after)
            = Some h) as Hg.
    { apply groupAfter_Some. by exists after. }
    rewrite !append_cons, !append_nil in Hg.
    unfold Forge.extractRedditAuthor.
    split; rewrite !append_cons, !append_nil; cbn [negb Forge.truthy default];
      change (id ?x) with x;
      repeat (rewrite firstMatch_skip by reflexivity);
      rewrite (firstMatch_here _ _ h); done.
Qed.

Lemma stripPrefix_None (k : string) : ∀ s,
  Forge.stripPrefix k s = None ↔ JsString.startsWith k s = false.
Proof.
  induction k as [|a k IH]; intros s; simpl; [done|].
  destruct s as [|b s]; [done|].
  destruct (bool_decide (a = b)); simpl; [apply IH|done].
Qed.

Lemma startsWith_app (k : string) : ∀ s rest,
  (String.length k ≤ String.length s)%nat →
  JsString.startsWith k (s ++ rest) = JsString.startsWith k s.
Proof.
  induction k as [|a k IH]; intros s rest Hlen; [done|].
  destruct s as [|b s]; simpl in Hlen; [lia|].
  rewrite append_cons. simpl. rewrite IH by lia. done.
Qed.

Lemma append_length (a b : string) :
  String.length (a ++ b) = (String.length a + String.length b)%nat.
Proof.
  induction a as [|c a IH]; rewrite ?append_nil, ?append_cons; simpl; [done|by rewrite IH].
Qed.

(** [host.replace("www.", "")]: the first "www." is taken out, and a host
    without "www." stays as it is. *)
Lemma removeFirst_www (before after : string) :
  JsString.includes (before ++ "www") "www." = false →
  Forge.removeFirst "www." (before ++ "www." ++ after) = (before ++ after)%string.
Proof.
  induction before as [|c before IH]; intros Hfirst; [done|].
  rewrite append_cons in Hfirst.
  cbn [JsString.includes] in Hfirst. apply orb_false_iff in Hfirst as [Hhere Hlater].
  rewrite !(append_cons c). cbn [Forge.removeFirst].
  assert (Forge.stripPrefix "www." (String c (before ++ "www." ++ after)) = None) as ->.
  { apply stripPrefix_None.
    change ("www." ++ after)%string with ("www" ++ String "." after)%string.
    rewrite <- append_assoc, <- append_cons.
    rewrite startsWith_app; [exact Hhere|].
    simpl. rewrite append_length. simpl. lia. }
  f_equal. by apply IH.
Qed.

Lemma removeFirst_absent (k : string) : ∀ s,
  JsString.includes s k = false → Forge.removeFirst k s = s.
Proof.
  induction s as [|c s IH]; cbn [JsString.includes Forge.removeFirst];
    intros [Hhere Hlater]%orb_false_iff.
  - apply stripPrefix_None in Hhere. by rewrite Hhere.
  - apply stripPrefix_None in Hhere. rewrite Hhere. f_equal. by apply IH.
Qed.

(** ** Theorems on the platform searches *)

Section SearchTheorems.

Import Forge.

Variable ENV : Config.
Variable net : Net.

Lemma forItems_eq push items ending : ∀ l results,
  forItems push items ending (l, results) =
  (match ending with Completes => Fulfilled tt | Breaks => Failed TypeError end,
   (l, fold_left push items results)).
Proof.
  induction items as [|item items IH]; intros l results; [by destruct ending|].
  cbn [forItems fold_left]. unfold bind at 1, getResults at 1. cbn [snd].
  unfold bind at 1, setResults at 1. cbn [fst]. apply IH.
Qed.

Lemma runQuery_eq push st mr warning q l results :
  runQuery ENV net push st mr warning q (l, results) =
  (Fulfilled tt,
   (l ++ Posted (requestOf ENV q st mr) :: warningIf net (requestOf ENV q st mr) warning,
    fold_left push (liveItems net (requestOf ENV q st mr)) results)).
Proof.
  unfold runQuery, tryCatch, postSearch, liveItems, warningIf.
  unfold bind at 2, say at 1. cbn [fst snd].
  destruct (post net (requestOf ENV q st mr)) as [| |items ending].
  - unfold bind, throw, say. cbn [fst snd]. by rewrite <- app_assoc.
  - unfold bind, ret. done.
  - unfold bind at 1, ret at 1. rewrite forItems_eq.
    destruct ending; unfold say; cbn [fst snd]; [done|].
    by rewrite <- app_assoc.
Qed.

Lemma fold_left_appends push items results :
  appends push → fold_left push items results = results ++ madeOf push items.
Proof.
  intros Hpush. revert results. unfold madeOf.
  induction items as [|item items IH]; intros results; simpl.
  - by rewrite app_nil_r.
  - rewrite IH, Hpush, <- app_assoc. done.
Qed.

Lemma appends_pushTwitter : appends pushTwitter.
Proof. intros results item. unfold pushTwitter. destruct (_ || _); simpl; [done|by rewrite app_nil_r]. Qed.
Lemma appends_pushReddit : appends pushReddit.
Proof. intros results item. unfold pushReddit. destruct (urlIncludes _ _); simpl; [done|by rewrite app_nil_r]. Qed.
Lemma appends_pushNews : appends (pushNews net).
Proof. intros results item. done. Qed.
Lemma appends_pushWeb : appends (pushWeb net).
Proof. intros results item. unfold pushWeb. destruct (_ || _); simpl; [by rewrite app_nil_r|done]. Qed.

Lemma madeOf_app push xs ys : madeOf push (xs ++ ys) = madeOf push xs ++ madeOf push ys.
Proof. unfold madeOf. by rewrite fmap_app, join_app. Qed.

Lemma madeOf_Forall (P : SearchResult → Prop) push items :
  (∀ item, Forall P (push [] item)) → Forall P (madeOf push items).
Proof.
  intros Hpush. unfold madeOf. induction items as [|item items IH]; simpl; [constructor|].
  apply Forall_app. split; [apply Hpush|apply IH].
Qed.


Lemma orMock_nonempty results mock : mock ≠ [] → orMock results mock ≠ [].
Proof. unfold orMock. destruct results; simpl; done. Qed.

Lemma orMock_Forall (P : SearchResult → Prop) results mock :
  Forall P results → Forall P mock → Forall P (orMock results mock).
Proof. unfold orMock. by destruct (0 <? _). Qed.

Lemma orMock_cases results mock :
  (results = [] ∧ orMock results mock = mock) ∨ (results ≠ [] ∧ orMock results mock = results).
Proof. unfold orMock. destruct results; simpl; [by left|by right]. Qed.


Ltac search_eq push Happ :=
  unfold withResults, tryCatch; destruct (notConfigured ENV) eqn:Hconf; [reflexivity|];
  unfold forQueries, returnOrMock, bind, getResults, ret;
  repeat (rewrite runQuery_eq; cbv beta iota); cbn [fst snd];
  rewrite !(fold_left_appends push _ _ Happ), !app_nil_l, <- ?madeOf_app, <- ?app_assoc;
  reflexivity.

Lemma searchTwitter_eq productName l :
  let q1 := (productName ++ " site:twitter.com OR site:x.com")%string in
  let q2 := (productName ++ " review twitter")%string in
  let r1 := requestOf ENV q1 InfoSearch 8 in
  let r2 := requestOf ENV q2 InfoSearch 8 in
  searchTwitter ENV net productName l =
  if notConfigured ENV then (Fulfilled (getTwitterMockResults productName), l)
  else (Fulfilled (orMock (madeOf pushTwitter (liveItems net r1 ++ liveItems net r2))
                          (getTwitterMockResults productName)),
        l ++ (Posted r1 :: warningIf net r1 ("Twitter search failed for query: " ++ q1)%string)
          ++ (Posted r2 :: warningIf net r2 ("Twitter search failed for query: " ++ q2)%string)).
Proof. intros q1 q2 r1 r2. unfold searchTwitter. search_eq pushTwitter appends_pushTwitter. Qed.

Lemma searchReddit_eq productName l :
  let q1 := (productName ++ " site:reddit.com")%string in
  let q2 := (productName ++ " reddit discussion review")%string in
  let r1 := requestOf ENV q1 InfoSearch 8 in
  let r2 := requestOf ENV q2 InfoSearch 8 in
  searchReddit ENV net productName l =
  if notConfigured ENV then (Fulfilled (getRedditMockResults productName), l)
  else (Fulfilled (orMock (madeOf pushReddit (liveItems net r1 ++ liveItems net r2))
                          (getRedditMockResults productName)),
        l ++ (Posted r1 :: warningIf net r1 ("Reddit search failed for query: " ++ q1)%string)
          ++ (Posted r2 :: warningIf net r2 ("Reddit search failed for query: " ++ q2)%string)).
Proof. intros q1 q2 r1 r2. unfold searchReddit. search_eq pushReddit appends_pushReddit. Qed.

Lemma searchNews_eq productName l :
  let r1 := requestOf ENV (productName ++ " AI review news")%string NewsSearch 6 in
  searchNews ENV net productName l =
  if notConfigured ENV then (Fulfilled (getNewsMockResults productName), l)
  else (Fulfilled (orMock (madeOf (pushNews net) (liveItems net r1))
                          (getNewsMockResults productName)),
        l ++ (Posted r1 :: warningIf net r1 "News search failed")).
Proof. intros r1. unfold searchNews. search_eq (pushNews net) appends_pushNews. Qed.

Lemma searchWeb_eq productName l :
  let q1 := (productName ++ " user review experience")%string in
  let q2 := (productName ++ " pros cons comparison")%string in
  let r1 := requestOf ENV q1 InfoSearch 6 in
  let r2 := requestOf ENV q2 InfoSearch 6 in
  searchWeb ENV net productName l =
  if notConfigured ENV then (Fulfilled (getWebMockResults productName), l)
  else (Fulfilled (orMock (madeOf (pushWeb net) (liveItems net r1 ++ liveItems net r2))
                          (getWebMockResults productName)),
        l ++ (Posted r1 :: warningIf net r1 ("Web search failed for query: " ++ q1)%string)
          ++ (Posted r2 :: warningIf net r2 ("Web search failed for query: " ++ q2)%string)).
Proof. intros q1 q2 r1 r2. unfold searchWeb. search_eq (pushWeb net) appends_pushWeb. Qed.

End SearchTheorems.

Lemma orMock_if results mock :
  Forge.orMock results mock = if bool_decide (results = []) then mock else results.
Proof. unfold Forge.orMock. by destruct results. Qed.

Lemma madeOf_pushTwitter_Forall items :
  Forall (λ r, platform r = twitter ∧ source r = "Twitter" ∧
               urlMentions ["twitter.com"; "x.com"] r = true)
         (madeOf Forge.pushTwitter items).
Proof.
  apply madeOf_Forall. intros item. unfold Forge.pushTwitter, Forge.urlIncludes, urlMentions.
  destruct (Item.url item) as [u|]; simpl; [|constructor].
  destruct (_ || _) eqn:E; simpl; repeat constructor. simpl. by rewrite orb_false_r.
Qed.

Lemma madeOf_pushReddit_Forall items :
  Forall (λ r, platform r = reddit ∧ source r = "Reddit" ∧
               urlMentions ["reddit.com"] r = true)
         (madeOf Forge.pushReddit items).
Proof.
  apply madeOf_Forall. intros item. unfold Forge.pushReddit, Forge.urlIncludes, urlMentions.
  destruct (Item.url item) as [u|]; simpl; [|constructor].
  destruct (JsString.includes u "reddit.com") eqn:E; simpl; repeat constructor.
  simpl. by rewrite E.
Qed.

Lemma madeOf_pushNews_Forall net items :
  Forall (λ r, platform r = news) (madeOf (Forge.pushNews net) items).
Proof. apply madeOf_Forall. intros item. repeat constructor. Qed.

Lemma madeOf_pushNews_length net items :
  length (madeOf (Forge.pushNews net) items) = length items.
Proof.
  unfold madeOf. induction items as [|item items IH]; [done|].
  cbn. f_equal. exact IH.
Qed.

Lemma madeOf_pushWeb_Forall net items :
  Forall (λ r, platform r = web ∧
               urlMentions ["twitter.com"; "x.com"; "reddit.com"] r = false)
         (madeOf (Forge.pushWeb net) items).
Proof.
  apply madeOf_Forall. intros item. unfold Forge.pushWeb, Forge.urlIncludes, urlMentions.
  destruct (Item.url item) as [u|]; simpl; [|repeat constructor].
  destruct (_ || _) eqn:E; simpl; repeat constructor. simpl.
  by rewrite orb_false_r, orb_assoc.
Qed.

Lemma reply_spec (net : Forge.Net) (request : Forge.Request) (warning : string) :
  (liveItems net request, warningIf net request warning) =
  match Forge.post net request with
  | Forge.Rejects => ([], [Forge.Warned warning])
  | Forge.NoResults => ([], [])
  | Forge.Results items Forge.Completes => (items, [])
  | Forge.Results items Forge.Breaks => (items, [Forge.Warned warning])
  end.
Proof.
  unfold liveItems, warningIf. by destruct (Forge.post net request) as [| |items []].
Qed.

Lemma textOf_spec (item : Item.t) :
  Forge.textOf item =
  match List.find (λ v, match v with Some (String _ _) => true | _ => false end)
                  [Item.snippet item; Item.description item; Item.title item] with
  | Some (Some t) => t
  | _ => ""
  end.
Proof.
  unfold Forge.textOf, Forge.orElse. simpl.
  destruct (Item.snippet item) as [[|c1 s1]|], (Item.description item) as [[|c2 s2]|],
    (Item.title item) as [[|c3 s3]|]; reflexivity.
Qed.

Lemma madeOf_each (push : list SearchResult → Item.t → list SearchResult)
      (each : Item.t → list SearchResult) (items : list Item.t) :
  (∀ item, push [] item = each item) → madeOf push items = mjoin (each <$> items).
Proof. intros H. unfold madeOf. f_equal. apply list_fmap_ext. intros ? item _. apply H. Qed.

Lemma madeOf_pushTwitter_each (items : list Item.t) :
  madeOf Forge.pushTwitter items =
  mjoin ((λ item,
            match Item.url item with
            | Some u =>
                if JsString.includes u "twitter.com" || JsString.includes u "x.com"
                then [{| text := Forge.textOf item; source := "Twitter";
                         author := Forge.extractTwitterAuthor (Some u);
                         url := Some u; date := Item.date item;
                         platform := twitter |}]
                else []
            | None => []
            end) <$> items).
Proof.
  apply madeOf_each. intros item. unfold Forge.pushTwitter, Forge.urlIncludes.
  destruct (Item.url item) as [u|]; [|done]. by destruct (_ || _).
Qed.

Lemma madeOf_pushReddit_each (items : list Item.t) :
  madeOf Forge.pushReddit items =
  mjoin ((λ item,
            match Item.url item with
            | Some u =>
                if JsString.includes u "reddit.com"
                then [{| text := Forge.textOf item; source := "Reddit";
                         author := Forge.extractRedditAuthor (Some u);
                         url := Some u; date := Item.date item;
                         platform := reddit |}]
                else []
            | None => []
            end) <$> items).
Proof.
  apply madeOf_each. intros item. unfold Forge.pushReddit, Forge.urlIncludes.
  destruct (Item.url item) as [u|]; [|done]. by destruct (JsString.includes _ _).
Qed.

Lemma sourceNameOf_spec (net : Forge.Net) (fallback : string) (item : Item.t) :
  Forge.sourceNameOf net fallback item =
  match Item.url item with
  | Some (String c u) =>
      match Forge.hostname net (String c u) with
      | Some host => Forge.removeFirst "www." host
      | None => fallback
      end
  | _ => fallback
  end.
Proof.
  unfold Forge.sourceNameOf. by destruct (Item.url item) as [[|c u]|].
Qed.

Lemma madeOf_pushNews_each (net : Forge.Net) (items : list Item.t) :
  madeOf (Forge.pushNews net) items =
  mjoin ((λ item,
            [{| text := Forge.textOf item;
                source := match Item.url item with
                          | Some (String c u) =>
                              match Forge.hostname net (String c u) with
                              | Some host => Forge.removeFirst "www." host
                              | None => "News"
                              end
                          | _ => "News"
                          end;
                author := Item.author item; url := Item.url item;
                date := Item.date item; platform := news |}]) <$> items).
Proof.
  apply madeOf_each. intros item. unfold Forge.pushNews.
  by rewrite sourceNameOf_spec.
Qed.

Lemma madeOf_pushWeb_each (net : Forge.Net) (items : list Item.t) :
  madeOf (Forge.pushWeb net) items =
  mjoin ((λ item,
            if match Item.url item with
               | Some u => JsString.includes u "twitter.com"
                           || JsString.includes u "x.com"
                           || JsString.includes u "reddit.com"
               | None => false
               end
            then []
            else [{| text := Forge.textOf item;
                     source := match Item.url item with
                               | Some (String c u) =>
                                   match Forge.hostname net (String c u) with
                                   | Some host => Forge.removeFirst "www." host
                                   | None => "Web"
                                   end
                               | _ => "Web"
                               end;
                     author := Item.author item; url := Item.url item;
                     date := Item.date item; platform := web |}]) <$> items).
Proof.
  apply madeOf_each. intros item. unfold Forge.pushWeb, Forge.urlIncludes.
  rewrite sourceNameOf_spec. destruct (Item.url item) as [u|]; [|done].
  by destruct (_ || _).
Qed.

(** X4.  [searchTwitter] on replies whose entries, as far as a loop runs
    through them, have strings or nothing as the properties it reads.  It
    never throws.  Without the API address or key it returns the four mock
    results and posts nothing.  Otherwise it posts its two queries, in
    order, whether or not the first one fails.  Of each reply it takes the
    entries the loop runs through: an entry whose address contains
    "twitter.com" or "x.com" gives one result (its text the first of
    snippet, description and title that is not empty, its source "Twitter",
    its author extracted from the address), any other entry none.  A
    warning is logged for a query whose request is rejected or whose loop
    throws on an entry; the results pushed before stay and the later
    entries of that reply are dropped.  When no result was pushed the mock
    results are returned.  The list returned is never empty, and each of
    its members is tagged as a Twitter result and has such an address. *)
Theorem searchTwitter_correct (ENV : Forge.Config) (net : Forge.Net)
        (productName : string) (l : list Forge.Log) :
  let q1 := (productName ++ " site:twitter.com OR site:x.com")%string in
  let q2 := (productName ++ " review twitter")%string in
  let r1 := Forge.requestOf ENV q1 Forge.InfoSearch 8 in
  let r2 := Forge.requestOf ENV q2 Forge.InfoSearch 8 in
  let live := madeOf Forge.pushTwitter (liveItems net r1 ++ liveItems net r2) in
  (∃ rs l',
     Forge.searchTwitter ENV net productName l = (Forge.Fulfilled rs, l') ∧
     (if Forge.notConfigured ENV
      then rs = Forge.getTwitterMockResults productName ∧ l' = l
      else rs = (if bool_decide (live = [])
                 then Forge.getTwitterMockResults productName else live) ∧
           l' = l ++ (Forge.Posted r1
                        :: warningIf net r1 ("Twitter search failed for query: " ++ q1)%string)
                  ++ (Forge.Posted r2
                        :: warningIf net r2 ("Twitter search failed for query: " ++ q2)%string)) ∧
     rs ≠ [] ∧
     Forall (λ r, platform r = twitter ∧ source r = "Twitter" ∧
                  urlMentions ["twitter.com"; "x.com"] r = true) rs) ∧
  (∀ request warning,
     (liveItems net request, warningIf net request warning) =
     match Forge.post net request with
     | Forge.Rejects => ([], [Forge.Warned warning])
     | Forge.NoResults => ([], [])
     | Forge.Results items Forge.Completes => (items, [])
     | Forge.Results items Forge.Breaks => (items, [Forge.Warned warning])
     end) ∧
  (∀ items,
     madeOf Forge.pushTwitter items =
     mjoin ((λ item,
               match Item.url item with
               | Some u =>
                   if JsString.includes u "twitter.com" || JsString.includes u "x.com"
                   then [{| text := Forge.textOf item; source := "Twitter";
                            author := Forge.extractTwitterAuthor (Some u);
                            url := Some u; date := Item.date item;
                            platform := twitter |}]
                   else []
               | None => []
               end)
            <$> items)) ∧
  (∀ item,
     Forge.textOf item =
     match List.find (λ v, match v with Some (String _ _) => true | _ => false end)
                     [Item.snippet item; Item.description item; Item.title item] with
     | Some (Some t) => t
     | _ => ""
     end).
Proof.
  intros q1 q2 r1 r2 live. split; [|split; [apply reply_spec|split;
                                     [apply madeOf_pushTwitter_each|apply textOf_spec]]].
  assert (Forall (λ r, platform r = twitter ∧ source r = "Twitter" ∧
                  urlMentions ["twitter.com"; "x.com"] r = true)
                 (Forge.getTwitterMockResults productName)) as Hmock
    by (repeat constructor).
  pose proof (madeOf_pushTwitter_Forall (liveItems net r1 ++ liveItems net r2)) as Hlive.
  fold live in Hlive.
  pose proof (searchTwitter_eq ENV net productName l) as Heq. cbv zeta in Heq.
  fold q1 q2 r1 r2 live in Heq. rewrite orMock_if in Heq.
  destruct (Forge.notConfigured ENV).
  - do 2 eexists. split; [exact Heq|]. done.
  - do 2 eexists. split; [exact Heq|]. split; [done|].
    destruct live; simpl; done.
Qed.

(** X5.  [searchReddit] on replies whose entries, as far as a loop runs
    through them, have strings or nothing as the properties it reads.  It
    never throws.  Without the API address or key it returns the four mock
    results and posts nothing.  Otherwise it posts its two queries, in
    order, whether or not the first one fails.  Of each reply it takes the
    entries the loop runs through: an entry whose address contains
    "reddit.com" gives one result (its text the first of snippet,
    description and title that is not empty, its source "Reddit", its
    author extracted from the address), any other entry none.  A warning is
    logged for a query whose request is rejected or whose loop throws on an
    entry; the results pushed before stay and the later entries of that
    reply are dropped.  When no result was pushed the mock results are
    returned.  The list returned is never empty, and each of its members is
    tagged as a Reddit result and has such an address. *)
Theorem searchReddit_correct (ENV : Forge.Config) (net : Forge.Net)
        (productName : string) (l : list Forge.Log) :
  let q1 := (productName ++ " site:reddit.com")%string in
  let q2 := (productName ++ " reddit discussion review")%string in
  let r1 := Forge.requestOf ENV q1 Forge.InfoSearch 8 in
  let r2 := Forge.requestOf ENV q2 Forge.InfoSearch 8 in
  let live := madeOf Forge.pushReddit (liveItems net r1 ++ liveItems net r2) in
  (∃ rs l',
     Forge.searchReddit ENV net productName l = (Forge.Fulfilled rs, l') ∧
     (if Forge.notConfigured ENV
      then rs = Forge.getRedditMockResults productName ∧ l' = l
      else rs = (if bool_decide (live = [])
                 then Forge.getRedditMockResults productName else live) ∧
           l' = l ++ (Forge.Posted r1
                        :: warningIf net r1 ("Reddit search failed for query: " ++ q1)%string)
                  ++ (Forge.Posted r2
                        :: warningIf net r2 ("Reddit search failed for query: " ++ q2)%string)) ∧
     rs ≠ [] ∧
     Forall (λ r, platform r = reddit ∧ source r = "Reddit" ∧
                  urlMentions ["reddit.com"] r = true) rs) ∧
  (∀ request warning,
     (liveItems net request, warningIf net request warning) =
     match Forge.post net request with
     | Forge.Rejects => ([], [Forge.Warned warning])
     | Forge.NoResults => ([], [])
     | Forge.Results items Forge.Completes => (items, [])
     | Forge.Results items Forge.Breaks => (items, [Forge.Warned warning])
     end) ∧
  (∀ items,
     madeOf Forge.pushReddit items =
     mjoin ((λ item,
               match Item.url item with
               | Some u =>
                   if JsString.includes u "reddit.com"
                   then [{| text := Forge.textOf item; source := "Reddit";
                            author := Forge.extractRedditAuthor (Some u);
                            url := Some u; date := Item.date item;
                            platform := reddit |}]
                   else []
               | None => []
               end)
            <$> items)) ∧
  (∀ item,
     Forge.textOf item =
     match List.find (λ v, match v with Some (String _ _) => true | _ => false end)
                     [Item.snippet item; Item.description item; Item.title item] with
     | Some (Some t) => t
     | _ => ""
     end).
Proof.
  intros q1 q2 r1 r2 live. split; [|split; [apply reply_spec|split;
                                     [apply madeOf_pushReddit_each|apply textOf_spec]]].
  assert (Forall (λ r, platform r = reddit ∧ source r = "Reddit" ∧
                  urlMentions ["reddit.com"] r = true)
                 (Forge.getRedditMockResults productName)) as Hmock
    by (repeat constructor).
  pose proof (madeOf_pushReddit_Forall (liveItems net r1 ++ liveItems net r2)) as Hlive.
  fold live in Hlive.
  pose proof (searchReddit_eq ENV net productName l) as Heq. cbv zeta in Heq.
  fold q1 q2 r1 r2 live in Heq. rewrite orMock_if in Heq.
  destruct (Forge.notConfigured ENV).
  - do 2 eexists. split; [exact Heq|]. done.
  - do 2 eexists. split; [exact Heq|]. split; [done|].
    destruct live; simpl; done.
Qed.

(** X6.  [searchNews] on replies whose entries, as far as the loop runs
    through them, have strings or nothing as the properties it reads.  It
    never throws.  Without the API address or key it returns the three mock
    results and posts nothing.  Otherwise it posts one query of type "news"
    for at most six results.  Each entry the loop runs through gives one
    result, whatever its address (its text the first of snippet,
    description and title that is not empty, its source the host name of
    the address without its first "www.", or "News" when there is no
    address or it does not parse).  A warning is logged when the request is
    rejected or the loop throws on an entry; the results pushed before
    stay and the later entries are dropped.  When no result was pushed the
    mock results are returned.  The list returned is never empty and holds
    news results only. *)
Theorem searchNews_correct (ENV : Forge.Config) (net : Forge.Net)
        (productName : string) (l : list Forge.Log) :
  let r1 := Forge.requestOf ENV (productName ++ " AI review news")%string Forge.NewsSearch 6 in
  let live := madeOf (Forge.pushNews net) (liveItems net r1) in
  (∃ rs l',
     Forge.searchNews ENV net productName l = (Forge.Fulfilled rs, l') ∧
     (if Forge.notConfigured ENV
      then rs = Forge.getNewsMockResults productName ∧ l' = l
      else rs = (if bool_decide (liveItems net r1 = [])
                 then Forge.getNewsMockResults productName else live) ∧
           l' = l ++ (Forge.Posted r1 :: warningIf net r1 "News search failed")) ∧
     length live = length (liveItems net r1) ∧
     rs ≠ [] ∧
     Forall (λ r, platform r = news) rs) ∧
  (∀ request warning,
     (liveItems net request, warningIf net request warning) =
     match Forge.post net request with
     | Forge.Rejects => ([], [Forge.Warned warning])
     | Forge.NoResults => ([], [])
     | Forge.Results items Forge.Completes => (items, [])
     | Forge.Results items Forge.Breaks => (items, [Forge.Warned warning])
     end) ∧
  (∀ items,
     madeOf (Forge.pushNews net) items =
     mjoin ((λ item,
               [{| text := Forge.textOf item;
                    source := match Item.url item with
                              | Some (String c u) =>
                                  match Forge.hostname net (String c u) with
                                  | Some host => Forge.removeFirst "www." host
                                  | None => "News"
                                  end
                              | _ => "News"
                              end;
                    author := Item.author item; url := Item.url item;
                    date := Item.date item; platform := news |}])
            <$> items)) ∧
  (∀ item,
     Forge.textOf item =
     match List.find (λ v, match v with Some (String _ _) => true | _ => false end)
                     [Item.snippet item; Item.description item; Item.title item] with
     | Some (Some t) => t
     | _ => ""
     end) ∧
  (∀ before after,
     JsString.includes (before ++ "www") "www." = false →
     Forge.removeFirst "www." (before ++ "www." ++ after) = (before ++ after)%string) ∧
  (∀ host, JsString.includes host "www." = false → Forge.removeFirst "www." host = host).
Proof.
  intros r1 live.
  split; [|split; [apply reply_spec|split; [apply madeOf_pushNews_each|split; [apply textOf_spec|]]]].
  2: { split; [apply removeFirst_www|apply removeFirst_absent]. }
  assert (Forall (λ r, platform r = news) (Forge.getNewsMockResults productName)) as Hmock
    by (repeat constructor).
  pose proof (madeOf_pushNews_Forall net (liveItems net r1)) as Hlive. fold live in Hlive.
  assert (length live = length (liveItems net r1)) as Hlen.
  { apply madeOf_pushNews_length. }
  pose proof (searchNews_eq ENV net productName l) as Heq. cbv zeta in Heq.
  fold r1 live in Heq. rewrite orMock_if in Heq.
  destruct (Forge.notConfigured ENV).
  - do 2 eexists. split; [exact Heq|]. done.
  - do 2 eexists. split; [exact Heq|].
    destruct (liveItems net r1) as [|item items] eqn:Hitems.
    + destruct live; [|done]. simpl. done.
    + destruct live; [done|]. simpl. done.
Qed.

(** X7.  [searchWeb] on replies whose entries, as far as a loop runs
    through them, have strings or nothing as the properties it reads.  It
    never throws.  Without the API address or key it returns the three mock
    results and posts nothing.  Otherwise it posts its two queries, in
    order, whether or not the first one fails.  Of each reply it takes the
    entries the loop runs through: an entry whose address contains
    "twitter.com", "x.com" or "reddit.com" is skipped, any other entry
    gives one result (its text the first of snippet, description and title
    that is not empty, its source the host name of the address without its
    first "www.", or "Web" when there is no address or it does not parse).
    A warning is logged for a query whose request is rejected or whose loop
    throws on an entry; the results pushed before stay and the later
    entries of that reply are dropped.  When no result was pushed the mock
    results are returned.  The list returned is never empty, and each of
    its members is tagged as a web result and has no such address. *)
Theorem searchWeb_correct (ENV : Forge.Config) (net : Forge.Net)
        (productName : string) (l : list Forge.Log) :
  let q1 := (productName ++ " user review experience")%string in
  let q2 := (productName ++ " pros cons comparison")%string in
  let r1 := Forge.requestOf ENV q1 Forge.InfoSearch 6 in
  let r2 := Forge.requestOf ENV q2 Forge.InfoSearch 6 in
  let live := madeOf (Forge.pushWeb net) (liveItems net r1 ++ liveItems net r2) in
  (∃ rs l',
     Forge.searchWeb ENV net productName l = (Forge.Fulfilled rs, l') ∧
     (if Forge.notConfigured ENV
      then rs = Forge.getWebMockResults productName ∧ l' = l
      else rs = (if bool_decide (live = [])
                 then Forge.getWebMockResults productName else live) ∧
           l' = l ++ (Forge.Posted r1
                        :: warningIf net r1 ("Web search failed for query: " ++ q1)%string)
                  ++ (Forge.Posted r2
                        :: warningIf net r2 ("Web search failed for query: " ++ q2)%string)) ∧
     rs ≠ [] ∧
     Forall (λ r, platform r = web ∧
                  urlMentions ["twitter.com"; "x.com"; "reddit.com"] r = false) rs) ∧
  (∀ request warning,
     (liveItems net request, warningIf net request warning) =
     match Forge.post net request with
     | Forge.Rejects => ([], [Forge.Warned warning])
     | Forge.NoResults => ([], [])
     | Forge.Results items Forge.Completes => (items, [])
     | Forge.Results items Forge.Breaks => (items, [Forge.Warned warning])
     end) ∧
  (∀ items,
     madeOf (Forge.pushWeb net) items =
     mjoin ((λ item,
               if match Item.url item with
                  | Some u => JsString.includes u "twitter.com"
                              || JsString.includes u "x.com"
                              || JsString.includes u "reddit.com"
                  | None => false
                  end
               then []
               else [{| text := Forge.textOf item;
                    source := match Item.url item with
                              | Some (String c u) =>
                                  match Forge.hostname net (String c u) with
                                  | Some host => Forge.removeFirst "www." host
                                  | None => "Web"
                                  end
                              | _ => "Web"
                              end;
                    author := Item.author item; url := Item.url item;
                    date := Item.date item; platform := web |}])
            <$> items)) ∧
  (∀ item,
     Forge.textOf item =
     match List.find (λ v, match v with Some (String _ _) => true | _ => false end)
                     [Item.snippet item; Item.description item; Item.title item] with
     | Some (Some t) => t
     | _ => ""
     end) ∧
  (∀ before after,
     JsString.includes (before ++ "www") "www." = false →
     Forge.removeFirst "www." (before ++ "www." ++ after) = (before ++ after)%string) ∧
  (∀ host, JsString.includes host "www." = false → Forge.removeFirst "www." host = host).
Proof.
  intros q1 q2 r1 r2 live.
  split; [|split; [apply reply_spec|split; [apply madeOf_pushWeb_each|split; [apply textOf_spec|]]]].
  2: { split; [apply removeFirst_www|apply removeFirst_absent]. }
  assert (Forall (λ r, platform r = web ∧
                  urlMentions ["twitter.com"; "x.com"; "reddit.com"] r = false)
                 (Forge.getWebMockResults productName)) as Hmock
    by (repeat constructor).
  pose proof (madeOf_pushWeb_Forall net (liveItems net r1 ++ liveItems net r2)) as Hlive.
  fold live in Hlive.
  pose proof (searchWeb_eq ENV net productName l) as Heq. cbv zeta in Heq.
  fold q1 q2 r1 r2 live in Heq. rewrite orMock_if in Heq.
  destruct (Forge.notConfigured ENV).
  - do 2 eexists. split; [exact Heq|]. done.
  - do 2 eexists. split; [exact Heq|]. split; [done|].
    destruct live; simpl; done.
Qed.

(** ** Theorems on the mock results *)

Section Mock.

Lemma slice0_lower_prefix (p s s' : string) : ∀ n : nat,
  (n ≤ S (String.length p))%nat →
  JsString.slice0 n (JsString.toLowerCase (p ++ String " " s)) =
  JsString.slice0 n (JsString.toLowerCase (p ++ String " " s')).
Proof.
  induction p as [|c p IH]; intros n Hn; simpl in *.
  - destruct n as [|[|n]]; simpl; [done|done|lia].
  - destruct n as [|n]; simpl; [done|]. f_equal. apply IH. lia.
Qed.

Lemma string_length_app (a b : string) :
  String.length (a ++ b) = (String.length a + String.length b)%nat.
Proof. induction a as [|c a IH]; simpl; [done|by rewrite IH]. Qed.

Lemma deduplicateResults_length_ge (xs ys : list SearchResult) :
  ys ⊆ xs → Forall (λ r, isLong r = true) ys → NoDup (dedupKey <$> ys) →
  (length ys ≤ length (deduplicateResults xs))%nat.
Proof.
  intros Hsub Hlong Hnd.
  rewrite <- (length_fmap dedupKey ys), <- (length_fmap dedupKey (deduplicateResults xs)).
  apply submseteq_length, NoDup_submseteq; [done|].
  intros k (r & -> & Hr)%list_elem_of_fmap.
  destruct (List.find (λ r', hasKey (dedupKey r) r' && isLong r') xs) as [r'|] eqn:Hfind.
  - rewrite <- deduplicateResults_find in Hfind.
    apply List.find_some in Hfind as [Hin Hkey].
    unfold hasKey in Hkey. apply bool_decide_eq_true in Hkey.
    apply list_elem_of_fmap. exists r'. split; [done|by apply list_elem_of_In].
  - exfalso. pose proof (List.find_none _ _ Hfind r) as Hnone. simpl in Hnone.
    rewrite List.Forall_forall in Hlong.
    rewrite (Hlong r) in Hnone by (by apply list_elem_of_In).
    unfold hasKey in Hnone. rewrite bool_decide_eq_true_2 in Hnone by done.
    specialize (Hnone ltac:(apply list_elem_of_In, Hsub, Hr)). done.
Qed.

Lemma deduplicateResults_length_le (xs : list SearchResult) (keys : list string) :
  Forall (λ r, dedupKey r ∈ keys) xs →
  (length (deduplicateResults xs) ≤ length keys)%nat.
Proof.
  intros Hkeys.
  rewrite <- (length_fmap dedupKey (deduplicateResults xs)).
  apply submseteq_length, NoDup_submseteq; [apply deduplicateResults_keys_NoDup|].
  intros k (r & -> & Hr)%list_elem_of_fmap.
  rewrite Forall_forall in Hkeys. apply Hkeys.
  apply (elem_of_sublist _ _ _ Hr), deduplicateResults_sublist.
Qed.

Ltac mock_is_long :=
  unfold isLong, JsString.length; apply Z.ltb_lt; cbn [text];
  cbn [String.append String.length]; rewrite ?string_length_app;
  cbn [String.length]; lia.

Lemma mockResults_long productName :
  Forall (λ r, isLong r = true) (mockResults productName).
Proof.
  cbn [mockResults Forge.getTwitterMockResults Forge.getRedditMockResults
       Forge.getNewsMockResults Forge.getWebMockResults app].
  repeat (apply List.Forall_cons; [mock_is_long|]). apply Forall_nil_2.
Qed.

Lemma mockResults_length productName : length (mockResults productName) = 14%nat.
Proof. reflexivity. Qed.

Lemma framed_keys_NoDup productName :
  NoDup (dedupKey <$> pick [0; 2; 3; 4; 6; 7; 9; 10; 11; 13]%nat (mockResults productName)).
Proof.
  apply (NoDup_fmap_1 (JsString.slice0 5)).
  assert (JsString.slice0 5 <$>
            (dedupKey <$> pick [0; 2; 3; 4; 6; 7; 9; 10; 11; 13]%nat (mockResults productName))
          = ["just "; "mixed"; "the l"; "been "; "psa: "; "disap"; "revie"; "enter";
             "compr"; "compa"]) as -> by (lazy; reflexivity).
  repeat (apply NoDup_cons_2;
          [rewrite ?not_elem_of_cons; repeat split; try discriminate; apply not_elem_of_nil|]).
  apply NoDup_nil_2.
Qed.

Lemma pick_subseteq {A} (positions : list nat) (xs : list A) : pick positions xs ⊆ xs.
Proof.
  intros x. unfold pick. rewrite list_elem_of_omap.
  intros (i & _ & Hi). by apply list_elem_of_lookup_2 in Hi.
Qed.

Lemma pick_Forall {A} (P : A → Prop) (positions : list nat) (xs : list A) :
  Forall P xs → Forall P (pick positions xs).
Proof.
  rewrite !Forall_forall. intros H x Hx. by apply H, (pick_subseteq positions).
Qed.

Lemma mock_dedup_ge productName :
  (10 ≤ length (deduplicateResults (mockResults productName)))%nat.
Proof.
  apply (deduplicateResults_length_ge _
           (pick [0; 2; 3; 4; 6; 7; 9; 10; 11; 13]%nat (mockResults productName))).
  - apply pick_subseteq.
  - apply pick_Forall, mockResults_long.
  - apply framed_keys_NoDup.
Qed.

Lemma Forall_key_pick (xs : list SearchResult) (positions : list nat) :
  (∀ i r, xs !! i = Some r →
          ∃ j r', j ∈ positions ∧ xs !! j = Some r' ∧ dedupKey r' = dedupKey r) →
  Forall (λ r, dedupKey r ∈ dedupKey <$> pick positions xs) xs.
Proof.
  intros H. apply Forall_lookup_2. intros i r Hi.
  destruct (H i r Hi) as (j & r' & Hj & Hr' & <-).
  apply list_elem_of_fmap_2. unfold pick. apply list_elem_of_omap. by exists j.
Qed.

Lemma key_of_long_name (productName s s' : string) (r r' : SearchResult) :
  (99 ≤ String.length productName)%nat →
  text r = (productName ++ String " " s)%string →
  text r' = (productName ++ String " " s')%string →
  dedupKey r = dedupKey r'.
Proof.
  intros Hlen Hr Hr'. unfold dedupKey. rewrite Hr, Hr'. f_equal.
  apply slice0_lower_prefix. lia.
Qed.

Lemma mock_dedup_le productName :
  (99 ≤ String.length productName)%nat →
  (length (deduplicateResults (mockResults productName)) ≤ 11)%nat.
Proof.
  intros Hlen.
  assert (length (dedupKey <$> pick [0; 1; 2; 3; 4; 6; 7; 9; 10; 11; 13]%nat
                                    (mockResults productName)) = 11%nat) as Hn
    by (rewrite length_fmap; reflexivity).
  rewrite <- Hn. apply deduplicateResults_length_le.
  apply Forall_key_pick. intros i r Hi.
  assert (i ∈ [0; 1; 2; 3; 4; 6; 7; 9; 10; 11; 13]%nat →
            ∃ j r', j ∈ [0; 1; 2; 3; 4; 6; 7; 9; 10; 11; 13]%nat ∧
                    mockResults productName !! j = Some r' ∧ dedupKey r' = dedupKey r) as Hsame.
  { intros Hj. by exists i, r. }
  assert (∀ s, text r = (productName ++ String " " s)%string →
            ∃ j r', j ∈ [0; 1; 2; 3; 4; 6; 7; 9; 10; 11; 13]%nat ∧
                    mockResults productName !! j = Some r' ∧ dedupKey r' = dedupKey r) as Hlong.
  { intros s Hs. eexists 1%nat, _.
    split; [apply list_elem_of_further, list_elem_of_here|]. split; [reflexivity|].
    eapply key_of_long_name; [exact Hlen|reflexivity|exact Hs]. }
  do 14 (destruct i as [|i];
         [first [ apply Hsame;
                  solve [repeat first [apply list_elem_of_here | apply list_elem_of_further]]
                | apply (inj Some) in Hi; subst r; eapply Hlong; reflexivity ]|]).
  done.
Qed.

End Mock.

(** ** Theorems on [searchSocialMedia] *)

Section Aggregate.

Variable ENV : Forge.Config.
Variable net : Forge.Net.

Lemma posts_app l l' : posts (l ++ l') = posts l ++ posts l'.
Proof. unfold posts. apply omap_app. Qed.

Lemma posts_warningIf request warning : posts (warningIf net request warning) = [].
Proof. unfold warningIf. by destruct (Forge.post net request) as [| |items []]. Qed.

Lemma posts_turn request warning :
  posts (Forge.Posted request :: warningIf net request warning) = [request].
Proof.
  change (Forge.Posted request :: warningIf net request warning)
    with ([Forge.Posted request] ++ warningIf net request warning).
  by rewrite posts_app, posts_warningIf.
Qed.

(** The four searches of [searchSocialMedia], one after the other. *)
Lemma searches_settle productName l :
  ∃ tw rd nw wb l1 l2 l3 l',
    Forge.searchTwitter ENV net productName l = (Forge.Fulfilled tw, l1) ∧
    Forge.searchReddit ENV net productName l1 = (Forge.Fulfilled rd, l2) ∧
    Forge.searchNews ENV net productName l2 = (Forge.Fulfilled nw, l3) ∧
    Forge.searchWeb ENV net productName l3 = (Forge.Fulfilled wb, l') ∧
    tw ≠ [] ∧ rd ≠ [] ∧ nw ≠ [] ∧ wb ≠ [] ∧
    posts l' = posts l ++ (if Forge.notConfigured ENV then [] else requestsFor ENV productName) ∧
    (Forge.notConfigured ENV = true →
     l' = l ∧ l1 = l ∧ l2 = l ∧ l3 = l ∧
     tw = Forge.getTwitterMockResults productName ∧
     rd = Forge.getRedditMockResults productName ∧
     nw = Forge.getNewsMockResults productName ∧
     wb = Forge.getWebMockResults productName) ∧
    Forall (λ r, platform r = twitter) tw ∧ Forall (λ r, platform r = reddit) rd ∧
    Forall (λ r, platform r = news) nw ∧ Forall (λ r, platform r = web) wb.
Proof.
  assert (Forall (λ r, platform r = twitter) (Forge.getTwitterMockResults productName)) as Mtw
    by (repeat constructor).
  assert (Forall (λ r, platform r = reddit) (Forge.getRedditMockResults productName)) as Mrd
    by (repeat constructor).
  assert (Forall (λ r, platform r = news) (Forge.getNewsMockResults productName)) as Mnw
    by (repeat constructor).
  assert (Forall (λ r, platform r = web) (Forge.getWebMockResults productName)) as Mwb
    by (repeat constructor).
  pose proof (searchTwitter_eq ENV net productName) as Htw.
  pose proof (searchReddit_eq ENV net productName) as Hrd.
  pose proof (searchNews_eq ENV net productName) as Hnw.
  pose proof (searchWeb_eq ENV net productName) as Hwb.
  cbv zeta in *. unfold requestsFor.
  destruct (Forge.notConfigured ENV).
  - do 8 eexists. rewrite Htw, Hrd, Hnw, Hwb.
    split; [reflexivity|]. split; [reflexivity|]. split; [reflexivity|].
    split; [reflexivity|]. repeat split; try done. by rewrite app_nil_r.
  - do 8 eexists. rewrite Htw, Hrd, Hnw, Hwb.
    split; [reflexivity|]. split; [reflexivity|]. split; [reflexivity|].
    split; [reflexivity|].
    split; [by apply orMock_nonempty|]. split; [by apply orMock_nonempty|].
    split; [by apply orMock_nonempty|]. split; [by apply orMock_nonempty|].
    split; [rewrite !posts_app, !posts_turn, <- !app_assoc; done|].
    split; [done|].
    split; [apply orMock_Forall; [|done]; eapply Forall_impl;
            [apply madeOf_pushTwitter_Forall|]; simpl; tauto|].
    split; [apply orMock_Forall; [|done]; eapply Forall_impl;
            [apply madeOf_pushReddit_Forall|]; simpl; tauto|].
    split; [apply orMock_Forall; [|done]; apply madeOf_pushNews_Forall|].
    apply orMock_Forall; [|done]. eapply Forall_impl;
      [apply madeOf_pushWeb_Forall|]; simpl; tauto.
Qed.

Lemma searchSocialMedia_eq productName l tw rd nw wb l1 l2 l3 l' :
  Forge.searchTwitter ENV net productName l = (Forge.Fulfilled tw, l1) →
  Forge.searchReddit ENV net productName l1 = (Forge.Fulfilled rd, l2) →
  Forge.searchNews ENV net productName l2 = (Forge.Fulfilled nw, l3) →
  Forge.searchWeb ENV net productName l3 = (Forge.Fulfilled wb, l') →
  Forge.searchSocialMedia ENV net productName l =
  (Forge.Fulfilled (searchSocialMedia_merge tw rd nw wb), l').
Proof.
  intros Htw Hrd Hnw Hwb. unfold Forge.searchSocialMedia, Forge.bind.
  rewrite Htw, Hrd, Hnw, Hwb. done.
Qed.

End Aggregate.

Lemma merge_results tw rd nw wb :
  results (searchSocialMedia_merge tw rd nw wb) = deduplicateResults (tw ++ rd ++ nw ++ wb).
Proof. reflexivity. Qed.

Lemma merge_totalFound tw rd nw wb :
  totalFound (searchSocialMedia_merge tw rd nw wb)
  = Z.of_nat (length (deduplicateResults (tw ++ rd ++ nw ++ wb))).
Proof. reflexivity. Qed.

Lemma merge_sourceBreakdown tw rd nw wb :
  sourceBreakdown (searchSocialMedia_merge tw rd nw wb)
  = (Z.of_nat (length tw), Z.of_nat (length rd), Z.of_nat (length nw), Z.of_nat (length wb)).
Proof. reflexivity. Qed.

(** X10.  As long as the replies put nothing but strings into the results
    (the replies of the model: the entries a loop runs through have strings
    or nothing as the properties it reads; a request may be rejected and a
    loop may throw on an entry), [searchSocialMedia] never throws.  Each of
    the four platform searches hands over at least one result, so every
    count of [sourceBreakdown] is at least 1; [results] is what
    [deduplicateResults] keeps of the four lists in the order Twitter,
    Reddit, news, web.  A configured call posts exactly seven requests, in
    this model in the order of the platforms, whether or not some of them
    fail; a call without the API address or key posts none. *)
Theorem searchSocialMedia_settles (ENV : Forge.Config) (net : Forge.Net)
        (productName : string) (l : list Forge.Log) :
  ∃ tw rd nw wb l',
    Forge.searchSocialMedia ENV net productName l =
      (Forge.Fulfilled (searchSocialMedia_merge tw rd nw wb), l') ∧
    results (searchSocialMedia_merge tw rd nw wb) = deduplicateResults (tw ++ rd ++ nw ++ wb) ∧
    (let '(nTwitter, nReddit, nNews, nWeb) :=
       sourceBreakdown (searchSocialMedia_merge tw rd nw wb) in
     1 ≤ nTwitter ∧ 1 ≤ nReddit ∧ 1 ≤ nNews ∧ 1 ≤ nWeb) ∧
    Forall (λ r, platform r = twitter) tw ∧ Forall (λ r, platform r = reddit) rd ∧
    Forall (λ r, platform r = news) nw ∧ Forall (λ r, platform r = web) wb ∧
    posts l' = posts l ++ (if Forge.notConfigured ENV then [] else requestsFor ENV productName).
Proof.
  destruct (searches_settle ENV net productName l)
    as (tw & rd & nw & wb & l1 & l2 & l3 & l' & Htw & Hrd & Hnw & Hwb
        & Ntw & Nrd & Nnw & Nwb & Hposts & _ & Ptw & Prd & Pnw & Pwb).
  exists tw, rd, nw, wb, l'.
  split; [by apply (searchSocialMedia_eq ENV net productName l tw rd nw wb l1 l2 l3 l')|].
  split; [done|]. split.
  { simpl. destruct tw, rd, nw, wb; simpl; try done; lia. }
  done.
Qed.

(** X11.  Without the API address or key [searchSocialMedia] posts nothing and
    answers from the fourteen mock results: [sourceBreakdown] counts 4, 4, 3
    and 3, and [deduplicateResults] keeps at least the ten mock results whose
    text does not start with the product name, so that between 10 and 14
    results are returned, whatever the product name. *)
Theorem searchSocialMedia_offline (ENV : Forge.Config) (net : Forge.Net)
        (productName : string) (l : list Forge.Log)
        (Hoffline : Forge.notConfigured ENV = true) :
  ∃ response,
    Forge.searchSocialMedia ENV net productName l = (Forge.Fulfilled response, l) ∧
    results response = deduplicateResults (mockResults productName) ∧
    sourceBreakdown response = (4, 4, 3, 3) ∧
    10 ≤ totalFound response ≤ 14 ∧
    totalFound response = Z.of_nat (length (results response)).
Proof.
  destruct (searches_settle ENV net productName l)
    as (tw & rd & nw & wb & l1 & l2 & l3 & l' & Htw & Hrd & Hnw & Hwb
        & _ & _ & _ & _ & _ & Hoff & _).
  destruct (Hoff Hoffline) as (-> & -> & -> & -> & Etw & Erd & Enw & Ewb).
  exists (searchSocialMedia_merge tw rd nw wb).
  split; [by apply (searchSocialMedia_eq ENV net productName l tw rd nw wb l l l l)|].
  rewrite merge_results, merge_totalFound, merge_sourceBreakdown.
  subst tw rd nw wb. fold (mockResults productName).
  split; [reflexivity|]. split; [reflexivity|]. split; [|reflexivity].
  pose proof (mock_dedup_ge productName) as Hge.
  pose proof (sublist_length _ _ (deduplicateResults_sublist (mockResults productName))) as Hle.
  rewrite mockResults_length in Hle. lia.
Qed.

Lemma searchSocialMedia_offline_witness :
  ∃ response,
    Forge.searchSocialMedia offlineConfig deadNet "ChatGPT" [] = (Forge.Fulfilled response, []) ∧
    results response = deduplicateResults (mockResults "ChatGPT") ∧
    sourceBreakdown response = (4, 4, 3, 3) ∧
    10 ≤ totalFound response ≤ 14 ∧
    totalFound response = Z.of_nat (length (results response)).
Proof.
  apply (searchSocialMedia_offline offlineConfig deadNet "ChatGPT" []). reflexivity.
Defined.

(** X12.  A product name of 99 code units or more makes the four mock results
    that start with the product name share one key, since the key looks at the
    first 100 code units only: without the API address or key such a name gets
    at most 11 results, although [sourceBreakdown] still counts 14. *)
Theorem searchSocialMedia_offline_long_name (ENV : Forge.Config) (net : Forge.Net)
        (productName : string) (l : list Forge.Log)
        (Hoffline : Forge.notConfigured ENV = true)
        (Hlong : 99 ≤ JsString.length productName) :
  ∃ response,
    Forge.searchSocialMedia ENV net productName l = (Forge.Fulfilled response, l) ∧
    sourceBreakdown response = (4, 4, 3, 3) ∧
    10 ≤ totalFound response ≤ 11.
Proof.
  destruct (searches_settle ENV net productName l)
    as (tw & rd & nw & wb & l1 & l2 & l3 & l' & Htw & Hrd & Hnw & Hwb
        & _ & _ & _ & _ & _ & Hoff & _).
  destruct (Hoff Hoffline) as (-> & -> & -> & -> & Etw & Erd & Enw & Ewb).
  exists (searchSocialMedia_merge tw rd nw wb).
  split; [by apply (searchSocialMedia_eq ENV net productName l tw rd nw wb l l l l)|].
  rewrite merge_totalFound, merge_sourceBreakdown.
  subst tw rd nw wb. fold (mockResults productName). split; [reflexivity|].
  pose proof (mock_dedup_ge productName) as Hge.
  assert (99 ≤ String.length productName)%nat as Hlen by (unfold JsString.length in Hlong; lia).
  pose proof (mock_dedup_le productName Hlen) as Hle. lia.
Qed.

Lemma searchSocialMedia_offline_long_name_witness :
  ∃ response,
    Forge.searchSocialMedia offlineConfig deadNet (stars 120) []
    = (Forge.Fulfilled response, []) ∧
    sourceBreakdown response = (4, 4, 3, 3) ∧
    10 ≤ totalFound response ≤ 11.
Proof.
  apply (searchSocialMedia_offline_long_name offlineConfig deadNet (stars 120) []).
  - reflexivity.
  - vm_compute. discriminate.
Defined.

(** ** Theorems on the effects of a monitoring run *)

Section Runs.

Variable env : Env.

Lemma createAnalysisRecord_ok record w d :
  db w = Some d → queryFails env w (InsertAnalysisRecord record) = false →
  AnalysisRecord.complete record = true →
  createAnalysisRecord env record w
  = (Ok (nextAnalysisId d), withDb w (insertAnalysis d record (clock w))).
Proof.
  intros Hdb Hq Hc. unfold createAnalysisRecord, bind, getWorld, runQuery, setDb, ret, throw.
  rewrite Hdb, Hq, Hc. done.
Qed.

Lemma createAnalysisRecord_fails record w :
  db w = None ∨ queryFails env w (InsertAnalysisRecord record) = true ∨
  AnalysisRecord.complete record = false →
  ∃ e, createAnalysisRecord env record w = (Throw e, w).
Proof.
  unfold createAnalysisRecord, bind, getWorld, runQuery, setDb, ret, throw.
  destruct (db w) as [d|]; [|by eexists].
  destruct (queryFails env w _); [by eexists|].
  destruct (AnalysisRecord.complete record); [|by eexists].
  intros [?|[?|?]]; done.
Qed.

Lemma updateMonitorTask_ok id data w d :
  db w = Some d → queryFails env w (UpdateMonitorTask id) = false →
  updateMonitorTask env id data w = (Ok tt, withDb w (patchTask d id data)).
Proof.
  intros Hdb Hq. unfold updateMonitorTask, bind, getWorld, runQuery, setDb.
  rewrite Hdb, Hq. done.
Qed.

Lemma createNotification_ok notification w d :
  db w = Some d → queryFails env w (InsertNotification notification) = false →
  createNotification env notification w
  = (Ok (nextNotificationId d), withDb w (insertNotification d notification (clock w))).
Proof.
  intros Hdb Hq. unfold createNotification, bind, getWorld, runQuery, setDb, ret.
  rewrite Hdb, Hq. done.
Qed.

Lemma createNotification_rejected notification w d :
  db w = Some d → queryFails env w (InsertNotification notification) = true →
  createNotification env notification w = (Throw QueryError, w).
Proof.
  intros Hdb Hq. unfold createNotification, bind, getWorld, runQuery, setDb, ret.
  rewrite Hdb, Hq. done.
Qed.

(** [analyzeSentiment] changes nothing but the trace. *)
Lemma analyzeSentiment_world productName searchResults w :
  ∃ result evs,
    analyzeSentiment env productName searchResults w = (Ok result, afterEvents w evs) ∧
    ownerNotices evs = [] ∧
    (evs = [EvInvokeLLM productName searchResults] ∨
     ∃ e, evs = [EvInvokeLLM productName searchResults; EvConsole (LogLlmAnalysisError e)] ∧
          result = getFallbackAnalysis productName searchResults).
Proof.
  pose proof (analyzeSentiment_cases env productName searchResults w) as H.
  destruct (llmOutcome env w productName searchResults);
    try (destruct H as [e ->]; do 2 eexists; split; [reflexivity|]; split; [done|]; right;
         by exists e).
  destruct (mappableResponse searchResults _).
  - destruct H as (result & _ & ->). do 2 eexists. split; [reflexivity|].
    split; [done|by left].
  - rewrite H. do 2 eexists. split; [reflexivity|]. split; [done|]. right.
    by exists TypeError.
Qed.

End Runs.

Section Runs.

Variable env : Env.

Lemma ownerNotices_app evs evs' : ownerNotices (evs ++ evs') = ownerNotices evs ++ ownerNotices evs'.
Proof. apply omap_app. Qed.

Lemma searchSocialMedia_ok productName w response :
  searchOutcome env w productName = Ok response →
  searchSocialMedia env productName w = (Ok response, afterEvents w [EvSearch productName]).
Proof.
  intros H. unfold searchSocialMedia, bind, getWorld, emit, liftResult. simpl. by rewrite H.
Qed.

(** [notifyChange] in a world with the database [d]. *)
Lemma notifyChange_ok task analysisId score w d :
  db w = Some d →
  (MonitorTask.notifyInApp task = true →
   queryFails env w (InsertNotification (notificationOf task analysisId score)) = false) →
  ∃ evs,
    notifyChange env task analysisId score (checkSignificantChange task score).2 w
    = (Ok tt, afterEvents
                (if MonitorTask.notifyInApp task
                 then withDb w (insertNotification d (notificationOf task analysisId score)
                                                   (clock w))
                 else w) evs) ∧
    ownerNotices evs = (if MonitorTask.notifyEmail task then [noticeOf task score] else []).
Proof.
  intros Hdb Hq. unfold notifyChange. fold (noticeOf task score).
  fold (notificationOf task analysisId score).
  set (w1 := if MonitorTask.notifyInApp task
             then withDb w (insertNotification d (notificationOf task analysisId score)
                                               (clock w))
             else w).
  assert ((if MonitorTask.notifyInApp task
           then _ <- createNotification env (notificationOf task analysisId score) ;; ret tt
           else ret tt) w = (Ok tt, w1)) as H1.
  { unfold w1. destruct (MonitorTask.notifyInApp task); [|done].
    unfold bind. by rewrite (createNotification_ok env _ w d Hdb (Hq eq_refl)). }
  rewrite (bind_ok _ _ _ _ _ H1).
  assert (∃ evs, (if MonitorTask.notifyEmail task
                  then tryCatch (notifyOwner env (noticeOf task score))
                                (λ error, console (LogOwnerNotificationFailed error))
                  else ret tt) w1 = (Ok tt, afterEvents w1 evs) ∧
                 ownerNotices evs
                 = (if MonitorTask.notifyEmail task then [noticeOf task score] else []))
    as (evs & H2 & Hevs).
  { destruct (MonitorTask.notifyEmail task).
    - unfold tryCatch, notifyOwner, bind, getWorld, emit, throw, ret, console. simpl.
      destruct (notifyOwnerFails env w1 (noticeOf task score)).
      + exists [EvNotifyOwner (noticeOf task score);
                EvConsole (LogOwnerNotificationFailed NotificationError)].
        unfold afterEvents, emit. simpl. by rewrite <- app_assoc.
      + by exists [EvNotifyOwner (noticeOf task score)].
    - exists []. unfold ret, afterEvents. simpl. rewrite app_nil_r. by destruct w1. }
  rewrite (bind_ok _ _ _ _ _ H2).
  exists (evs ++ [EvConsole (LogSignificantChange (MonitorTask.productName task)
                                                  (checkSignificantChange task score).2)]).
  split.
  - unfold console, emit, afterEvents. simpl. by rewrite app_assoc.
  - rewrite ownerNotices_app, Hevs. simpl. by rewrite app_nil_r.
Qed.

Lemma ownerNotices_analysis productName searchResults w result w' :
  analyzeSentiment env productName searchResults w = (Ok result, w') →
  db w' = db w ∧ clock w' = clock w ∧
  ∃ evs, trace w' = trace w ++ evs ∧ ownerNotices evs = [].
Proof.
  destruct (analyzeSentiment_world env productName searchResults w)
    as (result' & evs & -> & Hevs & _).
  intros [= _ <-]. split; [done|]. split; [done|]. by exists evs.
Qed.

End Runs.

(** X13.  The run of a monitoring task that finds results, with the database
    at hand and every statement accepted, whose analysis fills the columns of
    the record: it returns normally, whether or not the owner notification
    fails. It stores one analysis record under the next identifier, stamps the
    task (and no other task) with that identifier, the time of the run and the
    positive ratio, and then stores one notification when the change is
    significant and [notifyInApp] is set, none otherwise; [notifyOwner] is
    called once when the change is significant and [notifyEmail] is set. Trend
    snapshots are not written. *)
Theorem monitor_run_effects (env : Env) (task : MonitorTask.t) (w : World) (d : Database)
        (response : SearchResponse) (analysis : SentimentAnalysis) (score : Z)
        (Hdb : db w = Some d)
        (Haccepting : accepting env)
        (Hsearch : searchOutcome env (afterEvents w [startOf task])
                                 (MonitorTask.productName task) = Ok response)
        (Hfound : results response ≠ [])
        (Hanalysis : (analyzeSentiment env (MonitorTask.productName task) (results response)
                        (afterEvents w [startOf task;
                                        EvSearch (MonitorTask.productName task)])).1
                     = Ok analysis)
        (Hcomplete : AnalysisRecord.complete
                       (recordOf (MonitorTask.userId task) (MonitorTask.productName task)
                                 analysis response) = true)
        (Hscore : positiveRatio analysis = Some score) :
  let record := recordOf (MonitorTask.userId task) (MonitorTask.productName task)
                         analysis response in
  let flagged := (checkSignificantChange task score).1 in
  let stamped :=
    patchTask (insertAnalysis d record (clock w)) (MonitorTask.id task)
              (stampOf (nextAnalysisId d) (clock w) score) in
  ∃ w',
    executeMonitorTask env task w = (Ok tt, w') ∧
    db w' = Some (if flagged && MonitorTask.notifyInApp task
                  then insertNotification stamped
                         (notificationOf task (nextAnalysisId d) score) (clock w)
                  else stamped) ∧
    ownerNotices (trace w') =
      ownerNotices (trace w) ++
      (if flagged && MonitorTask.notifyEmail task then [noticeOf task score] else []) ∧
    sentimentTrends <$> db w' = Some (sentimentTrends d).
Proof.
  intros record flagged stamped.
  set (p := MonitorTask.productName task) in *.
  unfold executeMonitorTask. fold p. unfold console at 1. rewrite bind_emit.
  fold (startOf task).
  rewrite (bind_ok _ _ _ _ _ (searchSocialMedia_ok env p _ response Hsearch)).
  rewrite afterEvents_afterEvents. simpl app.
  destruct (results response) as [|r0 rest] eqn:Hres; [done|].
  change (Z.of_nat (length (r0 :: rest)) =? 0) with false. cbv iota.
  destruct (analyzeSentiment env p (r0 :: rest) (afterEvents w [startOf task; EvSearch p]))
    as [res w3] eqn:Hrun.
  simpl in Hanalysis. subst res.
  destruct (ownerNotices_analysis env _ _ _ _ _ Hrun) as (Hdb3 & Hclock3 & evs3 & Htrace3 & Hquiet3).
  simpl in Hdb3, Hclock3, Htrace3.
  rewrite (bind_ok _ _ _ _ _ Hrun).
  assert (db w3 = Some d) as Hdb3' by (by rewrite Hdb3).
  fold record.
  rewrite (bind_ok _ _ _ _ _ (createAnalysisRecord_ok env record w3 d Hdb3'
                                (Haccepting _ _) Hcomplete)).
  rewrite Hscore.
  destruct (checkSignificantChange task score) as [has amount] eqn:Hcheck.
  unfold getWorld at 1. unfold bind at 1.
  set (w4 := withDb w3 (insertAnalysis d record (clock w3))).
  rewrite (bind_ok _ _ _ _ _
             (updateMonitorTask_ok env (MonitorTask.id task) _ w4 _ eq_refl (Haccepting _ _))).
  change (clock w4) with (clock w3). rewrite Hclock3.
  fold (stampOf (nextAnalysisId d) (clock w) score). fold stamped.
  set (w5 := withDb w4 stamped).
  subst flagged. simpl.
  destruct has.
  - destruct (notifyChange_ok env task (nextAnalysisId d) score w5 stamped eq_refl
                (λ _, Haccepting _ _)) as (evs & Hnotify & Hevs).
    rewrite Hcheck in Hnotify. simpl in Hnotify.
    rewrite (bind_ok _ _ _ _ _ Hnotify).
    eexists. split; [reflexivity|].
    change (clock w5) with (clock w3). rewrite Hclock3.
    destruct (MonitorTask.notifyInApp task); simpl.
    + split; [done|]. rewrite Htrace3, <- !app_assoc, !ownerNotices_app, Hquiet3, Hevs.
      simpl. split; [|done]. by rewrite app_nil_r.
    + split; [done|]. rewrite Htrace3, <- !app_assoc, !ownerNotices_app, Hquiet3, Hevs.
      simpl. split; [|done]. by rewrite app_nil_r.
  - unfold ret at 1. unfold bind at 1.
    eexists. split; [reflexivity|]. simpl.
    split; [done|]. rewrite Htrace3, <- !app_assoc, !ownerNotices_app, Hquiet3.
    simpl. split; [|done]. by rewrite !app_nil_r.
Qed.

Lemma monitor_run_effects_witness :
  ∃ analysis,
    (analyzeSentiment (steadyEnv threePraisesFiveComplaints (Llm.Parsed seventyTwentyTen))
       "Product" threePraisesFiveComplaints
       (afterEvents (oneTaskWorld (sampleTask 1 "Product" true))
                    [startOf (sampleTask 1 "Product" true); EvSearch "Product"])).1
    = Ok analysis ∧
    ∃ w',
      executeMonitorTask (steadyEnv threePraisesFiveComplaints (Llm.Parsed seventyTwentyTen))
                         (sampleTask 1 "Product" true)
                         (oneTaskWorld (sampleTask 1 "Product" true)) = (Ok tt, w') ∧
      db w' = Some (if (checkSignificantChange (sampleTask 1 "Product" true) 70).1
                       && MonitorTask.notifyInApp (sampleTask 1 "Product" true)
                    then insertNotification
                           (patchTask
                              (insertAnalysis (oneTaskDatabase (sampleTask 1 "Product" true))
                                 (recordOf 7 "Product" analysis
                                           (responseOf threePraisesFiveComplaints)) 1000)
                              1 (stampOf 1 1000 70))
                           (notificationOf (sampleTask 1 "Product" true) 1 70) 1000
                    else patchTask
                           (insertAnalysis (oneTaskDatabase (sampleTask 1 "Product" true))
                              (recordOf 7 "Product" analysis
                                        (responseOf threePraisesFiveComplaints)) 1000)
                           1 (stampOf 1 1000 70)) ∧
      ownerNotices (trace w') =
        ownerNotices [] ++
        (if (checkSignificantChange (sampleTask 1 "Product" true) 70).1
            && MonitorTask.notifyEmail (sampleTask 1 "Product" true)
         then [noticeOf (sampleTask 1 "Product" true) 70] else []) ∧
      sentimentTrends <$> db w' = Some [].
Proof.
  eexists. split; [vm_compute; reflexivity|].
  apply (monitor_run_effects
           (steadyEnv threePraisesFiveComplaints (Llm.Parsed seventyTwentyTen))
           (sampleTask 1 "Product" true) (oneTaskWorld (sampleTask 1 "Product" true))
           (oneTaskDatabase (sampleTask 1 "Product" true))
           (responseOf threePraisesFiveComplaints) _ 70).
  - reflexivity.
  - intros w q. reflexivity.
  - reflexivity.
  - discriminate.
  - vm_compute. reflexivity.
  - vm_compute. reflexivity.
  - reflexivity.
Defined.

(** X14.  A run whose change is significant, with [notifyInApp] set, in which
    the driver rejects the insertion of the notification: the run throws the
    error of the driver after the analysis record is stored and the task is
    stamped with the new score. Nothing is rolled back, the owner is not
    notified either, and [executeMonitoringTasks] logs the error for the task. *)
Theorem monitor_run_notification_rejected (env : Env) (task : MonitorTask.t) (w : World)
        (d : Database) (response : SearchResponse) (analysis : SentimentAnalysis) (score : Z)
        (Hdb : db w = Some d)
        (Hdriver : rejectingNotifications env)
        (Hsearch : searchOutcome env (afterEvents w [startOf task])
                                 (MonitorTask.productName task) = Ok response)
        (Hfound : results response ≠ [])
        (Hanalysis : (analyzeSentiment env (MonitorTask.productName task) (results response)
                        (afterEvents w [startOf task;
                                        EvSearch (MonitorTask.productName task)])).1
                     = Ok analysis)
        (Hcomplete : AnalysisRecord.complete
                       (recordOf (MonitorTask.userId task) (MonitorTask.productName task)
                                 analysis response) = true)
        (Hscore : positiveRatio analysis = Some score)
        (Hflagged : (checkSignificantChange task score).1 = true)
        (HinApp : MonitorTask.notifyInApp task = true) :
  let record := recordOf (MonitorTask.userId task) (MonitorTask.productName task)
                         analysis response in
  let stamped :=
    patchTask (insertAnalysis d record (clock w)) (MonitorTask.id task)
              (stampOf (nextAnalysisId d) (clock w) score) in
  ∃ w',
    executeMonitorTask env task w = (Throw QueryError, w') ∧
    db w' = Some stamped ∧
    ownerNotices (trace w') = ownerNotices (trace w) ∧
    guardedRun env task w
    = (Ok tt, afterEvents w' [EvConsole (LogMonitorTaskError (MonitorTask.id task) QueryError)]).
Proof.
  intros record stamped.
  set (p := MonitorTask.productName task) in *.
  assert (∃ w', executeMonitorTask env task w = (Throw QueryError, w') ∧
                db w' = Some stamped ∧
                ownerNotices (trace w') = ownerNotices (trace w)) as (w' & Hrun & Hdb' & Hown).
  { unfold executeMonitorTask. fold p. unfold console at 1. rewrite bind_emit.
    fold (startOf task).
    rewrite (bind_ok _ _ _ _ _ (searchSocialMedia_ok env p _ response Hsearch)).
    rewrite afterEvents_afterEvents. simpl app.
    destruct (results response) as [|r0 rest] eqn:Hres; [done|].
    change (Z.of_nat (length (r0 :: rest)) =? 0) with false. cbv iota.
    destruct (analyzeSentiment env p (r0 :: rest) (afterEvents w [startOf task; EvSearch p]))
      as [res w3] eqn:Hrun.
    simpl in Hanalysis. subst res.
    destruct (ownerNotices_analysis env _ _ _ _ _ Hrun)
      as (Hdb3 & Hclock3 & evs3 & Htrace3 & Hquiet3).
    simpl in Hdb3, Hclock3, Htrace3.
    rewrite (bind_ok _ _ _ _ _ Hrun).
    assert (db w3 = Some d) as Hdb3' by (by rewrite Hdb3).
    fold record.
    rewrite (bind_ok _ _ _ _ _ (createAnalysisRecord_ok env record w3 d Hdb3'
                                  (Hdriver _ _) Hcomplete)).
    rewrite Hscore.
    destruct (checkSignificantChange task score) as [has amount] eqn:Hcheck.
    simpl in Hflagged. subst has.
    unfold getWorld at 1. unfold bind at 1.
    set (w4 := withDb w3 (insertAnalysis d record (clock w3))).
    rewrite (bind_ok _ _ _ _ _
               (updateMonitorTask_ok env (MonitorTask.id task) _ w4 _ eq_refl (Hdriver _ _))).
    change (clock w4) with (clock w3). rewrite Hclock3.
    fold (stampOf (nextAnalysisId d) (clock w) score). fold stamped.
    set (w5 := withDb w4 stamped).
    assert (notifyChange env task (nextAnalysisId d) score amount w5 = (Throw QueryError, w5))
      as Hnotify.
    { unfold notifyChange. rewrite HinApp. unfold bind.
      rewrite (createNotification_rejected env _ w5 stamped eq_refl (Hdriver _ _)). done. }
    rewrite (bind_throw _ _ _ _ _ Hnotify).
    eexists. split; [reflexivity|]. split; [done|].
    simpl. rewrite Htrace3, <- !app_assoc, !ownerNotices_app, Hquiet3. simpl.
    by rewrite app_nil_r. }
  exists w'. split; [done|]. split; [done|]. split; [done|].
  unfold guardedRun, tryCatch. rewrite Hrun. done.
Qed.

Lemma monitor_run_notification_rejected_witness :
  ∃ analysis,
    (analyzeSentiment (envRejectingNotifications threePraisesFiveComplaints
                                                 (Llm.Parsed seventyTwentyTen))
       "Product" threePraisesFiveComplaints
       (afterEvents (oneTaskWorld (sampleTask 1 "Product" true))
                    [startOf (sampleTask 1 "Product" true); EvSearch "Product"])).1
    = Ok analysis ∧
    ∃ w',
      executeMonitorTask (envRejectingNotifications threePraisesFiveComplaints
                                                    (Llm.Parsed seventyTwentyTen))
                         (sampleTask 1 "Product" true)
                         (oneTaskWorld (sampleTask 1 "Product" true))
      = (Throw QueryError, w') ∧
      db w' = Some (patchTask
                      (insertAnalysis (oneTaskDatabase (sampleTask 1 "Product" true))
                         (recordOf 7 "Product" analysis
                                   (responseOf threePraisesFiveComplaints)) 1000)
                      1 (stampOf 1 1000 70)) ∧
      ownerNotices (trace w') = ownerNotices [] ∧
      guardedRun (envRejectingNotifications threePraisesFiveComplaints
                                            (Llm.Parsed seventyTwentyTen))
                 (sampleTask 1 "Product" true) (oneTaskWorld (sampleTask 1 "Product" true))
      = (Ok tt, afterEvents w' [EvConsole (LogMonitorTaskError 1 QueryError)]).
Proof.
  eexists. split; [vm_compute; reflexivity|].
  apply (monitor_run_notification_rejected
           (envRejectingNotifications threePraisesFiveComplaints (Llm.Parsed seventyTwentyTen))
           (sampleTask 1 "Product" true) (oneTaskWorld (sampleTask 1 "Product" true))
           (oneTaskDatabase (sampleTask 1 "Product" true))
           (responseOf threePraisesFiveComplaints) _ 70).
  - reflexivity.
  - intros w q. reflexivity.
  - reflexivity.
  - discriminate.
  - vm_compute. reflexivity.
  - vm_compute. reflexivity.
  - reflexivity.
  - reflexivity.
  - reflexivity.
Defined.

(** ** Theorems on [analysis.analyze] *)

Section Route.

Variable env : Env.

(** Lines 170-191 of routers.ts: the record is saved for a signed-in user, and
    a failure to save is logged and otherwise ignored. *)
Lemma save_guarded (user : option Z) productName analysis response w :
  ∃ recordId w',
    match user with
    | Some userId =>
        tryCatch
          (insertId <- createAnalysisRecord env
                         (recordOf userId productName analysis response) ;;
           ret (Some insertId))
          (λ error, _ <- console (LogSaveFailed error) ;; ret None)
    | None => ret None
    end w = (Ok recordId, w') ∧
    clock w' = clock w ∧
    ((recordId = None ∧ db w' = db w) ∨
     (∃ userId d, user = Some userId ∧ db w = Some d ∧ recordId = Some (nextAnalysisId d) ∧
                  db w' = Some (insertAnalysis d (recordOf userId productName analysis response)
                                               (clock w)))).
Proof.
  destruct user as [userId|]; [|exists None, w; split; [done|]; split; [done|by left]].
  unfold tryCatch, bind. set (record := recordOf userId productName analysis response).
  destruct (db w) as [d|] eqn:Hdb.
  - destruct (queryFails env w (InsertAnalysisRecord record)) eqn:Hq;
      [|destruct (AnalysisRecord.complete record) eqn:Hc].
    + destruct (createAnalysisRecord_fails env record w) as [e ->]; [tauto|].
      do 2 eexists. split; [reflexivity|]. split; [done|by left].
    + rewrite (createAnalysisRecord_ok env record w d Hdb Hq Hc).
      do 2 eexists. split; [reflexivity|]. split; [done|]. right. by exists userId, d.
    + destruct (createAnalysisRecord_fails env record w) as [e ->]; [tauto|].
      do 2 eexists. split; [reflexivity|]. split; [done|by left].
  - destruct (createAnalysisRecord_fails env record w) as [e ->]; [tauto|].
    do 2 eexists. split; [reflexivity|]. split; [done|]. left. done.
Qed.

Lemma analyze_ok (user : option Z) productName w response :
  1 ≤ JsString.length productName ≤ 200 →
  searchOutcome env w productName = Ok response →
  results response ≠ [] →
  ∃ out w' analysis,
    analyze env user productName w = (Ok out, w') ∧
    (analyzeSentiment env productName (results response)
                      (afterEvents w [EvSearch productName])).1 = Ok analysis ∧
    out = {| outId := outId out; outProductName := productName; outAnalysis := analysis;
             outTotalCommentsAnalyzed := totalFound response;
             outSources := sources response |} ∧
    ((outId out = None ∧ db w' = db w) ∨
     (∃ userId d, user = Some userId ∧ db w = Some d ∧ outId out = Some (nextAnalysisId d) ∧
                  db w' = Some (insertAnalysis d (recordOf userId productName analysis response)
                                               (clock w)))).
Proof.
  intros Hname Hsearch Hfound. unfold analyze.
  assert ((JsString.length productName <? 1) || (200 <? JsString.length productName) = false)
    as -> by (apply orb_false_iff; split; apply Z.ltb_ge; lia).
  rewrite (bind_ok _ _ _ _ _ (searchSocialMedia_ok env productName _ response Hsearch)).
  destruct (results response) as [|r0 rest] eqn:Hres; [done|].
  change (Z.of_nat (length (r0 :: rest)) =? 0) with false. cbv iota.
  destruct (analyzeSentiment env productName (r0 :: rest) (afterEvents w [EvSearch productName]))
    as [res w3] eqn:Hrun.
  destruct (analyzeSentiment_world env productName (r0 :: rest)
              (afterEvents w [EvSearch productName])) as (analysis & evs & Hrun' & _ & _).
  rewrite Hrun in Hrun'. injection Hrun' as -> ->.
  rewrite (bind_ok _ _ _ _ _ Hrun).
  destruct (save_guarded user productName analysis response
              (afterEvents (afterEvents w [EvSearch productName]) evs))
    as (recordId & w' & Hsave & Hclock & Hcases).
  rewrite (bind_ok _ _ _ _ _ Hsave).
  do 3 eexists. split; [reflexivity|]. split; [reflexivity|]. split; [reflexivity|].
  simpl. exact Hcases.
Qed.

End Route.

(** X15.  [analysis.analyze] answers whenever the product name has between 1
    and 200 code units and the search finds something, whatever the language
    model and the database do: the answer carries the summary of
    [analyzeSentiment], the number of results and the sources of the search.
    Either nothing is stored and the answer has no [id], which is always the
    case for a caller who is not signed in and when there is no database; or
    the caller is signed in, exactly the record of this analysis is stored,
    and the answer carries its identifier. *)
Theorem analyze_answers (env : Env) (user : option Z) (productName : string) (w : World)
        (response : SearchResponse)
        (Hname : 1 ≤ JsString.length productName ≤ 200)
        (Hsearch : searchOutcome env w productName = Ok response)
        (Hfound : results response ≠ []) :
  ∃ out w' analysis,
    analyze env user productName w = (Ok out, w') ∧
    (analyzeSentiment env productName (results response)
                      (afterEvents w [EvSearch productName])).1 = Ok analysis ∧
    outProductName out = productName ∧
    outAnalysis out = analysis ∧
    outTotalCommentsAnalyzed out = totalFound response ∧
    outSources out = sources response ∧
    ((outId out = None ∧ db w' = db w) ∨
     (∃ userId d, user = Some userId ∧ db w = Some d ∧ outId out = Some (nextAnalysisId d) ∧
                  db w' = Some (insertAnalysis d (recordOf userId productName analysis response)
                                               (clock w)))) ∧
    (user = None ∨ db w = None → outId out = None ∧ db w' = db w).
Proof.
  destruct (analyze_ok env user productName w response Hname Hsearch Hfound)
    as (out & w' & analysis & Hrun & Hanalysis & Hout & Hcases).
  exists out, w', analysis. split; [done|]. split; [done|].
  split; [by rewrite Hout|]. split; [by rewrite Hout|].
  split; [by rewrite Hout|]. split; [by rewrite Hout|]. split; [exact Hcases|].
  intros Hnone. destruct Hcases as [?|(userId & d & -> & Hd & _)]; [done|].
  destruct Hnone as [?|Hnone]; [done|]. by rewrite Hd in Hnone.
Qed.

Lemma analyze_answers_witness :
  ∃ out w' analysis,
    analyze (steadyEnv threePraisesFiveComplaints Llm.Rejected) (Some 7) "Product" freshWorld
    = (Ok out, w') ∧
    (analyzeSentiment (steadyEnv threePraisesFiveComplaints Llm.Rejected) "Product"
                      (results (responseOf threePraisesFiveComplaints))
                      (afterEvents freshWorld [EvSearch "Product"])).1 = Ok analysis ∧
    outProductName out = "Product" ∧
    outAnalysis out = analysis ∧
    outTotalCommentsAnalyzed out = totalFound (responseOf threePraisesFiveComplaints) ∧
    outSources out = sources (responseOf threePraisesFiveComplaints) ∧
    ((outId out = None ∧ db w' = db freshWorld) ∨
     (∃ userId d, Some 7 = Some userId ∧ db freshWorld = Some d ∧
                  outId out = Some (nextAnalysisId d) ∧
                  db w' = Some (insertAnalysis d
                                  (recordOf userId "Product" analysis
                                            (responseOf threePraisesFiveComplaints))
                                  (clock freshWorld)))) ∧
    (Some 7 = None ∨ db freshWorld = None → outId out = None ∧ db w' = db freshWorld).
Proof.
  apply (analyze_answers (steadyEnv threePraisesFiveComplaints Llm.Rejected) (Some 7)
           "Product" freshWorld (responseOf threePraisesFiveComplaints)).
  - vm_compute. split; discriminate.
  - reflexivity.
  - discriminate.
Defined.

(** ** Theorems on the label of the keyword classifier *)

Section Unanimous.

Lemma div_eucl_exact (a b : Z) : 0 < b → Z.div_eucl (a * b) b = (a, 0).
Proof.
  intros Hb. pose proof (Z.div_mod (a * b) b ltac:(lia)) as Hdm.
  pose proof (Z_div_mult a b ltac:(lia)) as Hq. pose proof (Z_mod_mult a b) as Hr.
  unfold Z.div, Z.modulo in *. destruct (Z.div_eucl (a * b) b) as [q r]. congruence.
Qed.

Lemma div_self (m : BinNums.positive) (e : Z) :
  Zpos (digits2_pos m) = 53 → -52 ≤ e ≤ 0 →
  SFdiv JsNumber.prec JsNumber.emax (S754_finite false m e) (S754_finite false m e)
  = S754_finite false 4503599627370496 (-52).
Proof.
  intros Hd He. unfold SFdiv, SFdiv_core_binary. cbn [Zdigits2]. rewrite Hd.
  replace (53 + e - (53 + e)) with 0 by lia.
  replace (e - e) with 0 by lia.
  change (Z.min (fexp JsNumber.prec JsNumber.emax 0) 0) with (-53).
  change (0 - -53) with 53.
  rewrite Z.shiftl_mul_pow2 by lia.
  replace (Zpos m * 2 ^ 53) with (2 ^ 53 * Zpos m) by lia.
  rewrite div_eucl_exact by lia.
  assert (new_location (Zpos m) 0 = loc_Exact) as ->.
  { unfold new_location, new_location_even, new_location_odd.
    by destruct (Z.even (Zpos m)). }
  reflexivity.
Qed.

Lemma percentage_all (t : Z) : 1 ≤ t < 2 ^ 53 → JsNumber.percentage t t = 100.
Proof.
  intros Ht. unfold JsNumber.percentage, JsNumber.div.
  destruct (Binary64.ofZ_exact t Ht) as (m & e & -> & He & _ & Hd).
  rewrite (div_self m e Hd He). reflexivity.
Qed.

Lemma percentage_none (t : Z) : 1 ≤ t < 2 ^ 53 → JsNumber.percentage 0 t = 0.
Proof.
  intros Ht. unfold JsNumber.percentage, JsNumber.div.
  destruct (Binary64.ofZ_exact t Ht) as (m & e & -> & _). reflexivity.
Qed.

End Unanimous.

Section Labels.

Lemma bucketMembers_all b (searchResults : list SearchResult) :
  Forall (λ r, bucketOf r = b) searchResults → bucketMembers b searchResults = searchResults.
Proof.
  induction 1 as [|r rs Hr _ IH]; [done|]. unfold bucketMembers, inBucket in *. simpl.
  rewrite bool_decide_eq_true_2 by done. by rewrite IH.
Qed.

Lemma bucketMembers_none b b' (searchResults : list SearchResult) :
  b ≠ b' → Forall (λ r, bucketOf r = b) searchResults → bucketMembers b' searchResults = [].
Proof.
  intros Hne. induction 1 as [|r rs Hr _ IH]; [done|]. unfold bucketMembers, inBucket in *.
  simpl. rewrite bool_decide_eq_false_2 by congruence. exact IH.
Qed.

Lemma fallback_counts productName searchResults :
  verdict (getFallbackAnalysis productName searchResults) =
  let total := Z.max (Z.of_nat (length searchResults)) 1 in
  let p := JsNumber.percentage
             (Z.of_nat (length (bucketMembers PositiveBucket searchResults))) total in
  let n := JsNumber.percentage
             (Z.of_nat (length (bucketMembers NegativeBucket searchResults))) total in
  (Some p, Some n, Some (100 - p - n), Some (fallbackSentiment p n)).
Proof.
  unfold verdict, getFallbackAnalysis. cbn [positiveRatio negativeRatio neutralRatio
                                            overallSentiment].
  rewrite tally_tallyOf. cbn [tallyOf Tally.positiveCount Tally.negativeCount].
  assert ((if Z.of_nat (length searchResults) =? 0 then 1 else Z.of_nat (length searchResults))
          = Z.max (Z.of_nat (length searchResults)) 1) as ->.
  { destruct (Z.eqb_spec (Z.of_nat (length searchResults)) 0); lia. }
  reflexivity.
Qed.

End Labels.

(** X16.  When every candidate falls in the same bucket, [getFallbackAnalysis]
    gives that bucket 100 and the other two 0: 100, 0, 0 and the label
    positive when all are positive; 0, 100, 0 and the label negative when all
    are negative; 0, 0, 100 and the label neutral when all are neutral. *)
Theorem fallback_unanimous (productName : string) (searchResults : list SearchResult)
        (Hsome : searchResults ≠ [])
        (Hlen : Z.of_nat (length searchResults) < 2 ^ 53) :
  (Forall (λ r, bucketOf r = PositiveBucket) searchResults →
   verdict (getFallbackAnalysis productName searchResults)
   = (Some 100, Some 0, Some 0, Some positive)) ∧
  (Forall (λ r, bucketOf r = NegativeBucket) searchResults →
   verdict (getFallbackAnalysis productName searchResults)
   = (Some 0, Some 100, Some 0, Some negative)) ∧
  (Forall (λ r, bucketOf r = NeutralBucket) searchResults →
   verdict (getFallbackAnalysis productName searchResults)
   = (Some 0, Some 0, Some 100, Some neutral)).
Proof.
  assert (1 ≤ Z.of_nat (length searchResults)) as Hpos
    by (destruct searchResults; [congruence|simpl; lia]).
  assert (Z.max (Z.of_nat (length searchResults)) 1 = Z.of_nat (length searchResults)) as Hmax
    by lia.
  repeat split; intros Hall; rewrite fallback_counts; cbv zeta; rewrite Hmax.
  - rewrite (bucketMembers_all _ _ Hall),
      (bucketMembers_none PositiveBucket NegativeBucket _ ltac:(done) Hall).
    simpl length. rewrite percentage_all, percentage_none by lia. reflexivity.
  - rewrite (bucketMembers_all _ _ Hall),
      (bucketMembers_none NegativeBucket PositiveBucket _ ltac:(done) Hall).
    simpl length. rewrite percentage_all, percentage_none by lia. reflexivity.
  - rewrite (bucketMembers_none NeutralBucket PositiveBucket _ ltac:(done) Hall),
      (bucketMembers_none NeutralBucket NegativeBucket _ ltac:(done) Hall).
    simpl length. rewrite percentage_none by lia. reflexivity.
Qed.

Lemma fallback_unanimous_witness :
  (Forall (λ r, bucketOf r = PositiveBucket) (numbered "A great tool for my daily work " 3) →
   verdict (getFallbackAnalysis "Product" (numbered "A great tool for my daily work " 3))
   = (Some 100, Some 0, Some 0, Some positive)) ∧
  (Forall (λ r, bucketOf r = NegativeBucket) (numbered "A great tool for my daily work " 3) →
   verdict (getFallbackAnalysis "Product" (numbered "A great tool for my daily work " 3))
   = (Some 0, Some 100, Some 0, Some negative)) ∧
  (Forall (λ r, bucketOf r = NeutralBucket) (numbered "A great tool for my daily work " 3) →
   verdict (getFallbackAnalysis "Product" (numbered "A great tool for my daily work " 3))
   = (Some 0, Some 0, Some 100, Some neutral)).
Proof.
  apply (fallback_unanimous "Product" (numbered "A great tool for my daily work " 3)).
  - discriminate.
  - reflexivity.
Defined.

(** X17.  The label of [getFallbackAnalysis] by its ratios, for fewer than
    2^53 candidates: positive exactly when the positive ratio exceeds 60,
    negative exactly when the negative ratio exceeds 60, mixed exactly when
    neither exceeds 60 and one of them exceeds 40, neutral exactly when
    neither exceeds 40. The two ratios add up to 101 at most, so they never
    both exceed 60 and the order of the tests does not matter. *)
Theorem fallback_label_rule (productName : string) (searchResults : list SearchResult)
        (Hlen : Z.of_nat (length searchResults) < 2 ^ 53) :
  ∃ p n label,
    verdict (getFallbackAnalysis productName searchResults)
    = (Some p, Some n, Some (100 - p - n), Some label) ∧
    0 ≤ p ∧ 0 ≤ n ∧ p + n ≤ 101 ∧
    (label = positive ↔ 60 < p) ∧
    (label = negative ↔ 60 < n) ∧
    (label = mixed ↔ p ≤ 60 ∧ n ≤ 60 ∧ (40 < p ∨ 40 < n)) ∧
    (label = neutral ↔ p ≤ 40 ∧ n ≤ 40).
Proof.
  rewrite fallback_counts. cbv zeta.
  pose proof (bucketMembers_total searchResults) as Htotal.
  set (total := Z.max (Z.of_nat (length searchResults)) 1).
  set (cp := Z.of_nat (length (bucketMembers PositiveBucket searchResults))).
  set (cn := Z.of_nat (length (bucketMembers NegativeBucket searchResults))).
  assert (0 ≤ cp ∧ 0 ≤ cn ∧ cp + cn ≤ total ∧ 1 ≤ total < 2 ^ 53) as (H1 & H2 & H3 & H4)
    by (unfold cp, cn, total; lia).
  pose proof (Binary64.percentage_range cp total ltac:(lia) H4) as Hp.
  pose proof (Binary64.percentage_range cn total ltac:(lia) H4) as Hn.
  pose proof (Binary64.percentage_pair cp cn total H1 H2 H3 H4) as Hpair.
  set (p := JsNumber.percentage cp total) in *. set (n := JsNumber.percentage cn total) in *.
  exists p, n, (fallbackSentiment p n). split; [done|].
  split; [lia|]. split; [lia|]. split; [lia|].
  unfold fallbackSentiment.
  destruct (Z.ltb_spec 60 p); [repeat split; intros; (done || lia)|].
  destruct (Z.ltb_spec 60 n); [repeat split; intros; (done || lia)|].
  destruct (Z.ltb_spec 40 p); simpl; [repeat split; intros; (done || lia)|].
  destruct (Z.ltb_spec 40 n); simpl; repeat split; intros; (done || lia).
Qed.

Lemma fallback_label_rule_witness :
  ∃ p n label,
    verdict (getFallbackAnalysis "Product" threePraisesFiveComplaints)
    = (Some p, Some n, Some (100 - p - n), Some label) ∧
    0 ≤ p ∧ 0 ≤ n ∧ p + n ≤ 101 ∧
    (label = positive ↔ 60 < p) ∧
    (label = negative ↔ 60 < n) ∧
    (label = mixed ↔ p ≤ 60 ∧ n ≤ 60 ∧ (40 < p ∨ 40 < n)) ∧
    (label = neutral ↔ p ≤ 40 ∧ n ≤ 40).
Proof.
  apply (fallback_label_rule "Product" threePraisesFiveComplaints). reflexivity.
Defined.

(** ** Theorems on the order of binary64 quotients *)

Module Binary64Order.

Import Binary64.

(** A mantissa of exactly 53 bits. *)

Lemma Zdigits2_eq (m k : Z) : 1 ≤ k → 2 ^ (k - 1) ≤ m < 2 ^ k → Zdigits2 m = k.
Proof.
  intros Hk Hm. assert (0 < 2 ^ (k - 1)) by (apply Z.pow_pos_nonneg; lia).
  destruct m as [|p|p]; try lia. simpl.
  pose proof (digits2_pos_bounds p) as Hd.
  assert (Zpos (digits2_pos p) ≤ k) by (apply digits_le; lia).
  destruct (Z_lt_le_dec (Zpos (digits2_pos p)) k) as [Hlt|]; [|lia].
  assert (2 ^ Zpos (digits2_pos p) ≤ 2 ^ (k - 1)) by (apply Z.pow_le_mono_r; lia). lia.
Qed.

Lemma Zdigits2_bounds (m : Z) : 1 ≤ m → 2 ^ (Zdigits2 m - 1) ≤ m < 2 ^ Zdigits2 m.
Proof. intros Hm. destruct m as [|p|p]; try lia. apply digits2_pos_bounds. Qed.

Lemma Zdigits2_pos (m : Z) : 1 ≤ m → 1 ≤ Zdigits2 m.
Proof. intros Hm. destruct m as [|p|p]; try lia. simpl. lia. Qed.

(** Shifting a mantissa of [53 + s] bits right by [s] bits. *)
Lemma shifted_normal (m s : Z) :
  0 ≤ s → 2 ^ (52 + s) ≤ m < 2 ^ (53 + s) → normalMantissa (m / 2 ^ s).
Proof.
  intros Hs Hm. unfold normalMantissa.
  assert (0 < 2 ^ s) by (apply Z.pow_pos_nonneg; lia).
  rewrite !Z.pow_add_r in Hm by lia. split.
  - apply Z.div_le_lower_bound; lia.
  - apply Z.div_lt_upper_bound; lia.
Qed.

(** [binary_round_aux] on a mantissa of at least 53 bits, away from overflow
    and underflow: the result is finite and normal, and lies between the
    mantissa cut to 53 bits and the next 53-bit number. *)
Lemma binary_round_aux_normal (sx : bool) (mx ex : Z) (lx : location) :
  2 ^ 52 ≤ mx → -1074 ≤ ex → ex + (Zdigits2 mx - 53) + 1 ≤ 971 →
  let s := Zdigits2 mx - 53 in
  ∃ m k,
    binary_round_aux JsNumber.prec JsNumber.emax sx mx ex lx = S754_finite sx m (ex + k) ∧
    normalMantissa (Zpos m) ∧ 0 ≤ s ≤ k ∧ k ≤ s + 1 ∧
    (mx / 2 ^ s) * 2 ^ s ≤ Zpos m * 2 ^ k ≤ (mx / 2 ^ s + 1) * 2 ^ s.
Proof.
  intros Hmx Hex Hov s.
  pose proof (Zdigits2_bounds mx ltac:(lia)) as Hd.
  assert (53 ≤ Zdigits2 mx) as Hd53.
  { destruct (Z_lt_le_dec (Zdigits2 mx) 53) as [Hlt|]; [|lia].
    assert (2 ^ Zdigits2 mx ≤ 2 ^ 52) by (apply Z.pow_le_mono_r; lia). lia. }
  assert (0 ≤ s) as Hs by (unfold s; lia).
  assert (shiftOf mx ex = s) as Hshift.
  { unfold shiftOf, fexp, emin, JsNumber.prec, JsNumber.emax, s. lia. }
  unfold binary_round_aux.
  destruct (shr_fexp_m mx ex lx ltac:(lia)) as [H1 H1e].
  destruct (shr_fexp JsNumber.prec JsNumber.emax mx ex lx) as [mrs' e']. simpl in H1, H1e.
  rewrite Hshift in H1, H1e.
  assert (normalMantissa (shr_m mrs')) as Hn1.
  { rewrite H1. apply shifted_normal; [lia|]. unfold s.
    replace (52 + (Zdigits2 mx - 53)) with (Zdigits2 mx - 1) by lia.
    replace (53 + (Zdigits2 mx - 53)) with (Zdigits2 mx) by lia. exact Hd. }
  set (mr := round_nearest_even (shr_m mrs') (loc_of_shr_record mrs')).
  pose proof (round_nearest_even_bounds (shr_m mrs') (loc_of_shr_record mrs')) as Hr.
  fold mr in Hr. unfold normalMantissa in Hn1.
  destruct (shr_fexp_m mr e' loc_Exact ltac:(lia)) as [H2 H2e].
  destruct (shr_fexp JsNumber.prec JsNumber.emax mr e' loc_Exact) as [mrs'' e''].
  simpl in H2, H2e.
  assert (0 < 2 ^ s) by (apply Z.pow_pos_nonneg; lia).
  destruct (Z_lt_le_dec mr (2 ^ 53)) as [Hlt|Hge].
  - assert (Zdigits2 mr = 53) as Hdr by (apply Zdigits2_eq; lia).
    assert (shiftOf mr e' = 0) as Hs2.
    { unfold shiftOf, fexp, emin, JsNumber.prec, JsNumber.emax. rewrite Hdr. lia. }
    rewrite Hs2 in H2, H2e. rewrite Z.pow_0_r, Z.div_1_r in H2.
    destruct (shr_m mrs'') as [|m|m] eqn:Em; try lia.
    assert ((e'' <=? JsNumber.emax - JsNumber.prec) = true) as ->.
    { apply Z.leb_le. unfold JsNumber.emax, JsNumber.prec. lia. }
    exists m, s. split; [f_equal; lia|]. split; [unfold normalMantissa; lia|].
    split; [lia|]. split; [lia|]. rewrite H2, <- H1. nia.
  - assert (mr = 2 ^ 53) as Hmr by lia.
    assert (Zdigits2 mr = 54) as Hdr by (rewrite Hmr; reflexivity).
    assert (shiftOf mr e' = 1) as Hs2.
    { unfold shiftOf, fexp, emin, JsNumber.prec, JsNumber.emax. rewrite Hdr. lia. }
    rewrite Hs2 in H2, H2e. rewrite Hmr in H2. change (2 ^ 53 / 2 ^ 1) with (2 ^ 52) in H2.
    destruct (shr_m mrs'') as [|m|m] eqn:Em; try lia.
    assert ((e'' <=? JsNumber.emax - JsNumber.prec) = true) as ->.
    { apply Z.leb_le. unfold JsNumber.emax, JsNumber.prec. lia. }
    exists m, (s + 1). split; [f_equal; lia|]. split; [unfold normalMantissa; lia|].
    split; [lia|]. split; [lia|].
    rewrite H2, <- H1, Z.pow_add_r by lia. change (2 ^ 52 * (2 ^ s * 2 ^ 1)) with (2 ^ 52 * (2 ^ s * 2)).
    replace (2 ^ 52 * (2 ^ s * 2)) with (2 ^ 53 * 2 ^ s) by (change (2 ^ 53) with (2 ^ 52 * 2); ring).
    assert (shr_m mrs' + 1 = 2 ^ 53) as -> by lia. nia.
Qed.


(** The quotient of two normal numbers with exponents between -52 and 0. *)
Lemma div_normal (mc mt : BinNums.positive) (ec et : Z) :
  normalMantissa (Zpos mc) → normalMantissa (Zpos mt) → -52 ≤ ec ≤ 0 → -52 ≤ et ≤ 0 →
  let Q := (Zpos mc * 2 ^ 53) / Zpos mt in
  ∃ m k s,
    SFdiv JsNumber.prec JsNumber.emax (S754_finite false mc ec) (S754_finite false mt et)
    = S754_finite false m (ec - et - 53 + k) ∧
    normalMantissa (Zpos m) ∧ 0 ≤ s ≤ 1 ∧ s ≤ k ≤ s + 1 ∧
    (Q / 2 ^ s) * 2 ^ s ≤ Zpos m * 2 ^ k ≤ Q + 2.
Proof.
  intros Hc Ht Hec Het Q. unfold normalMantissa in Hc, Ht.
  assert (Zdigits2 (Zpos mc) = 53) as Hdc by (apply Zdigits2_eq; lia).
  assert (Zdigits2 (Zpos mt) = 53) as Hdt by (apply Zdigits2_eq; lia).
  unfold SFdiv, SFdiv_core_binary. rewrite Hdc, Hdt.
  assert (Z.min (fexp JsNumber.prec JsNumber.emax (53 + ec - (53 + et))) (ec - et)
          = ec - et - 53) as ->.
  { unfold fexp, emin, JsNumber.prec, JsNumber.emax. lia. }
  replace (ec - et - (ec - et - 53)) with 53 by lia.
  rewrite Z.shiftl_mul_pow2 by lia.
  assert (Z.div_eucl (Zpos mc * 2 ^ 53) (Zpos mt)
          = (Q, (Zpos mc * 2 ^ 53) mod Zpos mt)) as ->.
  { unfold Q, Z.div, Z.modulo. destruct (Z.div_eucl _ _). reflexivity. }
  assert (2 ^ 52 ≤ Q < 2 ^ 54) as HQ.
  { unfold Q. split.
    - apply Z.div_le_lower_bound; lia.
    - apply Z.div_lt_upper_bound; lia. }
  assert (53 ≤ Zdigits2 Q ≤ 54) as HdQ.
  { pose proof (Zdigits2_bounds Q ltac:(lia)) as Hb. split.
    - destruct (Z_lt_le_dec (Zdigits2 Q) 53) as [Hlt|]; [|lia].
      assert (2 ^ Zdigits2 Q ≤ 2 ^ 52) by (apply Z.pow_le_mono_r; lia). lia.
    - apply Zdigits2_le; lia. }
  cbn [xorb].
  destruct (binary_round_aux_normal false Q (ec - et - 53)
              (new_location (Zpos mt) ((Zpos mc * 2 ^ 53) mod Zpos mt))
              ltac:(lia) ltac:(lia) ltac:(lia))
    as (m & k & Hround & Hnormal & Hk & Hk' & Hlo & Hhi).
  exists m, k, (Zdigits2 Q - 53). split; [exact Hround|]. split; [exact Hnormal|].
  split; [lia|]. split; [lia|]. split; [exact Hlo|].
  set (s := Zdigits2 Q - 53) in *.
  assert (0 < 2 ^ s) by (apply Z.pow_pos_nonneg; lia).
  assert (2 ^ s ≤ 2) by (change 2 with (2 ^ 1) at 2; apply Z.pow_le_mono_r; lia).
  assert (Q / 2 ^ s * 2 ^ s ≤ Q) by (rewrite Z.mul_comm; apply Z.mul_div_le; lia).
  lia.
Qed.


(** [SFleb] on two positive normal numbers compares their values. *)
Lemma leb_normal (a b : BinNums.positive) (ea eb base : Z) :
  normalMantissa (Zpos a) → normalMantissa (Zpos b) → base ≤ ea → base ≤ eb →
  SFleb (S754_finite false a ea) (S754_finite false b eb) = true ↔
  Zpos a * 2 ^ (ea - base) ≤ Zpos b * 2 ^ (eb - base).
Proof.
  intros Ha Hb Hea Heb. unfold normalMantissa in *. unfold SFleb, SFcompare.
  assert (0 < 2 ^ (ea - base)) by (apply Z.pow_pos_nonneg; lia).
  assert (0 < 2 ^ (eb - base)) by (apply Z.pow_pos_nonneg; lia).
  destruct (Z.compare_spec ea eb) as [->|Hlt|Hgt].
  - change (PosDef.Pos.compare_cont Eq a b) with (Zpos a ?= Zpos b).
    destruct (Z.compare_spec (Zpos a) (Zpos b)) as [Heq|Hl|Hg].
    + rewrite Heq. split; [lia|done].
    + split; [|done]. intros _. apply Z.mul_le_mono_nonneg_r; lia.
    + split; [done|]. intros Hle. exfalso.
      assert (Zpos b * 2 ^ (eb - base) < Zpos a * 2 ^ (eb - base))
        by (apply Z.mul_lt_mono_pos_r; lia). lia.
  - split; [|done]. intros _.
    replace (eb - base) with ((ea - base) + (eb - ea)) by lia.
    rewrite Z.pow_add_r by lia.
    assert (2 ^ 1 ≤ 2 ^ (eb - ea)) by (apply Z.pow_le_mono_r; lia).
    assert (Zpos a * 2 ^ (ea - base) ≤ 2 ^ 53 * 2 ^ (ea - base))
      by (apply Z.mul_le_mono_nonneg_r; lia).
    assert (2 ^ 52 * 2 ^ (ea - base) * 2 ^ 1 ≤ Zpos b * 2 ^ (ea - base) * 2 ^ (eb - ea)).
    { apply Z.mul_le_mono_nonneg; [apply Z.mul_nonneg_nonneg; lia
                                  |apply Z.mul_le_mono_nonneg_r; lia|lia|lia]. }
    change (2 ^ 53) with (2 ^ 52 * 2 ^ 1) in *. lia.
  - split; [done|]. intros Hle. exfalso.
    replace (ea - base) with ((eb - base) + (ea - eb)) in Hle by lia.
    rewrite Z.pow_add_r in Hle by lia.
    assert (2 ^ 1 ≤ 2 ^ (ea - eb)) by (apply Z.pow_le_mono_r; lia).
    assert (Zpos b * 2 ^ (eb - base) < 2 ^ 53 * 2 ^ (eb - base))
      by (apply Z.mul_lt_mono_pos_r; lia).
    assert (2 ^ 52 * 2 ^ (eb - base) * 2 ^ 1 ≤ Zpos a * 2 ^ (eb - base) * 2 ^ (ea - eb)).
    { apply Z.mul_le_mono_nonneg; [apply Z.mul_nonneg_nonneg; lia
                                  |apply Z.mul_le_mono_nonneg_r; lia|lia|lia]. }
    change (2 ^ 53) with (2 ^ 52 * 2 ^ 1) in *. lia.
Qed.

Lemma ofZ_normal (z : Z) :
  1 ≤ z < 2 ^ 53 →
  ∃ m e, JsNumber.ofZ z = S754_finite false m e ∧ -52 ≤ e ≤ 0 ∧
         Zpos m = z * 2 ^ (- e) ∧ normalMantissa (Zpos m).
Proof.
  intros Hz. destruct (ofZ_exact z Hz) as (m & e & Hm & He & Hv & Hd).
  exists m, e. repeat split; try done; pose proof (digits2_pos_bounds m) as Hb;
    rewrite Hd in Hb; change (53 - 1) with 52 in Hb; lia.
Qed.


(** Arithmetic of the comparison of a quotient with an integer [H]: [D] and
    [T] are the mantissas of [d] and [t], [P] and [R] the powers of two that
    scale them, [J] the power of two that scales [H], and [V] the scaled
    result. *)
Lemma arith_threshold_ge (H t d D T P R J J' Q s V : Z) :
  0 < P → 0 < R → 0 < t → 0 ≤ H → D = d * P → T = t * R →
  J * R = 2 ^ 53 * P → J = 2 * J' → 0 ≤ J' →
  Q = (D * 2 ^ 53) / T → 0 ≤ s ≤ 1 → (Q / 2 ^ s) * 2 ^ s ≤ V →
  H * t ≤ d → H * J ≤ V.
Proof.
  intros HP HR Ht HH HD HT HJ HJ' HJ0 HQ Hs HV Hle.
  assert (0 < T) as HTpos by (subst T; apply Z.mul_pos_pos; lia).
  assert (H * J * T = H * t * (2 ^ 53 * P)) as E1.
  { subst T. replace (H * J * (t * R)) with (H * t * (J * R)) by ring. by rewrite HJ. }
  assert (D * 2 ^ 53 = d * (2 ^ 53 * P)) as E2 by (subst D; ring).
  assert (H * J ≤ Q) as HsQ.
  { subst Q. apply Z.div_le_lower_bound; [lia|].
    rewrite Z.mul_comm, E1, E2. apply Z.mul_le_mono_nonneg_r; lia. }
  assert (s = 0 ∨ s = 1) as [->| ->] by lia.
  - rewrite Z.pow_0_r, Z.div_1_r, Z.mul_1_r in HV. lia.
  - change (2 ^ 1) with 2 in HV.
    assert (H * J' ≤ Q / 2) as Hhalf.
    { apply Z.div_le_lower_bound; [lia|]. subst J. lia. }
    subst J. lia.
Qed.

Lemma arith_threshold_lt (H t d D T P R J Q V : Z) (ec : Z) :
  P = 2 ^ (- ec) → ec ≤ 0 → 0 < R → 0 < t → 1 ≤ d → 0 ≤ H →
  D = d * P → T = t * R → 2 ^ 52 ≤ D → T < 2 ^ 53 →
  J * R = 2 ^ 53 * P →
  Q = (D * 2 ^ 53) / T → V ≤ Q + 2 →
  H * t < 2 ^ 51 → d < H * t → V < H * J.
Proof.
  intros HP Hec HR Ht Hd HH HD HT HDn HTn HJ HQ HV Hsmall Hlt.
  assert (0 < T) as HTpos by (subst T; apply Z.mul_pos_pos; lia).
  assert (4 ≤ P) as HP4.
  { subst P. destruct (Z_le_gt_dec 2 (- ec)) as [Hge|Hlt2].
    - change 4 with (2 ^ 2). apply Z.pow_le_mono_r; lia.
    - exfalso. assert (2 ^ (- ec) ≤ 2 ^ 1) by (apply Z.pow_le_mono_r; lia).
      assert (d * 2 ^ (- ec) ≤ d * 2 ^ 1) by (apply Z.mul_le_mono_nonneg_l; lia).
      change (2 ^ 1) with 2 in *. lia. }
  assert (H * J * T = H * t * (2 ^ 53 * P)) as E1.
  { subst T. replace (H * J * (t * R)) with (H * t * (J * R)) by ring. by rewrite HJ. }
  assert (D * 2 ^ 53 = d * (2 ^ 53 * P)) as E2 by (subst D; ring).
  assert (Q * T ≤ D * 2 ^ 53) as HQT.
  { subst Q. rewrite Z.mul_comm. apply Z.mul_div_le. lia. }
  assert ((d + 1) * (2 ^ 53 * P) ≤ H * t * (2 ^ 53 * P)) as Hgap
    by (apply Z.mul_le_mono_nonneg_r; lia).
  assert (2 ^ 53 * 4 ≤ 2 ^ 53 * P) as H4 by (apply Z.mul_le_mono_nonneg_l; lia).
  assert (Q * T + 4 * T < H * J * T) as Hstrict.
  { rewrite E1. replace ((d + 1) * (2 ^ 53 * P)) with (d * (2 ^ 53 * P) + 2 ^ 53 * P) in Hgap
      by ring. lia. }
  assert (Q + 4 < H * J) as Hfin.
  { apply (Z.mul_lt_mono_pos_r T); [lia|]. lia. }
  lia.
Qed.

(** The comparison [x / t >= H] on binary64 numbers, for integers [d], [t]
    and [H]: it holds exactly when [d >= H * t]. *)
Lemma div_ge_iff (d t H : Z) :
  1 ≤ d < 2 ^ 53 → 1 ≤ t → 1 ≤ H → H * t < 2 ^ 51 →
  SFleb (JsNumber.ofZ H) (JsNumber.div (JsNumber.ofZ d) (JsNumber.ofZ t)) = true ↔ H * t ≤ d.
Proof.
  intros Hd Ht HH Hsmall.
  assert (t < 2 ^ 51 ∧ H < 2 ^ 51) as [Ht' HH'] by nia.
  destruct (ofZ_normal d ltac:(lia)) as (mc & ec & -> & Hec & Hmc & Hnc).
  destruct (ofZ_normal t ltac:(lia)) as (mt & et & -> & Het & Hmt & Hnt).
  destruct (ofZ_normal H ltac:(lia)) as (mh & eh & -> & Heh & Hmh & Hnh).
  unfold JsNumber.div.
  destruct (div_normal mc mt ec et Hnc Hnt Hec Het) as (m & k & s & -> & Hn & Hs & Hk & Hlo & Hhi).
  rewrite (leb_normal mh m eh (ec - et - 53 + k) (-158)) by (done || lia).
  set (Q := Z.pos mc * 2 ^ 53 / Z.pos mt) in *.
  set (j := 53 + et - ec).
  assert (0 < 2 ^ (- ec)) as HP by (apply Z.pow_pos_nonneg; lia).
  assert (0 < 2 ^ (- et)) as HR by (apply Z.pow_pos_nonneg; lia).
  assert (0 < 2 ^ k) as Hk2 by (apply Z.pow_pos_nonneg; lia).
  assert (0 < 2 ^ (ec - et + 105)) as Hg by (apply Z.pow_pos_nonneg; lia).
  assert (Zpos mh * 2 ^ (eh - -158) = H * 2 ^ j * 2 ^ (ec - et + 105)) as ->.
  { rewrite Hmh. rewrite <- !Z.mul_assoc, <- !Z.pow_add_r by lia. do 2 f_equal. unfold j. lia. }
  assert (Zpos m * 2 ^ (ec - et - 53 + k - -158) = Zpos m * 2 ^ k * 2 ^ (ec - et + 105)) as ->.
  { rewrite <- !Z.mul_assoc, <- !Z.pow_add_r by lia. do 2 f_equal. lia. }
  assert (2 ^ j * 2 ^ (- et) = 2 ^ 53 * 2 ^ (- ec)) as HJ.
  { rewrite <- !Z.pow_add_r by (unfold j; lia). f_equal. unfold j. lia. }
  assert (2 ^ j = 2 * 2 ^ (j - 1)) as HJ'.
  { replace j with (1 + (j - 1)) at 1 by lia. rewrite Z.pow_add_r by (unfold j; lia). done. }
  assert (0 ≤ 2 ^ (j - 1)) by (apply Z.pow_nonneg; lia).
  unfold normalMantissa in *.
  split.
  - intros Hle. apply Z.mul_le_mono_pos_r in Hle; [|lia].
    destruct (Z_le_gt_dec (H * t) d) as [|Hgt]; [done|exfalso].
    pose proof (arith_threshold_lt H t d (Zpos mc) (Zpos mt) (2 ^ (- ec)) (2 ^ (- et))
                  (2 ^ j) Q (Zpos m * 2 ^ k) ec
                  eq_refl ltac:(lia) HR ltac:(lia) ltac:(lia) ltac:(lia) Hmc Hmt
                  ltac:(lia) ltac:(lia) HJ eq_refl ltac:(lia) Hsmall ltac:(lia)).
    lia.
  - intros Hle. apply Z.mul_le_mono_nonneg_r; [lia|].
    apply (arith_threshold_ge H t d (Zpos mc) (Zpos mt) (2 ^ (- ec)) (2 ^ (- et))
             (2 ^ j) (2 ^ (j - 1)) Q s); try done; lia.
Qed.

End Binary64Order.

(** ** Theorems on [shouldTaskRun] *)

Module Binary64Sign.

Lemma leb_round_negative (m : BinNums.positive) (e mx ex : Z) (lx : location) :
  SFleb (S754_finite false m e)
        (binary_round_aux JsNumber.prec JsNumber.emax true mx ex lx) = false.
Proof.
  unfold binary_round_aux.
  destruct (shr_fexp _ _ mx ex lx) as [mrs' e'].
  destruct (shr_fexp _ _ _ e' loc_Exact) as [mrs'' e''].
  destruct (shr_m mrs''); try done.
  by destruct (e'' <=? _).
Qed.

Lemma ofZ_negative (z : Z) :
  z < 0 → ∃ mx ex lx, JsNumber.ofZ z = binary_round_aux JsNumber.prec JsNumber.emax true mx ex lx.
Proof.
  intros Hz. destruct z as [|p|p]; try lia.
  unfold JsNumber.ofZ, binary_normalize, binary_round.
  destruct (shl_align p 0 _) as [mz ez]. eauto.
Qed.

Lemma leb_div_negative (m : BinNums.positive) (e z t : Z) :
  z ≤ 0 → 1 ≤ t < 2 ^ 53 →
  SFleb (S754_finite false m e) (JsNumber.div (JsNumber.ofZ z) (JsNumber.ofZ t)) = false.
Proof.
  intros Hz Ht.
  destruct (Binary64Order.ofZ_normal t Ht) as (mt & et & -> & _).
  destruct (Z_le_lt_eq_dec z 0 Hz) as [Hneg| ->]; [|done].
  destruct (ofZ_negative z Hneg) as (mx & ex & lx & ->).
  unfold binary_round_aux.
  destruct (shr_fexp _ _ mx ex lx) as [mrs' e'].
  destruct (shr_fexp _ _ _ e' loc_Exact) as [mrs'' e''].
  destruct (shr_m mrs'') as [|q|q]; try done.
  destruct (e'' <=? _); [|done].
  unfold JsNumber.div, SFdiv. cbn [xorb].
  destruct (SFdiv_core_binary _ _ _ _ _ _) as [[md ed] ld].
  apply leb_round_negative.
Qed.

End Binary64Sign.

(** X18.  Whether a task is due: a task never analysed is, and one analysed at
    [lastRun] is exactly when a whole period (24, 168 or 720 hours) has passed
    since, to the millisecond: the division by 3600000 and the comparison in
    binary64 lose nothing. *)
Theorem shouldTaskRun_exact (frequency : Frequency) (lastAnalyzedAt : option Z) (now : Z) :
  (∀ lastRun, lastAnalyzedAt = Some lastRun → now - lastRun < 2 ^ 53) →
  shouldTaskRun frequency lastAnalyzedAt now
  = match lastAnalyzedAt with
    | None => true
    | Some lastRun => bool_decide (lastRun + periodOf frequency ≤ now)
    end.
Proof.
  intros Hvalid. destruct lastAnalyzedAt as [lastRun|]; [|done].
  specialize (Hvalid lastRun eq_refl). unfold shouldTaskRun, hoursSinceLastRun.
  change (1000 * 60 * 60) with 3600000.
  destruct (Z_le_gt_dec (now - lastRun) 0) as [Hle|Hpos].
  - rewrite bool_decide_eq_false_2 by (destruct frequency; unfold periodOf; lia).
    destruct frequency;
      match goal with
      | |- SFleb (JsNumber.ofZ ?H) _ = _ =>
          destruct (Binary64Order.ofZ_normal H ltac:(lia)) as (mh & eh & -> & _)
      end; apply Binary64Sign.leb_div_negative; lia.
  - destruct frequency; unfold periodOf;
      match goal with
      | |- SFleb (JsNumber.ofZ ?H) (JsNumber.div _ (JsNumber.ofZ ?t)) = _ =>
          pose proof (Binary64Order.div_ge_iff (now - lastRun) t H
                        ltac:(lia) ltac:(lia) ltac:(lia) ltac:(lia)) as Hiff
      end;
      case_bool_decide as Hdec.
    all: try (apply Hiff; lia).
    all: apply not_true_is_false; intros Htrue; apply Hiff in Htrue; lia.
Qed.

Lemma shouldTaskRun_exact_witness :
  shouldTaskRun daily (Some 1700000000000) 1700086399999 = false
  ∧ shouldTaskRun daily (Some 1700000000000) 1700086400000 = true.
Proof.
  split.
  - rewrite (shouldTaskRun_exact daily (Some 1700000000000) 1700086399999).
    + reflexivity.
    + intros lastRun [= <-]. reflexivity.
  - reflexivity.
Defined.
